(** * Keithley 6485 / 648x asyn port drivers: a shallow embedding

    The two driver sources, [k6485App/src/drvAsynKeithley6485.cpp] and
    [k648xApp/src/drvAsynKeithley648x.cpp], are embedded as Rocq functions
    over an explicit port structure.  The asyn transport
    ([pasynOctetSyncIO]) is a parameter of the handlers; undefined
    behaviour of the C code (NULL dereference, uninitialised reads) is an
    explicit outcome. *)

From Stdlib Require Import ZArith List String Ascii Bool Lia.
From Stdlib Require Import Floats.PrimFloat Floats.SpecFloat Floats.FloatOps.
From Stdlib Require Import DecimalString.
From Stdlib Require DecimalFacts DecimalPos.
Import ListNotations.

Local Open Scope string_scope.
Local Open Scope Z_scope.

(** ** The C library, as far as the drivers use it *)

Module Libc.

(** C strings.  A buffer is a [string] that may hold NUL bytes; the C string
    at an offset runs to the first NUL, or to the end of the buffer (every
    buffer of the drivers is followed by a terminator: [writeRead] stores
    one, and the port structure comes zeroed from [callocMustSucceed]). *)

Definition NUL : ascii := Ascii.zero.

Definition is_NUL (c : ascii) : bool := Ascii.eqb c NUL.

(** The C string that starts at the head of a buffer. *)
Fixpoint cstr (buf : string) : string :=
  match buf with
  | EmptyString => EmptyString
  | String c rest => if is_NUL c then EmptyString else String c (cstr rest)
  end.

(** The buffer from offset [off] on (the pointer [buf + off]). *)
Fixpoint advance (buf : string) (off : nat) : string :=
  match off, buf with
  | O, _ => buf
  | S n, EmptyString => EmptyString
  | S n, String _ rest => advance rest n
  end.

Definition cstr_at (buf : string) (off : nat) : string := cstr (advance buf off).

Definition strlen (s : string) : nat := String.length (cstr s).

(** [strchr(buf + from, c)] for a character [c] other than NUL: the offset in
    [buf] of the first [c] at or after [from] and before the terminator;
    [None] is the NULL pointer. *)
Fixpoint strchr_from (s : string) (c : ascii) (pos : nat) : option nat :=
  match s with
  | EmptyString => None
  | String d rest =>
      if is_NUL d then None
      else if Ascii.eqb d c then Some pos
      else strchr_from rest c (S pos)
  end.

Definition strchr (buf : string) (from : nat) (c : ascii) : option nat :=
  strchr_from (advance buf from) c from.

(** [buf[off] = c] for an offset inside the buffer. *)
Fixpoint poke (buf : string) (off : nat) (c : ascii) : string :=
  match buf, off with
  | EmptyString, _ => EmptyString
  | String _ rest, O => String c rest
  | String d rest, S n => String d (poke rest n c)
  end.

(** [strcmp(a, b) == 0]. *)
Definition strcmp_eq (a b : string) : bool := String.eqb (cstr a) (cstr b).

Definition toupper (c : ascii) : ascii :=
  let n := nat_of_ascii c in
  if (Nat.leb 97 n && Nat.leb n 122)%bool then ascii_of_nat (n - 32) else c.

Definition isspace (c : ascii) : bool :=
  let n := nat_of_ascii c in
  (Nat.eqb n 32 || (Nat.leb 9 n && Nat.leb n 13))%bool.

Definition digit_val (c : ascii) : option Z :=
  let n := nat_of_ascii c in
  if (Nat.leb 48 n && Nat.leb n 57)%bool then Some (Z.of_nat (n - 48)) else None.

Fixpoint skip_space (s : string) : string :=
  match s with
  | String c rest => if isspace c then skip_space rest else s
  | EmptyString => s
  end.

(** Leading decimal digits: their value on top of [acc], how many there
    were, and the rest of the text. *)
Fixpoint digits (s : string) (acc : Z) (n : nat) : Z * nat * string :=
  match s with
  | String c rest =>
      match digit_val c with
      | Some d => digits rest (10 * acc + d) (S n)
      | None => (acc, n, s)
      end
  | EmptyString => (acc, n, s)
  end.

(** An optional sign: [true] for '-'. *)
Definition sign (s : string) : bool * string :=
  match s with
  | String "-" rest => (true, rest)
  | String "+" rest => (false, rest)
  | _ => (false, s)
  end.

(** 32-bit two's complement [int]. *)
Definition INT_MAX : Z := 2147483647.
Definition INT_MIN : Z := -2147483648.
Definition wrap_int (z : Z) : Z := (z + 2147483648) mod 4294967296 - 2147483648.

(** [atoi]: white space, an optional sign, decimal digits; 0 when there is
    no digit.  C leaves a value outside [int] undefined; it wraps here. *)
Definition atoi (s : string) : Z :=
  let '(neg, r) := sign (skip_space (cstr s)) in
  let '(v, _, _) := digits r 0 O in
  wrap_int (if neg then - v else v).

(** [printf("%d")]. *)
Definition printf_d (z : Z) : string := NilEmpty.string_of_int (Z.to_int z).

(** *** Doubles

    A C [double] is a binary64 number, Rocq's primitive [float]. *)

Definition double : Set := float.

(** The binary64 number nearest to [m * 10^e] (ties to even), as [strtod]
    and the compiler convert a decimal numeral.  The two size tests only
    keep the powers of ten small: from [10^309] on every numeral overflows,
    and below [2^-1076] every numeral rounds to zero. *)
Definition round_decimal (neg : bool) (m e : Z) : double :=
  match m with
  | Zpos pm =>
      if 309 <=? e then (if neg then neg_infinity else infinity)
      else if Z.log2 m + 1 + 3 * e <=? -1076 then (if neg then neg_zero else zero)
      else if 0 <=? e then
        match m * 10 ^ e with
        | Zpos n => SF2Prim (binary_round prec emax neg n 0)
        | _ => zero
        end
      else
        let '(q, e', l) := SFdiv_core_binary prec emax m 0 (10 ^ (- e)) 0 in
        SF2Prim (binary_round_aux prec emax neg q e' l)
  | _ => if neg then neg_zero else zero
  end.

(** [(double) i] for an [int]. *)
Definition int_to_double (i : Z) : double :=
  SF2Prim (binary_normalize prec emax i 0 false).

(** [(int) x]: the fraction is dropped; C leaves the conversion undefined
    when the result does not fit an [int], which is [None] here. *)
Definition double_to_int (x : double) : option Z :=
  match Prim2SF x with
  | S754_zero _ => Some 0
  | S754_finite s m e =>
      let a := Z.shiftl (Zpos m) e in
      let v := if s then - a else a in
      if (INT_MIN <=? v) && (v <=? INT_MAX) then Some v else None
  | _ => None
  end.

(** Does [s] start with [p], letter case ignored? *)
Fixpoint prefix_nocase (p s : string) : bool :=
  match p, s with
  | EmptyString, _ => true
  | String a p', String b s' => Ascii.eqb (toupper a) (toupper b) && prefix_nocase p' s'
  | _, _ => false
  end.

(** The exponent part of a numeral: 'e' or 'E', an optional sign and at
    least one digit; without a digit nothing is consumed. *)
Definition exponent_part (s : string) : Z :=
  match s with
  | String c rest =>
      if Ascii.eqb (toupper c) "E"%char then
        let '(eneg, r) := sign rest in
        let '(ev, _, _) := digits r 0 O in
        if eneg then - ev else ev
      else 0
  | EmptyString => 0
  end.

(** [atof]: white space, an optional sign, then a decimal numeral
    (digits, an optional point and digits, an optional exponent), or INF or NAN; 0.0
    when no conversion can be made.  Hexadecimal numerals are not read. *)
Definition atof (s : string) : double :=
  let '(neg, r) := sign (skip_space (cstr s)) in
  if prefix_nocase "INF" r then (if neg then neg_infinity else infinity)
  else if prefix_nocase "NAN" r then nan
  else
    let '(ip, ni, r1) := digits r 0 O in
    let '(m, nf, r2) :=
      match r1 with
      | String "." r' => digits r' ip O
      | _ => (ip, O, r1)
      end in
    if Nat.eqb (ni + nf) 0 then zero
    else round_decimal neg m (exponent_part r2 - Z.of_nat nf).

(** *** [printf("%g")]

    Six significant digits, ties to even; fixed notation when the decimal
    exponent [X] has [-4 <= X < 6], else exponent notation; trailing zeros
    and a bare point are dropped. *)

(** The decimal exponent [X] of [num / den > 0]: [10^X <= num/den < 10^(X+1)]. *)
Fixpoint exp10_up (fuel : nat) (num den k : Z) : Z :=
  match fuel with
  | O => k
  | S f => if 10 * den <=? num then exp10_up f num (10 * den) (k + 1) else k
  end.

Fixpoint exp10_down (fuel : nat) (num den k : Z) : Z :=
  match fuel with
  | O => k
  | S f => if num <? den then exp10_down f (10 * num) den (k - 1) else k
  end.

Definition decimal_exponent (num den : Z) : Z :=
  if den <=? num then exp10_up 400 num den 0 else exp10_down 400 num den 0.

(** [a / b] rounded to the nearest integer, ties to even. *)
Definition div_nearest_even (a b : Z) : Z :=
  let q := a / b in
  let r := a mod b in
  match 2 * r ?= b with
  | Lt => q
  | Gt => q + 1
  | Eq => if Z.even q then q else q + 1
  end.

Fixpoint strip_zeros_rev (s : list ascii) : list ascii :=
  match s with
  | "0"%char :: r => strip_zeros_rev r
  | _ => s
  end.

(** Trailing zeros of a fraction removed. *)
Definition strip_zeros (s : string) : string :=
  string_of_list_ascii (rev (strip_zeros_rev (rev (list_ascii_of_string s)))).

Fixpoint zeros (n : nat) : string :=
  match n with
  | O => EmptyString
  | S k => String "0" (zeros k)
  end.

Definition with_fraction (ip fr : string) : string :=
  match strip_zeros fr with
  | EmptyString => ip
  | f => ip ++ "." ++ f
  end.

(** The six digits [d] (as text) of a number with decimal exponent [X]. *)
Definition g_layout (d : string) (X : Z) : string :=
  if (X <? -4) || (6 <=? X) then
    let ex := Z.abs X in
    with_fraction (substring 0 1 d) (substring 1 5 d)
      ++ "e" ++ (if X <? 0 then "-" else "+")
      ++ (if ex <? 10 then "0" else "") ++ printf_d ex
  else if X <? 0 then
    with_fraction "0" (zeros (Z.to_nat (- X - 1)) ++ d)
  else
    with_fraction (substring 0 (Z.to_nat (X + 1)) d)
                  (substring (Z.to_nat (X + 1)) (Z.to_nat (5 - X)) d).

Definition printf_g (x : double) : string :=
  match Prim2SF x with
  | S754_nan => "nan"
  | S754_infinity s => if s then "-inf" else "inf"
  | S754_zero s => if s then "-0" else "0"
  | S754_finite s m e =>
      let num := Z.shiftl (Zpos m) (Z.max e 0) in
      let den := Z.shiftl 1 (Z.max (- e) 0) in
      let X := decimal_exponent num den in
      let scaled (X : Z) :=
        if X <=? 5 then div_nearest_even (num * 10 ^ (5 - X)) den
        else div_nearest_even num (den * 10 ^ (X - 5)) in
      let D := scaled X in
      let '(D, X) := if 1000000 <=? D then (100000, X + 1) else (D, X) in
      (if s then "-" else "") ++ g_layout (printf_d D) X
  end.

(** [printf("%s")]. *)
Definition printf_s (s : string) : string := cstr s.

End Libc.

(** ** asyn: status codes and the octet transport *)

Module Asyn.

(** [asynStatus] of asynDriver.h. *)
Inductive asynStatus : Set :=
| asynSuccess | asynTimeout | asynOverflow | asynError
| asynDisconnected | asynDisabled.

Definition is_success (s : asynStatus) : bool :=
  match s with asynSuccess => true | _ => false end.

(** [pasynOctetSyncIO] as the drivers see it.  [syncio_write outBuf] gives
    the status and [nActual]; [syncio_writeRead outBuf] gives the status,
    [nWrite], the bytes read and, when the transport stores one, the end of
    message reason. *)
Record Transport : Type := {
  syncio_write : string -> asynStatus * Z;
  syncio_writeRead : string -> asynStatus * Z * string * option Z
}.

(** One exchange with the device, with the status the wrapper returned. *)
Inductive Event : Set :=
| Wrote (outBuf : string) (status : asynStatus)
| WroteRead (outBuf : string) (status : asynStatus).

Definition event_status (e : Event) : asynStatus :=
  match e with Wrote _ s | WroteRead _ s => s end.

Definition failed (e : Event) : bool := negb (is_success (event_status e)).

End Asyn.

(** ** The code the two drivers share

    Everything in this module reads the same in both source files (the
    648x file adds the [devtype] member and further table rows). *)

Module Driver.
Import Libc Asyn.

Definition BUFFER_SIZE : Z := 100.

(** [typedef enum {Octet=1, Float64=2, Int32=3} Type;] *)
Inductive IfaceType : Set := Octet | Float64 | Int32.

Definition type_code (t : IfaceType) : Z :=
  match t with Octet => 1 | Float64 => 2 | Int32 => 3 end.

(** *** [struct Port] *)

Record Stats : Set := {
  ioErrors : Z;
  writeReads : Z;
  writeOnlys : Z
}.

(** [data]: the last sensor snapshot.  [status_raw] is the [raw] member of
    the [status] union; its [bits] members are the functions below. *)
Record Data : Set := {
  reading : double;
  timestamp : Z;
  status_raw : Z;
  eom : Z
}.

(** The identification strings are pointers into the [model] buffer: an
    offset, or [None] for NULL. *)
Record Port : Set := {
  myport : string;
  ioport : string;
  ioaddr : Z;
  devtype : Z;                (* 648x only: 1:6485, 2:6487 *)
  init : Z;
  model : string;             (* char model[BUFFER_SIZE+1] *)
  serial : option nat;
  dig_rev : option nat;
  disp_rev : option nat;
  brd_rev : option nat;
  stats : Stats;
  data : Data
}.

(** The bit-fields of [status.bits], laid out from bit 0 upwards as the
    comment of the structure lists them. *)
Definition bit (raw n : Z) : Z := Z.b2z (Z.testbit raw n).

Definition overflow (raw : Z) : Z := bit raw 0.
Definition filter_enabled (raw : Z) : Z := bit raw 1.
Definition math_enabled (raw : Z) : Z := bit raw 2.
Definition null_enabled (raw : Z) : Z := bit raw 3.
Definition limit_test (raw : Z) : Z := bit raw 4.
Definition limit_result (raw : Z) : Z := Z.land (Z.shiftr raw 5) 3.
Definition overvoltage (raw : Z) : Z := bit raw 7.
Definition zero_check_enabled (raw : Z) : Z := bit raw 9.
Definition zero_correct_enabled (raw : Z) : Z := bit raw 10.

(** The structure as [callocMustSucceed] returns it, with the names stored. *)
Definition calloc_Port (my io : string) (addr : Z) : Port :=
  {| myport := my; ioport := io; ioaddr := addr; devtype := 0; init := 0;
     model := EmptyString;
     serial := None; dig_rev := None; disp_rev := None; brd_rev := None;
     stats := {| ioErrors := 0; writeReads := 0; writeOnlys := 0 |};
     data := {| reading := zero; timestamp := 0; status_raw := 0; eom := 0 |} |}.

Definition upd_stats (f : Stats -> Stats) (p : Port) : Port :=
  {| myport := myport p; ioport := ioport p; ioaddr := ioaddr p;
     devtype := devtype p; init := init p; model := model p;
     serial := serial p; dig_rev := dig_rev p; disp_rev := disp_rev p;
     brd_rev := brd_rev p; stats := f (stats p); data := data p |}.

Definition upd_data (f : Data -> Data) (p : Port) : Port :=
  {| myport := myport p; ioport := ioport p; ioaddr := ioaddr p;
     devtype := devtype p; init := init p; model := model p;
     serial := serial p; dig_rev := dig_rev p; disp_rev := disp_rev p;
     brd_rev := brd_rev p; stats := stats p; data := f (data p) |}.

(** [i++] on an [int] counter, wrapping at [INT_MAX]. *)
Definition incr (i : Z) : Z := if i =? INT_MAX then INT_MIN else i + 1.

Definition incr_ioErrors (s : Stats) : Stats :=
  {| ioErrors := incr (ioErrors s); writeReads := writeReads s; writeOnlys := writeOnlys s |}.
Definition incr_writeReads (s : Stats) : Stats :=
  {| ioErrors := ioErrors s; writeReads := incr (writeReads s); writeOnlys := writeOnlys s |}.
Definition incr_writeOnlys (s : Stats) : Stats :=
  {| ioErrors := ioErrors s; writeReads := writeReads s; writeOnlys := incr (writeOnlys s) |}.

Definition set_eom (v : Z) (d : Data) : Data :=
  {| reading := reading d; timestamp := timestamp d; status_raw := status_raw d; eom := v |}.
Definition set_reading (v : double) (d : Data) : Data :=
  {| reading := v; timestamp := timestamp d; status_raw := status_raw d; eom := eom d |}.
Definition set_timestamp (v : Z) (d : Data) : Data :=
  {| reading := reading d; timestamp := v; status_raw := status_raw d; eom := eom d |}.
Definition set_status_raw (v : Z) (d : Data) : Data :=
  {| reading := reading d; timestamp := timestamp d; status_raw := v; eom := eom d |}.

(** *** Running driver code

    A piece of driver code runs against a transport and the port structure.
    It returns a value with the structure as it left it, or runs into
    behaviour C leaves undefined; either way the exchanges made so far are
    recorded. *)

Inductive Fault : Set :=
| NullPointer          (* a NULL pointer dereferenced or passed to libc *)
| Uninitialised        (* an automatic variable read before it is set *)
| BadConversion        (* a double that does not fit the int it is cast to *)
| BadIndex             (* an array read outside its bounds *)
| BadPointer.          (* a pointer read as a type it does not point to *)

Inductive Outcome (A : Type) : Type :=
| Returns (a : A) (p : Port) (io : list Event)
| Undefined (f : Fault) (io : list Event).
Arguments Returns {A} a p io.
Arguments Undefined {A} f io.

Definition exchanges {A} (o : Outcome A) : list Event :=
  match o with Returns _ _ io | Undefined _ io => io end.

Definition Run (A : Type) : Type := Transport -> Port -> Outcome A.

Definition ret {A} (a : A) : Run A := fun _ p => Returns a p [].

Definition bind {A B} (m : Run A) (k : A -> Run B) : Run B :=
  fun tr p =>
    match m tr p with
    | Returns a p' io =>
        match k a tr p' with
        | Returns b p'' io' => Returns b p'' (io ++ io')%list
        | Undefined f io' => Undefined f (io ++ io')%list
        end
    | Undefined f io => Undefined f io
    end.

Definition undefined {A} (f : Fault) : Run A := fun _ _ => Undefined f [].
Definition get_port : Run Port := fun _ p => Returns p p [].
Definition modify (f : Port -> Port) : Run unit := fun _ p => Returns tt (f p) [].
Definition transport : Run Transport := fun tr p => Returns tr p [].
Definition record (e : Event) : Run unit := fun _ p => Returns tt p [e].

Notation "x <- m ;; k" := (bind m (fun x => k))
  (at level 61, m at next level, right associativity).
Notation "' pat <- m ;; k" := (bind m (fun x => match x with pat => k end))
  (at level 61, pat pattern, m at next level, right associativity).
Notation "m ;;; k" := (bind m (fun _ => k))
  (at level 61, right associativity).

(** [*p] for a pointer that may be NULL. *)
Definition deref {A} (p : option A) : Run A :=
  match p with Some a => ret a | None => undefined NullPointer end.

(** *** The transport wrappers *)

Definition writeOnly (outBuf : string) : Run asynStatus :=
  tr <- transport ;;
  let nRequested := Z.of_nat (strlen outBuf) in
  let '(status, nActual) := syncio_write tr (cstr outBuf) in
  let status := if negb (nActual =? nRequested) then asynError else status in
  (if negb (is_success status)
   then modify (upd_stats incr_ioErrors)
   else modify (upd_stats incr_writeOnlys)) ;;;
  record (Wrote (cstr outBuf) status) ;;;
  ret status.

(** [writeRead]: [eomReason] is where the transport stores the end of
    message reason ([&pport->data.eom] in the handlers, a local in the set
    up).  The result carries [inpBuf]: the bytes read, at most
    [inputSize - 1] of them, up to the terminator stored behind them; after
    a failure the callers never read it. *)
Definition writeRead (outBuf : string) (inputSize : Z)
    (eomReason : Z -> Port -> Port) : Run (asynStatus * string) :=
  tr <- transport ;;
  let nWriteRequested := Z.of_nat (strlen outBuf) in
  let '(status, nWrite, bytes, reason) := syncio_writeRead tr (cstr outBuf) in
  let inpBuf := substring 0 (Z.to_nat (inputSize - 1)) bytes in
  match reason with Some r => modify (eomReason r) | None => ret tt end ;;;
  let status := if negb (nWrite =? nWriteRequested) then asynError else status in
  (if negb (is_success status)
   then modify (upd_stats incr_ioErrors)
   else modify (upd_stats incr_writeReads)) ;;;
  record (WroteRead (cstr outBuf) status) ;;;
  ret (status, if is_success status then cstr inpBuf else EmptyString).

Definition data_eom (r : Z) : Port -> Port := upd_data (set_eom r).
Definition local_eom (r : Z) : Port -> Port := fun p => p.

(** *** What a handler is given and hands back

    [data] is a [void*]: a write handler reads it, a read handler stores
    through it and through [length] and [eom].  A [ReadOut] lists what was
    stored; [None] leaves the caller's variable as it was. *)

Inductive Value : Set :=
| VOctet (s : string)
| VFloat64 (d : double)
| VInt32 (i : Z)
| VOctetAddr (s : string).     (* the address of a [char*] variable *)

Record ReadOut : Set := {
  out_data : option Value;
  out_length : option Z;
  out_eom : option Z
}.

Definition nothing : ReadOut :=
  {| out_data := None; out_length := None; out_eom := None |}.
Definition stored (v : Value) : ReadOut :=
  {| out_data := Some v; out_length := None; out_eom := None |}.

Definition ReadFunc : Type := Z -> IfaceType -> Run (asynStatus * ReadOut).
Definition WriteFunc : Type := Z -> Value -> IfaceType -> Run asynStatus.

Record GenCommand : Type := {
  readFunc : ReadFunc;
  writeFunc : WriteFunc
}.

Record SimpleCommand : Set := {
  simple_type : Z;
  cmd_str : string
}.

(** [struct Command]; [dev] is a member in the 648x file only. *)
Record Command : Set := {
  tag : string;
  dev : Z;
  type : Z;
  id : Z
}.

(** [table[i]] for a C array. *)
Definition index {A} (table : list A) (i : Z) : Run A :=
  if i <? 0 then undefined BadIndex
  else match nth_error table (Z.to_nat i) with
       | Some a => ret a
       | None => undefined BadIndex
       end.

(** *** Command numbers

    The general commands up to [RATE_CMD] and the cached ones are numbered
    alike in both files. *)

Definition VOID_CMD : Z := 0.
Definition READ_CMD : Z := 1.
Definition RANGE_CMD : Z := 2.
Definition RANGE_AUTO_ULIMIT_CMD : Z := 3.
Definition RANGE_AUTO_LLIMIT_CMD : Z := 4.
Definition RATE_CMD : Z := 5.

Definition SIMPLE_TRIGGER : Z := 0.
Definition SIMPLE_OCTET : Z := type_code Octet.
Definition SIMPLE_FLOAT64 : Z := type_code Float64.
Definition SIMPLE_INT32 : Z := type_code Int32.

Definition TIMESTAMP_CMD : Z := 0.
Definition STATUS_RAW_CMD : Z := 1.
Definition STATUS_OVERFLOW_CMD : Z := 2.
Definition STATUS_FILTER_CMD : Z := 3.
Definition STATUS_MATH_CMD : Z := 4.
Definition STATUS_NULL_CMD : Z := 5.
Definition STATUS_LIMITS_CMD : Z := 6.
Definition STATUS_OVERVOLTAGE_CMD : Z := 7.
Definition STATUS_ZERO_CHECK_CMD : Z := 8.
Definition STATUS_ZERO_CORRECT_CMD : Z := 9.
Definition MODEL_CMD : Z := 10.
Definition SERIAL_CMD : Z := 11.
Definition DIG_REV_CMD : Z := 12.
Definition DISP_REV_CMD : Z := 13.
Definition BRD_REV_CMD : Z := 14.

(** [GEN_CMD_TYPE], [SIMPLE_CMD_TYPE], [CACHE_CMD_TYPE] in the 6485 file. *)
Definition CMD_GEN : Z := 0.
Definition CMD_SIMPLE : Z := 1.
Definition CMD_CACHE : Z := 2.

(** *** Handlers *)

Definition readDummy : ReadFunc := fun which Iface => ret (asynSuccess, nothing).

Definition writeDummy : WriteFunc := fun which data Iface => ret asynSuccess.

Section Simple.

Variable simpleCommandTable : list SimpleCommand.

Definition readSimpleData (which : Z) (Iface : IfaceType) : Run (asynStatus * ReadOut) :=
  entry <- index simpleCommandTable which ;;
  (* Trigger will automatically not work *)
  if negb (simple_type entry =? type_code Iface) then ret (asynSuccess, nothing)
  else
    let outBuf := printf_s (cmd_str entry) ++ "?" in
    '(status, inpBuf) <- writeRead outBuf BUFFER_SIZE data_eom ;;
    if negb (is_success status) then ret (status, nothing)
    else
      match Iface with
      | Float64 => ret (asynSuccess, stored (VFloat64 (atof inpBuf)))
      | Int32 => ret (asynSuccess, stored (VInt32 (atoi inpBuf)))
      | Octet =>
          let len := strlen inpBuf in
          let inpBuf := if Nat.ltb 39 len then poke inpBuf 39 NUL else inpBuf in
          ret (asynSuccess, stored (VOctet (cstr inpBuf)))
      end.

Definition writeSimpleData (which : Z) (data : Value) (Iface : IfaceType) : Run asynStatus :=
  entry <- index simpleCommandTable which ;;
  outBuf <-
    (if simple_type entry =? SIMPLE_TRIGGER then ret (Some (printf_s (cmd_str entry)))
     else if negb (simple_type entry =? type_code Iface) then ret None
     else
       let sel := Z.land (simple_type entry) (type_code Iface) in
       if sel =? type_code Float64 then
         match data with
         | VFloat64 d => ret (Some (printf_s (cmd_str entry) ++ " " ++ printf_g d))
         | _ => undefined BadPointer
         end
       else if sel =? type_code Int32 then
         match data with
         | VInt32 i => ret (Some (printf_s (cmd_str entry) ++ " " ++ printf_d i))
         | _ => undefined BadPointer
         end
       else if sel =? type_code Octet then
         match data with
         | VOctet s => ret (Some (printf_s (cmd_str entry) ++ " " ++ printf_s s))
         | _ => undefined BadPointer
         end
       else undefined Uninitialised) ;;
  match outBuf with
  | None => ret asynSuccess           (* the early [return asynSuccess] *)
  | Some outBuf => writeOnly outBuf
  end.

End Simple.

Definition readCache (which : Z) (Iface : IfaceType) : Run (asynStatus * ReadOut) :=
  pport <- get_port ;;
  match Iface with
  | Octet =>
      let char_cache : option string :=
        if which =? MODEL_CMD then Some (cstr_at (model pport) 0)
        else if which =? SERIAL_CMD then option_map (cstr_at (model pport)) (serial pport)
        else if which =? DIG_REV_CMD then option_map (cstr_at (model pport)) (dig_rev pport)
        else if which =? DISP_REV_CMD then option_map (cstr_at (model pport)) (disp_rev pport)
        else if which =? BRD_REV_CMD then option_map (cstr_at (model pport)) (brd_rev pport)
        else None in
      s <- deref char_cache ;;                      (* strlen(char_cache) *)
      let len := Z.of_nat (strlen s) in
      if len <? 40 then
        ret (asynSuccess,
             {| out_data := Some (VOctet s); out_length := Some len; out_eom := Some 0 |})
      else (* just in case string will overflow the EPICS string size of 40 *)
        let len := 39 in
        ret (asynSuccess,
             {| out_data := Some (VOctet (substring 0 (Z.to_nat len) s));
                out_length := Some len; out_eom := Some 0 |})
  | Float64 => ret (asynSuccess, nothing)
  | Int32 =>
      let raw := status_raw (data pport) in
      let store (v : Z) := ret (asynSuccess, stored (VInt32 v)) in
      if which =? TIMESTAMP_CMD then store (timestamp (data pport))
      else if which =? STATUS_RAW_CMD then store raw
      else if which =? STATUS_OVERFLOW_CMD then store (overflow raw)
      else if which =? STATUS_FILTER_CMD then store (filter_enabled raw)
      else if which =? STATUS_MATH_CMD then store (math_enabled raw)
      else if which =? STATUS_NULL_CMD then store (null_enabled raw)
      else if which =? STATUS_LIMITS_CMD then
        if negb (limit_test raw =? 0) then store (limit_result raw)
        else store 3
      else if which =? STATUS_OVERVOLTAGE_CMD then store (overvoltage raw)
      else if which =? STATUS_ZERO_CHECK_CMD then store (zero_check_enabled raw)
      else if which =? STATUS_ZERO_CORRECT_CMD then store (zero_correct_enabled raw)
      else ret (asynSuccess, nothing)
  end.

(** [epicsStrtok_r] of EPICS base: [strtok_r].  [s] is the text to split, or
    NULL to go on from [lasts]; leading delimiters are skipped, and the
    result is the next token with the new [lasts], or NULL when no token is
    left. *)
Definition is_delim (delim : string) (c : ascii) : bool :=
  existsb (Ascii.eqb c) (list_ascii_of_string delim).

Fixpoint skip_delims (delim s : string) : string :=
  match s with
  | String c rest => if is_delim delim c then skip_delims delim rest else s
  | EmptyString => s
  end.

Fixpoint scan_token (delim s : string) : string * option string :=
  match s with
  | EmptyString => (EmptyString, None)
  | String c rest =>
      if is_delim delim c then (EmptyString, Some rest)
      else let '(tok, lasts) := scan_token delim rest in (String c tok, lasts)
  end.

Definition epicsStrtok_r (s : option string) (delim : string) (lasts : option string)
  : option string * option string :=
  match (match s with Some _ => s | None => lasts end) with
  | None => (None, lasts)
  | Some s =>
      match skip_delims delim (cstr s) with
      | EmptyString => (None, None)
      | s' => let '(tok, lasts') := scan_token delim s' in (Some tok, lasts')
      end
  end.

(** [token == NULL] in [readSensorReading]: [token] names the array
    [char *token[3]], so the test compares the address of the array with
    NULL and is false whatever the array holds. *)
Definition token_is_NULL (token : list (option string)) : bool := false.

(** The splitting loop of [readSensorReading]:
    [for( pass = 0; pass < 3; pass++, str = NULL)].  It hands back [pass]
    and the array. *)
Fixpoint split_loop (fuel : nat) (pass : Z) (str saveptr : option string)
    (token : list (option string)) : Z * list (option string) :=
  match fuel with
  | O => (pass, token)
  | S fuel' =>
      if pass <? 3 then
        let '(tok, saveptr') := epicsStrtok_r str "," saveptr in
        let token' := (token ++ [tok])%list in
        if token_is_NULL token' then (pass, token')        (* break *)
        else split_loop fuel' (pass + 1) None saveptr' token'
      else (pass, token)
  end.

(** [(int) atof(...)]. *)
Definition cast_int (x : double) : Run Z :=
  match double_to_int x with Some v => ret v | None => undefined BadConversion end.

(** [token[i]] handed to [atof] or [sprintf]: a NULL entry is dereferenced there. *)
Definition token_at (token : list (option string)) (i : nat) : Run string :=
  deref (nth i token None).

(** [readSensorReading].  For a text read the first token is copied to the
    caller's buffer by [sprintf] with no bound ([readOctet] does not hand
    [maxchars] on): the result carries the whole token and its length, and
    one byte more is written for the terminator.  The caller's buffer is not
    part of the port structure; that the token fits it is a condition on
    the reply wherever a property speaks of the text handed back. *)
Definition readSensorReading : ReadFunc := fun which Iface =>
  '(status, inpBuf) <- writeRead "READ?" BUFFER_SIZE data_eom ;;
  if negb (is_success status) then ret (status, nothing)
  else
    let '(pass, token) := split_loop 3 0 (Some inpBuf) None [] in
    if negb (pass =? 3) then ret (asynError, nothing)
    else
      t0 <- token_at token 0 ;;
      modify (upd_data (set_reading (atof t0))) ;;;
      t1 <- token_at token 1 ;;
      ts <- cast_int (atof t1) ;;
      modify (upd_data (set_timestamp ts)) ;;;
      t2 <- token_at token 2 ;;
      raw <- cast_int (atof t2) ;;
      modify (upd_data (set_status_raw raw)) ;;;
      pport <- get_port ;;
      match Iface with
      | Octet =>
          (* only print current value *)
          let text := printf_s t0 in
          ret (asynSuccess,
               {| out_data := Some (VOctet text);
                  out_length := Some (Z.of_nat (String.length text));
                  out_eom := Some (eom (data pport)) |})
      | Float64 => ret (asynSuccess, stored (VFloat64 (reading (data pport))))
      | Int32 => ret (asynSuccess, nothing)
      end.

(** The query of [readRange] and the command verb of [writeRange] for
    [which]; [None] is the [default:] of their switches. *)
Definition range_verb (which : Z) : option string :=
  if which =? RANGE_CMD then Some ":RANGE"
  else if which =? RANGE_AUTO_ULIMIT_CMD then Some ":RANGE:AUTO:ULIM"
  else if which =? RANGE_AUTO_LLIMIT_CMD then Some ":RANGE:AUTO:LLIM"
  else None.

Definition readRange : ReadFunc := fun which Iface =>
  match Iface with
  | Octet => ret (asynSuccess, nothing)
  | _ =>
      match range_verb which with
      | None => ret (asynError, nothing)
      | Some verb =>
          '(status, inpBuf) <- writeRead (verb ++ "?") BUFFER_SIZE data_eom ;;
          if negb (is_success status) then ret (status, nothing)
          else
            match Iface with
            | Float64 =>
                let val := atof inpBuf in
                if PrimFloat.eqb val zero then ret (asynError, nothing)
                else ret (asynSuccess, stored (VFloat64 val))
            | Int32 =>
                match strchr inpBuf 0 "E" with
                | None => ret (asynError, nothing)
                | Some p =>
                    ret (asynSuccess,
                         stored (VInt32 (wrap_int (9 + atoi (advance inpBuf (S p))))))
                end
            | Octet => ret (asynSuccess, nothing)
            end
      end
  end.

Definition writeRange : WriteFunc := fun which data Iface =>
  match Iface, data with
  | Int32, VInt32 value =>
      if (value <? 0) || (value >? 7) then ret asynError
      else
        match range_verb which with
        | Some verb => writeOnly (verb ++ " 2.0e" ++ printf_d (-9 + value))
        | None => ret asynError
        end
  | Int32, _ => undefined BadPointer
  | _, _ => ret asynSuccess
  end.

(** *** The asynFloat64, asynInt32 and asynOctet methods

    [reason] is [pasynUser->reason], as [create] left it. *)

Section Dispatch.

Variable commandTable : list Command.
Variable genCommandTable : list GenCommand.
Variable simpleCommandTable : list SimpleCommand.

Definition writeFloat64 (reason : Z) (value : double) : Run asynStatus :=
  pport <- get_port ;;
  let which := reason in
  entry <- index commandTable which ;;
  let id := id entry in
  if init pport =? 0 then ret asynError
  else if type entry =? CMD_GEN then
    gen <- index genCommandTable id ;;
    writeFunc gen id (VFloat64 value) Float64
  else if type entry =? CMD_SIMPLE then
    writeSimpleData simpleCommandTable id (VFloat64 value) Float64
  else ret asynSuccess.

Definition readFloat64 (reason : Z) : Run (asynStatus * ReadOut) :=
  pport <- get_port ;;
  let which := reason in
  entry <- index commandTable which ;;
  let id := id entry in
  if init pport =? 0 then ret (asynError, nothing)
  else if type entry =? CMD_GEN then
    gen <- index genCommandTable id ;;
    readFunc gen id Float64
  else if type entry =? CMD_SIMPLE then
    readSimpleData simpleCommandTable id Float64
  else if type entry =? CMD_CACHE then
    readCache id Float64
  else ret (asynSuccess, nothing).

Definition writeInt32 (reason : Z) (value : Z) : Run asynStatus :=
  pport <- get_port ;;
  let which := reason in
  entry <- index commandTable which ;;
  let id := id entry in
  if init pport =? 0 then ret asynError
  else if type entry =? CMD_GEN then
    gen <- index genCommandTable id ;;
    writeFunc gen id (VInt32 value) Int32
  else if type entry =? CMD_SIMPLE then
    writeSimpleData simpleCommandTable id (VInt32 value) Int32
  else ret asynSuccess.

Definition readInt32 (reason : Z) : Run (asynStatus * ReadOut) :=
  pport <- get_port ;;
  let which := reason in
  entry <- index commandTable which ;;
  let id := id entry in
  if init pport =? 0 then ret (asynError, nothing)
  else if type entry =? CMD_GEN then
    gen <- index genCommandTable id ;;
    readFunc gen id Int32
  else if type entry =? CMD_SIMPLE then
    readSimpleData simpleCommandTable id Int32
  else if type entry =? CMD_CACHE then
    readCache id Int32
  else ret (asynSuccess, nothing).

(** [writeOctet] also hands back [*nbytes] when it stores it. *)
Definition writeOctet (reason : Z) (data : string) : Run (asynStatus * option Z) :=
  pport <- get_port ;;
  let which := reason in
  entry <- index commandTable which ;;
  let id := id entry in
  if init pport =? 0 then ret (asynError, None)
  else if type entry =? CMD_GEN then
    let nbytes := Z.of_nat (strlen data) in
    gen <- index genCommandTable id ;;
    status <- writeFunc gen id (VOctet data) Octet ;;
    ret (status, Some nbytes)
  else if type entry =? CMD_SIMPLE then
    let nbytes := Z.of_nat (strlen data) in
    status <- writeSimpleData simpleCommandTable id (VOctetAddr data) Octet ;;
    ret (status, Some nbytes)
  else ret (asynSuccess, None).

Definition readOctet (reason : Z) : Run (asynStatus * ReadOut) :=
  pport <- get_port ;;
  let which := reason in
  entry <- index commandTable which ;;
  let id := id entry in
  if init pport =? 0 then ret (asynError, nothing)
  else if type entry =? CMD_GEN then
    gen <- index genCommandTable id ;;
    readFunc gen id Octet
  else if type entry =? CMD_SIMPLE then
    readSimpleData simpleCommandTable id Octet
  else if type entry =? CMD_CACHE then
    readCache id Octet
  else ret (asynSuccess, nothing).

End Dispatch.

(** *** Set up: the identification reply *)

Definition set_model (m : string) (p : Port) : Port :=
  {| myport := myport p; ioport := ioport p; ioaddr := ioaddr p;
     devtype := devtype p; init := init p; model := m;
     serial := serial p; dig_rev := dig_rev p; disp_rev := disp_rev p;
     brd_rev := brd_rev p; stats := stats p; data := data p |}.
Definition set_serial (v : option nat) (p : Port) : Port :=
  {| myport := myport p; ioport := ioport p; ioaddr := ioaddr p;
     devtype := devtype p; init := init p; model := model p;
     serial := v; dig_rev := dig_rev p; disp_rev := disp_rev p;
     brd_rev := brd_rev p; stats := stats p; data := data p |}.
Definition set_dig_rev (v : option nat) (p : Port) : Port :=
  {| myport := myport p; ioport := ioport p; ioaddr := ioaddr p;
     devtype := devtype p; init := init p; model := model p;
     serial := serial p; dig_rev := v; disp_rev := disp_rev p;
     brd_rev := brd_rev p; stats := stats p; data := data p |}.
Definition set_disp_rev (v : option nat) (p : Port) : Port :=
  {| myport := myport p; ioport := ioport p; ioaddr := ioaddr p;
     devtype := devtype p; init := init p; model := model p;
     serial := serial p; dig_rev := dig_rev p; disp_rev := v;
     brd_rev := brd_rev p; stats := stats p; data := data p |}.
Definition set_brd_rev (v : option nat) (p : Port) : Port :=
  {| myport := myport p; ioport := ioport p; ioaddr := ioaddr p;
     devtype := devtype p; init := init p; model := model p;
     serial := serial p; dig_rev := dig_rev p; disp_rev := disp_rev p;
     brd_rev := v; stats := stats p; data := data p |}.
Definition set_init (v : Z) (p : Port) : Port :=
  {| myport := myport p; ioport := ioport p; ioaddr := ioaddr p;
     devtype := devtype p; init := v; model := model p;
     serial := serial p; dig_rev := dig_rev p; disp_rev := disp_rev p;
     brd_rev := brd_rev p; stats := stats p; data := data p |}.
Definition set_devtype (v : Z) (p : Port) : Port :=
  {| myport := myport p; ioport := ioport p; ioaddr := ioaddr p;
     devtype := v; init := init p; model := model p;
     serial := serial p; dig_rev := dig_rev p; disp_rev := disp_rev p;
     brd_rev := brd_rev p; stats := stats p; data := data p |}.

(** [*ptr = '\0'; ptr++;] for a pointer into [pport->model]: the pointer is
    dereferenced, so NULL is undefined here. *)
Definition cut (ptr : option nat) : Run nat :=
  off <- deref ptr ;;
  modify (fun p => set_model (poke (model p) off NUL) p) ;;;
  ret (S off).

(** From [strcpy(pport->model,inpBuf)] to [pport->brd_rev++]. *)
Definition split_identification (inpBuf : string) : Run unit :=
  modify (set_model (cstr inpBuf)) ;;;
  (* char *model, *serial, *dig_rev, *disp_rev, *brd_rev; *)
  pport <- get_port ;;
  modify (set_serial (strchr (model pport) 0 ",")) ;;;
  pport <- get_port ;;
  first <- deref (serial pport) ;;                      (* pport->serial + 1 *)
  modify (set_serial (strchr (model pport) (first + 1) ",")) ;;;
  pport <- get_port ;;
  next <- cut (serial pport) ;;
  modify (set_serial (Some next)) ;;;
  pport <- get_port ;;
  modify (set_dig_rev (strchr (model pport) next ",")) ;;;
  pport <- get_port ;;
  next <- cut (dig_rev pport) ;;
  modify (set_dig_rev (Some next)) ;;;
  pport <- get_port ;;
  modify (set_disp_rev (strchr (model pport) next "/")) ;;;
  pport <- get_port ;;
  next <- cut (disp_rev pport) ;;
  modify (set_disp_rev (Some next)) ;;;
  pport <- get_port ;;
  modify (set_brd_rev (strchr (model pport) next "/")) ;;;
  pport <- get_port ;;
  next <- cut (brd_rev pport) ;;
  modify (set_brd_rev (Some next)).

(** The identification strings as a reader of the structure sees them. *)
Record Identification : Set := {
  id_model : string;
  id_serial : option string;
  id_dig_rev : option string;
  id_disp_rev : option string;
  id_brd_rev : option string
}.

Definition identification (p : Port) : Identification :=
  {| id_model := cstr_at (model p) 0;
     id_serial := option_map (cstr_at (model p)) (serial p);
     id_dig_rev := option_map (cstr_at (model p)) (dig_rev p);
     id_disp_rev := option_map (cstr_at (model p)) (disp_rev p);
     id_brd_rev := option_map (cstr_at (model p)) (brd_rev p) |}.

(** What the calls into asyn that precede the first exchange return:
    [pasynOctetSyncIO->connect], [pasynManager->registerPort] and
    [pasynStandardInterfacesBase->initialize]. *)
Record Host : Set := {
  connect_status : asynStatus;
  registerPort_status : asynStatus;
  initialize_status : asynStatus
}.

(** The set up from the interface registration on: clear status, identify,
    complete.  ([#ifdef vxWorks] is left out.) *)
Definition setup_exchanges : Run asynStatus :=
  cls <- writeOnly "*CLS" ;;
  if negb (is_success cls) then ret asynError
  else
    '(idn, inpBuf) <- writeRead "*IDN?" BUFFER_SIZE local_eom ;;
    if negb (is_success idn) then ret asynError
    else
      split_identification inpBuf ;;;
      (* Complete initialization *)
      modify (set_init 1) ;;;
      modify (upd_data (set_reading zero)) ;;;
      modify (upd_data (set_timestamp 0)) ;;;
      modify (upd_data (set_status_raw 0)) ;;;
      ret asynSuccess.

Definition setup (host : Host) : Run asynStatus :=
  if negb (is_success (connect_status host)) then ret asynError
  else if negb (is_success (registerPort_status host)) then ret asynError
  else if negb (is_success (initialize_status host)) then ret asynError
  else setup_exchanges.

(** [epicsStrCaseCmp] of EPICS base. *)
Fixpoint epicsStrCaseCmp_from (s1 s2 : string) : Z :=
  match s1, s2 with
  | EmptyString, EmptyString => 0
  | String _ _, EmptyString => 1
  | EmptyString, String _ _ => -1
  | String c1 r1, String c2 r2 =>
      let ch1 := nat_of_ascii (toupper c1) in
      let ch2 := nat_of_ascii (toupper c2) in
      if Nat.ltb ch1 ch2 then -1
      else if Nat.ltb ch2 ch1 then 1
      else epicsStrCaseCmp_from r1 r2
  end.

Definition epicsStrCaseCmp (s1 s2 : string) : Z :=
  epicsStrCaseCmp_from (cstr s1) (cstr s2).

(** What [create] leaves with its caller: the status, [pasynUser->reason]
    and the line it logged, if any. *)
Record Created : Set := {
  create_status : asynStatus;
  create_reason : Z;
  create_errlog : option string
}.

End Driver.

#[local] Set Warnings "-inexact-float".

(** ** k6485App/src/drvAsynKeithley6485.cpp *)

Module K6485.
Import Libc Asyn Driver.

Definition driver : string := "drvAsynKeithley6485".

Section Handlers.

(** [readRate] reads its local [int rate] before anything is stored in it.
    [rate_uninit] is the indeterminate value the variable holds then. *)
Variable rate_uninit : Z.

Definition readRate : ReadFunc := fun which Iface =>
  match Iface with
  | Int32 =>
      '(status, inpBuf) <- writeRead ":NPLC?" BUFFER_SIZE data_eom ;;
      if negb (is_success status) then ret (status, nothing)
      else
        let val := atof inpBuf in
        let rate :=
          if PrimFloat.ltb 1.0 val then 0                               (* SLOW *)
          else if PrimFloat.ltb 0.1 (int_to_double rate_uninit) then 1   (* MEDIUM *)
          else 2 in                                                      (* FAST *)
        ret (asynSuccess, stored (VInt32 rate))
  | _ => ret (asynSuccess, nothing)
  end.

Definition writeRate : WriteFunc := fun which data Iface =>
  match Iface, data with
  | Int32, VInt32 rate =>
      if (rate <? 0) || (rate >? 2) then ret asynError
      else
        val <- (if rate =? 0 then ret 6.0%float
                else if rate =? 1 then ret 1.0%float
                else if rate =? 2 then ret 0.1%float
                else undefined Uninitialised) ;;
        writeOnly (":NPLC " ++ printf_g val)
  | Int32, _ => undefined BadPointer
  | _, _ => ret asynSuccess
  end.

(** General commands that need special attention. *)
Definition GEN_CMD_NUMBER : Z := 6.
Definition genCommandTable : list GenCommand :=
  [ {| readFunc := readDummy;         writeFunc := writeDummy |};   (* VOID *)
    {| readFunc := readSensorReading; writeFunc := writeDummy |};   (* READ *)
    {| readFunc := readRange;         writeFunc := writeRange |};   (* RANGE *)
    {| readFunc := readRange;         writeFunc := writeRange |};   (* RANGE_AUTO_ULIMIT *)
    {| readFunc := readRange;         writeFunc := writeRange |};   (* RANGE_AUTO_LLIMIT *)
    {| readFunc := readRate;          writeFunc := writeRate |} ].  (* RATE *)

(** Commands that are very simple-minded. *)
Definition RANGE_AUTO_CMD : Z := 0.
Definition ZERO_CHECK_CMD : Z := 1.
Definition ZERO_CORRECT_CMD : Z := 2.
Definition ZERO_CORRECT_ACQUIRE_CMD : Z := 3.
Definition SIMPLE_CMD_NUMBER : Z := 4.

Definition simpleCommandTable : list SimpleCommand :=
  [ {| simple_type := SIMPLE_INT32;   cmd_str := ":RANGE:AUTO" |};
    {| simple_type := SIMPLE_INT32;   cmd_str := "SYST:ZCH" |};
    {| simple_type := SIMPLE_INT32;   cmd_str := "SYST:ZCOR" |};
    {| simple_type := SIMPLE_TRIGGER; cmd_str := "SYST:ZCOR:ACQ" |} ].

Definition command (t : string) (ty i : Z) : Command :=
  {| tag := t; dev := 0; type := ty; id := i |}.

Definition commandTable : list Command :=
  [ command "VOID"                 CMD_GEN    VOID_CMD;
    command "READ"                 CMD_GEN    READ_CMD;
    command "RANGE"                CMD_GEN    RANGE_CMD;
    command "RANGE_AUTO_ULIMIT"    CMD_GEN    RANGE_AUTO_ULIMIT_CMD;
    command "RANGE_AUTO_LLIMIT"    CMD_GEN    RANGE_AUTO_LLIMIT_CMD;
    command "RATE"                 CMD_GEN    RATE_CMD;
    command "RANGE_AUTO"           CMD_SIMPLE RANGE_AUTO_CMD;
    command "ZERO_CHECK"           CMD_SIMPLE ZERO_CHECK_CMD;
    command "ZERO_CORRECT"         CMD_SIMPLE ZERO_CORRECT_CMD;
    command "ZERO_CORRECT_ACQUIRE" CMD_SIMPLE ZERO_CORRECT_ACQUIRE_CMD;
    command "MODEL"                CMD_CACHE  MODEL_CMD;
    command "SERIAL"               CMD_CACHE  SERIAL_CMD;
    command "DIG_REV"              CMD_CACHE  DIG_REV_CMD;
    command "DISP_REV"             CMD_CACHE  DISP_REV_CMD;
    command "BRD_REV"              CMD_CACHE  BRD_REV_CMD;
    command "TIMESTAMP"            CMD_CACHE  TIMESTAMP_CMD;
    command "STATUS_RAW"           CMD_CACHE  STATUS_RAW_CMD;
    command "STATUS_OVERFLOW"      CMD_CACHE  STATUS_OVERFLOW_CMD;
    command "STATUS_FILTER"        CMD_CACHE  STATUS_FILTER_CMD;
    command "STATUS_MATH"          CMD_CACHE  STATUS_MATH_CMD;
    command "STATUS_NULL"          CMD_CACHE  STATUS_NULL_CMD;
    command "STATUS_LIMITS"        CMD_CACHE  STATUS_LIMITS_CMD;
    command "STATUS_OVERVOLTAGE"   CMD_CACHE  STATUS_OVERVOLTAGE_CMD;
    command "STATUS_ZERO_CHECK"    CMD_CACHE  STATUS_ZERO_CHECK_CMD;
    command "STATUS_ZERO_CORRECT"  CMD_CACHE  STATUS_ZERO_CORRECT_CMD ].

Definition COMMAND_NUMBER : Z := Z.of_nat (List.length commandTable).

Definition writeFloat64 := Driver.writeFloat64 commandTable genCommandTable simpleCommandTable.
Definition readFloat64 := Driver.readFloat64 commandTable genCommandTable simpleCommandTable.
Definition writeInt32 := Driver.writeInt32 commandTable genCommandTable simpleCommandTable.
Definition readInt32 := Driver.readInt32 commandTable genCommandTable simpleCommandTable.
Definition writeOctet := Driver.writeOctet commandTable genCommandTable simpleCommandTable.
Definition readOctet := Driver.readOctet commandTable genCommandTable simpleCommandTable.

End Handlers.

(** [create] of asynDrvUser: the loop over [commandTable] from row [i] on. *)
Fixpoint create_from (pport : Port) (drvInfo : string) (table : list Command) (i : Z)
  : Created :=
  match table with
  | [] =>
      {| create_status := asynError; create_reason := 0;
         create_errlog :=
           Some (driver ++ "::create port " ++ myport pport
                 ++ " failed to find tag " ++ cstr drvInfo) |}
  | row :: rest =>
      if epicsStrCaseCmp drvInfo (tag row) =? 0 then
        {| create_status := asynSuccess; create_reason := i; create_errlog := None |}
      else create_from pport drvInfo rest (i + 1)
  end.

Definition create (pport : Port) (drvInfo : string) : Created :=
  create_from pport drvInfo commandTable 0.

(** [drvAsynKeithley6485(myport,ioport,ioaddr)]. *)
Definition drvAsynKeithley6485 (my io : string) (addr : Z) (host : Host)
    (tr : Transport) : Outcome asynStatus :=
  setup host tr (calloc_Port my io addr).

End K6485.

(** ** k648xApp/src/drvAsynKeithley648x.cpp *)

Module K648x.
Import Libc Asyn Driver.

Definition driver : string := "drvAsynKeithley648x".

Definition DEV_ALL : Z := 0.
Definition DEV_6485 : Z := 1.
Definition DEV_6487 : Z := 2.

Definition DIGITAL_FILTER_CONTROL_CMD : Z := 6.
Definition VOLT_RANGE_CMD : Z := 7.
Definition GEN_CMD_NUMBER : Z := 8.

Definition readRate : ReadFunc := fun which Iface =>
  match Iface with
  | Int32 =>
      '(status, inpBuf) <- writeRead ":NPLC?" BUFFER_SIZE data_eom ;;
      if negb (is_success status) then ret (status, nothing)
      else
        let val := atof inpBuf in
        let rate :=
          if PrimFloat.ltb 1.0 val then 0           (* SLOW *)
          else if PrimFloat.ltb 0.1 val then 1      (* MEDIUM *)
          else 2 in                                 (* FAST *)
        ret (asynSuccess, stored (VInt32 rate))
  | _ => ret (asynSuccess, nothing)
  end.

Definition writeRate : WriteFunc := fun which data Iface =>
  match Iface, data with
  | Int32, VInt32 rate =>
      if (rate <? 0) || (rate >? 2) then ret asynError
      else
        let val :=
          if rate =? 0 then 6.0%float
          else if rate =? 1 then 1.0%float
          else if rate =? 2 then 0.1%float
          else 1.0%float in                          (* default: *)
        writeOnly (":NPLC " ++ printf_g val)
  | Int32, _ => undefined BadPointer
  | _, _ => ret asynSuccess
  end.

Section Handlers.

(** [readCommon] stores its local [int val] also when no case of its switch
    has set it.  [val_uninit] is the indeterminate value it holds then. *)
Variable val_uninit : Z.

Definition readCommon : ReadFunc := fun which Iface =>
  match Iface with
  | Int32 =>
      if which =? DIGITAL_FILTER_CONTROL_CMD then
        '(status, inpBuf) <- writeRead "AVER:TCON?" BUFFER_SIZE data_eom ;;
        if negb (is_success status) then ret (status, nothing)
        else if strcmp_eq "MOV" inpBuf then ret (asynSuccess, stored (VInt32 0))
        else if strcmp_eq "REP" inpBuf then ret (asynSuccess, stored (VInt32 1))
        else ret (asynError, nothing)
      else ret (asynSuccess, stored (VInt32 val_uninit))
  | _ => ret (asynSuccess, nothing)
  end.

(** For a command other than [DIGITAL_FILTER_CONTROL_CMD] the buffer handed
    to [writeOnly] was never written. *)
Definition writeCommon : WriteFunc := fun which data Iface =>
  match Iface, data with
  | Int32, VInt32 val =>
      if which =? DIGITAL_FILTER_CONTROL_CMD then
        if val =? 0 then writeOnly "AVER:TCON MOV"
        else if val =? 1 then writeOnly "AVER:TCON REP"
        else ret asynError
      else undefined Uninitialised
  | Int32, _ => undefined BadPointer
  | _, _ => ret asynSuccess
  end.

Definition genCommandTable : list GenCommand :=
  [ {| readFunc := readDummy;         writeFunc := writeDummy |};    (* VOID *)
    {| readFunc := readSensorReading; writeFunc := writeDummy |};    (* READ *)
    {| readFunc := readRange;         writeFunc := writeRange |};    (* RANGE *)
    {| readFunc := readRange;         writeFunc := writeRange |};    (* RANGE_AUTO_ULIMIT *)
    {| readFunc := readRange;         writeFunc := writeRange |};    (* RANGE_AUTO_LLIMIT *)
    {| readFunc := readRate;          writeFunc := writeRate |};     (* RATE *)
    {| readFunc := readCommon;        writeFunc := writeCommon |};   (* DIGITAL_FILTER_CONTROL *)
    {| readFunc := readCommon;        writeFunc := writeCommon |} ]. (* VOLT_RANGE_COMMAND *)

Definition RESET_CMD : Z := 0.
Definition RANGE_AUTO_CMD : Z := 1.
Definition ZERO_CHECK_CMD : Z := 2.
Definition ZERO_CORRECT_CMD : Z := 3.
Definition ZERO_CORRECT_ACQUIRE_CMD : Z := 4.
Definition MEDIAN_FILTER_CMD : Z := 5.
Definition MEDIAN_FILTER_RANK_CMD : Z := 6.
Definition DIGITAL_FILTER_CMD : Z := 7.
Definition DIGITAL_FILTER_COUNT_CMD : Z := 8.
Definition SIMPLE_CMD_NUMBER : Z := 9.

Definition simpleCommandTable : list SimpleCommand :=
  [ {| simple_type := SIMPLE_TRIGGER; cmd_str := "*RST" |};            (* RESET DEVICE *)
    {| simple_type := SIMPLE_INT32;   cmd_str := ":RANGE:AUTO" |};     (* RANGE_AUTO *)
    {| simple_type := SIMPLE_INT32;   cmd_str := "SYST:ZCH" |};        (* ZERO CHECK *)
    {| simple_type := SIMPLE_INT32;   cmd_str := "SYST:ZCOR" |};       (* ZERO CORRECT *)
    {| simple_type := SIMPLE_TRIGGER; cmd_str := "SYST:ZCOR:ACQ" |};   (* ZERO CORRECT ACQUIRE *)
    {| simple_type := SIMPLE_INT32;   cmd_str := "MED" |};             (* MEDIAN FILTER *)
    {| simple_type := SIMPLE_INT32;   cmd_str := "MED:RANK" |};        (* MEDIAN FILTER RANK *)
    {| simple_type := SIMPLE_INT32;   cmd_str := "AVER" |};            (* DIGITAL FILTER *)
    {| simple_type := SIMPLE_INT32;   cmd_str := "AVER:COUN" |} ].     (* DIGITAL FILTER COUNT *)

Definition command (t : string) (d ty i : Z) : Command :=
  {| tag := t; dev := d; type := ty; id := i |}.

Definition commandTable : list Command :=
  [ command "VOID"                   DEV_ALL  CMD_GEN    VOID_CMD;
    command "READ"                   DEV_ALL  CMD_GEN    READ_CMD;
    command "RANGE"                  DEV_ALL  CMD_GEN    RANGE_CMD;
    command "RANGE_AUTO_ULIMIT"      DEV_ALL  CMD_GEN    RANGE_AUTO_ULIMIT_CMD;
    command "RANGE_AUTO_LLIMIT"      DEV_ALL  CMD_GEN    RANGE_AUTO_LLIMIT_CMD;
    command "RATE"                   DEV_ALL  CMD_GEN    RATE_CMD;
    command "DIGITAL_FILTER_CONTROL" DEV_ALL  CMD_GEN    DIGITAL_FILTER_CONTROL_CMD;
    command "VOLT_RANGE"             DEV_6487 CMD_GEN    VOLT_RANGE_CMD;
    command "RESET"                  DEV_ALL  CMD_SIMPLE RESET_CMD;
    command "RANGE_AUTO"             DEV_ALL  CMD_SIMPLE RANGE_AUTO_CMD;
    command "ZERO_CHECK"             DEV_ALL  CMD_SIMPLE ZERO_CHECK_CMD;
    command "ZERO_CORRECT"           DEV_ALL  CMD_SIMPLE ZERO_CORRECT_CMD;
    command "ZERO_CORRECT_ACQUIRE"   DEV_ALL  CMD_SIMPLE ZERO_CORRECT_ACQUIRE_CMD;
    command "MEDIAN_FILTER"          DEV_ALL  CMD_SIMPLE MEDIAN_FILTER_CMD;
    command "MEDIAN_FILTER_RANK"     DEV_ALL  CMD_SIMPLE MEDIAN_FILTER_RANK_CMD;
    command "DIGITAL_FILTER"         DEV_ALL  CMD_SIMPLE DIGITAL_FILTER_CMD;
    command "DIGITAL_FILTER_COUNT"   DEV_ALL  CMD_SIMPLE DIGITAL_FILTER_COUNT_CMD;
    command "MODEL"                  DEV_ALL  CMD_CACHE  MODEL_CMD;
    command "SERIAL"                 DEV_ALL  CMD_CACHE  SERIAL_CMD;
    command "DIG_REV"                DEV_ALL  CMD_CACHE  DIG_REV_CMD;
    command "DISP_REV"               DEV_ALL  CMD_CACHE  DISP_REV_CMD;
    command "BRD_REV"                DEV_ALL  CMD_CACHE  BRD_REV_CMD;
    command "TIMESTAMP"              DEV_ALL  CMD_CACHE  TIMESTAMP_CMD;
    command "STATUS_RAW"             DEV_ALL  CMD_CACHE  STATUS_RAW_CMD;
    command "STATUS_OVERFLOW"        DEV_ALL  CMD_CACHE  STATUS_OVERFLOW_CMD;
    command "STATUS_FILTER"          DEV_ALL  CMD_CACHE  STATUS_FILTER_CMD;
    command "STATUS_MATH"            DEV_ALL  CMD_CACHE  STATUS_MATH_CMD;
    command "STATUS_NULL"            DEV_ALL  CMD_CACHE  STATUS_NULL_CMD;
    command "STATUS_LIMITS"          DEV_ALL  CMD_CACHE  STATUS_LIMITS_CMD;
    command "STATUS_OVERVOLTAGE"     DEV_ALL  CMD_CACHE  STATUS_OVERVOLTAGE_CMD;
    command "STATUS_ZERO_CHECK"      DEV_ALL  CMD_CACHE  STATUS_ZERO_CHECK_CMD;
    command "STATUS_ZERO_CORRECT"    DEV_ALL  CMD_CACHE  STATUS_ZERO_CORRECT_CMD ].

Definition COMMAND_NUMBER : Z := Z.of_nat (List.length commandTable).

Definition writeFloat64 := Driver.writeFloat64 commandTable genCommandTable simpleCommandTable.
Definition readFloat64 := Driver.readFloat64 commandTable genCommandTable simpleCommandTable.
Definition writeInt32 := Driver.writeInt32 commandTable genCommandTable simpleCommandTable.
Definition readInt32 := Driver.readInt32 commandTable genCommandTable simpleCommandTable.
Definition writeOctet := Driver.writeOctet commandTable genCommandTable simpleCommandTable.
Definition readOctet := Driver.readOctet commandTable genCommandTable simpleCommandTable.

End Handlers.

(** [create] of asynDrvUser: the loop over [commandTable] from row [i] on. *)
Fixpoint create_from (pport : Port) (drvInfo : string) (table : list Command) (i : Z)
  : Created :=
  match table with
  | [] =>
      {| create_status := asynError; create_reason := 0;
         create_errlog :=
           Some (driver ++ "::create port " ++ myport pport
                 ++ " failed to find tag " ++ cstr drvInfo) |}
  | row :: rest =>
      if epicsStrCaseCmp drvInfo (tag row) =? 0 then
        if negb (dev row =? DEV_ALL) && negb (dev row =? devtype pport) then
          {| create_status := asynError; create_reason := 0;
             create_errlog :=
               Some (driver ++ "::create port " ++ myport pport ++ " failed as tag "
                     ++ cstr drvInfo ++ " is for different device") |}
        else
          {| create_status := asynSuccess; create_reason := i; create_errlog := None |}
      else create_from pport drvInfo rest (i + 1)
  end.

Definition create (pport : Port) (drvInfo : string) : Created :=
  create_from pport drvInfo commandTable 0.

(** [drvAsynKeithley648x(type,myport,ioport,ioaddr)]. *)
Definition drvAsynKeithley648x (type my io : string) (addr : Z) (host : Host)
    (tr : Transport) : Outcome asynStatus :=
  let pport := calloc_Port my io addr in
  let pport := set_devtype DEV_ALL pport in
  let pport := if strcmp_eq "6485" type then set_devtype DEV_6485 pport else pport in
  let pport := if strcmp_eq "6487" type then set_devtype DEV_6487 pport else pport in
  if devtype pport =? DEV_ALL then     (* DEV_ALL is not a real device *)
    Returns asynError pport []
  else setup host tr pport.

End K648x.

(** ** Hosts, devices and accesses used to state the properties *)

Module Scenario.
Import Libc Asyn Driver.

(** A transport that takes every command in full and answers every query
    with [reply]. *)
Definition answering (reply : string) : Transport :=
  {| syncio_write := fun outBuf => (asynSuccess, Z.of_nat (String.length outBuf));
     syncio_writeRead := fun outBuf =>
       (asynSuccess, Z.of_nat (String.length outBuf), reply, Some 0) |}.

(** A transport on which every exchange ends with [status] and nothing read. *)
Definition failing (status : asynStatus) : Transport :=
  {| syncio_write := fun outBuf => (status, Z.of_nat (String.length outBuf));
     syncio_writeRead := fun outBuf =>
       (status, Z.of_nat (String.length outBuf), EmptyString, None) |}.

(** A transport that reports success but takes one byte less than it was given. *)
Definition short_writing : Transport :=
  {| syncio_write := fun outBuf => (asynSuccess, Z.of_nat (String.length outBuf) - 1);
     syncio_writeRead := fun outBuf =>
       (asynSuccess, Z.of_nat (String.length outBuf) - 1, EmptyString, None) |}.

Definition host_ok : Host :=
  {| connect_status := asynSuccess; registerPort_status := asynSuccess;
     initialize_status := asynSuccess |}.

(** The commands of a run, in order. *)
Definition sent (e : Event) : string :=
  match e with Wrote outBuf _ | WroteRead outBuf _ => outBuf end.

Definition commands {A} (o : Outcome A) : list string := map sent (exchanges o).

(** The sensor snapshot: reading, timestamp and raw status. *)
Definition last_reading (p : Port) : double * Z * Z :=
  (reading (data p), timestamp (data p), status_raw (data p)).

(** A port as a completed set up leaves it, with a given snapshot and
    counters. *)
Definition ready_port (dt : Z) (d : Data) (s : Stats) : Port :=
  {| myport := "EP0"; ioport := "S0"; ioaddr := 0; devtype := dt; init := 1;
     model := "KEITHLEY,MODEL6485" ++ String NUL ("SN001" ++ String NUL
                ("A1" ++ String NUL ("B2" ++ String NUL "C3")));
     serial := Some 19%nat; dig_rev := Some 25%nat; disp_rev := Some 28%nat;
     brd_rev := Some 31%nat; stats := s; data := d |}.

Definition some_data : Data :=
  {| reading := 1.5%float; timestamp := 7; status_raw := 96; eom := 0 |}.
Definition some_stats : Stats :=
  {| ioErrors := 2; writeReads := 10; writeOnlys := 4 |}.

(** One call of the host through an asyn interface. *)
Inductive Access : Set :=
| ReadFloat64 (reason : Z)
| WriteFloat64 (reason : Z) (value : double)
| ReadInt32 (reason : Z)
| WriteInt32 (reason : Z) (value : Z)
| ReadOctet (reason : Z)
| WriteOctet (reason : Z) (data : string).

Section Perform.

Variable commandTable : list Command.
Variable genCommandTable : list GenCommand.
Variable simpleCommandTable : list SimpleCommand.

(** The status an access returns to the host. *)
Definition perform (a : Access) : Run asynStatus :=
  match a with
  | ReadFloat64 r =>
      x <- Driver.readFloat64 commandTable genCommandTable simpleCommandTable r ;; ret (fst x)
  | WriteFloat64 r v =>
      Driver.writeFloat64 commandTable genCommandTable simpleCommandTable r v
  | ReadInt32 r =>
      x <- Driver.readInt32 commandTable genCommandTable simpleCommandTable r ;; ret (fst x)
  | WriteInt32 r v =>
      Driver.writeInt32 commandTable genCommandTable simpleCommandTable r v
  | ReadOctet r =>
      x <- Driver.readOctet commandTable genCommandTable simpleCommandTable r ;; ret (fst x)
  | WriteOctet r s =>
      x <- Driver.writeOctet commandTable genCommandTable simpleCommandTable r s ;; ret (fst x)
  end.

End Perform.

Definition perform_6485 (rate_uninit : Z) : Access -> Run asynStatus :=
  perform K6485.commandTable (K6485.genCommandTable rate_uninit) K6485.simpleCommandTable.

Definition perform_648x (val_uninit : Z) : Access -> Run asynStatus :=
  perform K648x.commandTable (K648x.genCommandTable val_uninit) K648x.simpleCommandTable.

(** Row [reason] of a command table. *)
Definition row (table : list Command) (reason : Z) : option Command :=
  if reason <? 0 then None else nth_error table (Z.to_nat reason).

(** The first row of the 648x table whose tag is [drvInfo], letter case
    ignored. *)
Definition lookup (drvInfo : string) : option Command :=
  find (fun r => epicsStrCaseCmp drvInfo (tag r) =? 0) K648x.commandTable.

(** What the set up alone writes: everything in the structure but the
    counters and the sensor data. *)
Definition setup_part (p : Port)
  : string * string * Z * Z * Z * string * option nat * option nat * option nat * option nat :=
  (myport p, ioport p, ioaddr p, devtype p, init p, model p,
   serial p, dig_rev p, disp_rev p, brd_rev p).

(** A computation that makes no exchange and leaves the structure as it is. *)
Definition Silent {A} (m : Run A) : Prop :=
  forall tr p, (exists a, m tr p = Returns a p []) \/ (exists f, m tr p = Undefined f []).

(** A computation that makes no exchange and writes at most the sensor data. *)
Definition Quiet {A} (m : Run A) : Prop :=
  forall tr p,
    match m tr p with
    | Returns _ p' io => io = [] /\ setup_part p' = setup_part p /\ stats p' = stats p
    | Undefined _ io => io = []
    end.

(** The counter an exchange that went well is counted in. *)
Definition counted (e : Event) (s s' : Stats) : Prop :=
  ioErrors s' = ioErrors s /\
  match e with
  | Wrote _ _ => writeOnlys s' = incr (writeOnlys s) /\ writeReads s' = writeReads s
  | WroteRead _ _ => writeReads s' = incr (writeReads s) /\ writeOnlys s' = writeOnlys s
  end.

(** The ways one access can run from a port [p]; [st] reads the status off
    the value returned. *)
Inductive Shape {A} (st : A -> asynStatus) (p : Port) : Outcome A -> Prop :=
| shape_idle : forall a, Shape st p (Returns a p [])
| shape_fault : forall f, Shape st p (Undefined f [])
| shape_failed : forall a p' e,
    failed e = true ->
    st a = event_status e ->
    setup_part p' = setup_part p ->
    last_reading p' = last_reading p ->
    ioErrors (stats p') = incr (ioErrors (stats p)) ->
    writeReads (stats p') = writeReads (stats p) ->
    writeOnlys (stats p') = writeOnlys (stats p) ->
    Shape st p (Returns a p' [e])
| shape_done : forall a p' e,
    failed e = false ->
    setup_part p' = setup_part p ->
    counted e (stats p) (stats p') ->
    Shape st p (Returns a p' [e])
| shape_fault_after : forall f e,
    failed e = false ->
    Shape st p (Undefined f [e]).

(** The status the transport wrappers settle on. *)
Definition write_status (tr : Transport) (outBuf : string) : asynStatus :=
  let '(status, nActual) := syncio_write tr (cstr outBuf) in
  if negb (nActual =? Z.of_nat (strlen outBuf)) then asynError else status.

Definition writeRead_status (tr : Transport) (outBuf : string) : asynStatus :=
  let '(status, nWrite, _, _) := syncio_writeRead tr (cstr outBuf) in
  if negb (nWrite =? Z.of_nat (strlen outBuf)) then asynError else status.

(** A row of a general command table whose two handlers run in one of
    these ways. *)
Definition GenShaped (g : GenCommand) : Prop :=
  (forall which Iface tr p, Shape fst p (readFunc g which Iface tr p)) /\
  (forall which data Iface tr p, Shape (fun s => s) p (writeFunc g which data Iface tr p)).

(** What a run handed back, if it returned. *)
Definition returned {A} (o : Outcome A) : option A :=
  match o with Returns a _ _ => Some a | Undefined _ _ => None end.

Definition final_port {A} (o : Outcome A) : option Port :=
  match o with Returns _ p _ => Some p | Undefined _ _ => None end.

(** The two drivers, each with the indeterminate value one of its handlers
    reads. *)
Inductive Variant : Set :=
| V6485 (rate_uninit : Z)
| V648x (val_uninit : Z).

Definition perform_on (v : Variant) : Access -> Run asynStatus :=
  match v with
  | V6485 r => perform_6485 r
  | V648x u => perform_648x u
  end.

Definition commandTable_of (v : Variant) : list Command :=
  match v with
  | V6485 _ => K6485.commandTable
  | V648x _ => K648x.commandTable
  end.

(** The five fields the three-part reply "MODEL6485,SN001,A1/B2/C3" would
    have to give, and those of the four-part reply the instrument sends. *)
Definition five_fields : Identification :=
  {| id_model := "MODEL6485"; id_serial := Some "SN001"; id_dig_rev := Some "A1";
     id_disp_rev := Some "B2"; id_brd_rev := Some "C3" |}.

Definition four_part_fields : Identification :=
  {| id_model := "KEITHLEY,MODEL6485"; id_serial := Some "SN001"; id_dig_rev := Some "A1";
     id_disp_rev := Some "B2"; id_brd_rev := Some "C3" |}.

(** [pasynUser->reason] of an access. *)
Definition reason_of (a : Access) : Z :=
  match a with
  | ReadFloat64 r | WriteFloat64 r _ | ReadInt32 r | WriteInt32 r _
  | ReadOctet r | WriteOctet r _ => r
  end.

(** [create] of either driver. *)
Definition create_on (v : Variant) : Port -> string -> Created :=
  match v with
  | V6485 _ => K6485.create
  | V648x _ => K648x.create
  end.

(** A name in upper case, and two names that differ in letter case only. *)
Fixpoint upper (s : string) : string :=
  match s with
  | EmptyString => EmptyString
  | String c rest => String (toupper c) (upper rest)
  end.

Definition same_letters (a b : string) : Prop := upper (cstr a) = upper (cstr b).

(** [data] as the interface method of kind [Iface] hands it to a handler. *)
Definition fits (data : Value) (Iface : IfaceType) : Prop :=
  match data, Iface with
  | VOctet _, Octet | VOctetAddr _, Octet | VFloat64 _, Float64 | VInt32 _, Int32 => True
  | _, _ => False
  end.

(** A computation that never runs into the fault [f]. *)
Definition Never (f : Fault) {A} (m : Run A) : Prop :=
  forall tr p io, m tr p <> Undefined f io.

(** What [create] returns but for the line it logs. *)
Definition verdict (c : Created) : asynStatus * Z := (create_status c, create_reason c).

(** The rows of a simple command table that the drivers have: triggers and
    numbers, no text. *)
Definition no_text (e : SimpleCommand) : Prop := simple_type e <> SIMPLE_OCTET.

(** A row of a general command table whose handlers never run into [f] when
    handed data of the kind they are called for. *)
Definition GenNever (f : Fault) (g : GenCommand) : Prop :=
  (forall which Iface, Never f (readFunc g which Iface))
  /\ (forall which data Iface, fits data Iface -> Never f (writeFunc g which data Iface)).

(** A text that holds neither the character [c] nor a NUL. *)
Fixpoint free_of (c : ascii) (s : string) : bool :=
  match s with
  | EmptyString => true
  | String d rest => negb (is_NUL d) && negb (Ascii.eqb d c) && free_of c rest
  end.

(** A field of a reply: not empty, and free of the delimiter [c]. *)
Definition field (c : ascii) (s : string) : bool :=
  negb (String.eqb s EmptyString) && free_of c s.

(** Entry [i] of a C array, when [i] is inside it. *)
Definition element {A} (table : list A) (i : Z) : option A :=
  if i <? 0 then None else nth_error table (Z.to_nat i).

(** The interface an access comes through, and whether it writes. *)
Definition kind_of (a : Access) : IfaceType :=
  match a with
  | ReadFloat64 _ | WriteFloat64 _ _ => Float64
  | ReadInt32 _ | WriteInt32 _ _ => Int32
  | ReadOctet _ | WriteOctet _ _ => Octet
  end.

Definition is_write (a : Access) : bool :=
  match a with
  | WriteFloat64 _ _ | WriteInt32 _ _ | WriteOctet _ _ => true
  | _ => false
  end.

Definition simpleCommandTable_of (v : Variant) : list SimpleCommand :=
  match v with
  | V6485 _ => K6485.simpleCommandTable
  | V648x _ => K648x.simpleCommandTable
  end.

(** The size of an EPICS string, the terminator included: the buffer that
    the text reads of [readCache] and [readSimpleData] are cut for. *)
Definition MAX_STRING_SIZE : nat := 40.

End Scenario.

Import Libc Asyn Driver Scenario.

(** * Properties *)

(** ** Computations that make no exchange *)

Lemma Silent_ret {A} (a : A) : Silent (ret a).
Proof. intros tr p. left. exists a. reflexivity. Qed.

Lemma Silent_get_port : Silent get_port.
Proof. intros tr p. left. exists p. reflexivity. Qed.

Lemma Silent_undefined {A} f : Silent (@undefined A f).
Proof. intros tr p. right. exists f. reflexivity. Qed.

Lemma Silent_index {A} (table : list A) i : Silent (index table i).
Proof.
  unfold index. destruct (i <? 0); [apply Silent_undefined|].
  destruct (nth_error table (Z.to_nat i)); [apply Silent_ret | apply Silent_undefined].
Qed.

Lemma Quiet_ret {A} (a : A) : Quiet (ret a).
Proof. intros tr p. simpl. auto. Qed.

Lemma Quiet_undefined {A} f : Quiet (@undefined A f).
Proof. intros tr p. reflexivity. Qed.

Lemma Quiet_get_port : Quiet get_port.
Proof. intros tr p. simpl. auto. Qed.

Lemma Quiet_deref {A} (o : option A) : Quiet (deref o).
Proof. destruct o; [apply Quiet_ret | apply Quiet_undefined]. Qed.

Lemma Quiet_cast_int x : Quiet (cast_int x).
Proof. unfold cast_int. destruct (double_to_int x); [apply Quiet_ret | apply Quiet_undefined]. Qed.

Lemma Quiet_modify_data f : Quiet (modify (upd_data f)).
Proof. intros tr p. simpl. auto. Qed.

Lemma Quiet_bind {A B} (m : Run A) (k : A -> Run B) :
  Quiet m -> (forall a, Quiet (k a)) -> Quiet (bind m k).
Proof.
  intros Hm Hk tr p. unfold bind. specialize (Hm tr p).
  destruct (m tr p) as [a p1 io1 | f io1].
  - destruct Hm as (-> & Hs & Ht). specialize (Hk a tr p1).
    destruct (k a tr p1) as [b p2 io2 | f io2].
    + destruct Hk as (-> & Hs2 & Ht2). repeat split; congruence.
    + subst. reflexivity.
  - exact Hm.
Qed.

(** ** The transport wrappers *)

Lemma writeOnly_eq outBuf tr p :
  writeOnly outBuf tr p =
  Returns (write_status tr outBuf)
    (upd_stats (if is_success (write_status tr outBuf) then incr_writeOnlys else incr_ioErrors) p)
    [Wrote (cstr outBuf) (write_status tr outBuf)].
Proof.
  unfold writeOnly, write_status, bind, transport, modify, record, ret.
  destruct (syncio_write tr (cstr outBuf)) as [status nActual].
  destruct (negb (nActual =? Z.of_nat (strlen outBuf))); simpl.
  - reflexivity.
  - destruct status; reflexivity.
Qed.

Lemma writeOnly_shape outBuf tr p : Shape (fun s => s) p (writeOnly outBuf tr p).
Proof.
  rewrite writeOnly_eq. destruct (is_success (write_status tr outBuf)) eqn:E.
  - apply shape_done; [unfold failed; simpl; rewrite E; reflexivity | reflexivity |].
    repeat split.
  - apply shape_failed; try reflexivity. unfold failed; simpl; rewrite E; reflexivity.
Qed.

(** The port after [writeRead]: the transport may have stored an end of
    message reason, then one counter went up. *)
Lemma writeRead_cases outBuf size eomf tr p :
  (exists buf po, writeRead outBuf size eomf tr p
     = Returns (asynSuccess, buf) (upd_stats incr_writeReads po)
         [WroteRead (cstr outBuf) asynSuccess]
     /\ writeRead_status tr outBuf = asynSuccess
     /\ buf = cstr (substring 0 (Z.to_nat (size - 1)) (snd (fst (syncio_writeRead tr (cstr outBuf)))))
     /\ (po = p \/ exists r, po = eomf r p))
  \/
  (exists st po, is_success st = false /\ writeRead_status tr outBuf = st
     /\ writeRead outBuf size eomf tr p
        = Returns (st, EmptyString) (upd_stats incr_ioErrors po) [WroteRead (cstr outBuf) st]
     /\ (po = p \/ exists r, po = eomf r p)).
Proof.
  unfold writeRead, writeRead_status, bind, transport, modify, record, ret.
  destruct (syncio_writeRead tr (cstr outBuf)) as [[[status nWrite] bytes] reason].
  destruct (negb (nWrite =? Z.of_nat (strlen outBuf))) eqn:E.
  - right. destruct reason; simpl; do 2 eexists; (split; [|split; [|split]]); try reflexivity; eauto.
  - destruct status; destruct reason; simpl;
      solve [ left; do 2 eexists; (split; [|split; [|split]]); try reflexivity; eauto
            | right; do 2 eexists; (split; [|split; [|split]]); try reflexivity; eauto ].
Qed.

Lemma Silent_bind {A B} (m : Run A) (k : A -> Run B) :
  Silent m -> (forall a, Silent (k a)) -> Silent (bind m k).
Proof.
  intros Hm Hk tr p. unfold bind.
  destruct (Hm tr p) as [[a ->] | [f ->]].
  - destruct (Hk a tr p) as [[b ->] | [f ->]]; [left; exists b | right; exists f]; reflexivity.
  - right. exists f. reflexivity.
Qed.

Lemma Silent_deref {A} (o : option A) : Silent (deref o).
Proof. destruct o; [apply Silent_ret | apply Silent_undefined]. Qed.

Lemma Silent_Shape {A} (st : A -> asynStatus) (m : Run A) :
  Silent m -> forall tr p, Shape st p (m tr p).
Proof.
  intros Hm tr p. destruct (Hm tr p) as [[a ->] | [f ->]]; constructor.
Qed.

Lemma Shape_bind_silent {A B} (st : B -> asynStatus) (m : Run A) (k : A -> Run B) :
  Silent m -> (forall a tr p, Shape st p (k a tr p)) ->
  forall tr p, Shape st p (bind m k tr p).
Proof.
  intros Hm Hk tr p. unfold bind.
  destruct (Hm tr p) as [[a ->] | [f ->]]; [|constructor].
  specialize (Hk a tr p). destruct (k a tr p); exact Hk.
Qed.

Lemma Shape_bind_index {A B} (st : B -> asynStatus) (table : list A) i (k : A -> Run B) :
  (forall a, In a table -> forall tr p, Shape st p (k a tr p)) ->
  forall tr p, Shape st p (bind (index table i) k tr p).
Proof.
  intros Hk tr p. unfold bind, index.
  destruct (i <? 0); [constructor|].
  destruct (nth_error table (Z.to_nat i)) as [a|] eqn:E; [|constructor].
  apply nth_error_In in E. simpl. specialize (Hk a E tr p).
  destruct (k a tr p); exact Hk.
Qed.

(** A value handed on after an access keeps the shape of the access. *)
Lemma Shape_bind_ret {A B} (st : A -> asynStatus) (st' : B -> asynStatus)
    (m : Run A) (g : A -> B) :
  (forall a, st' (g a) = st a) ->
  forall tr p, Shape st p (m tr p) -> Shape st' p (bind m (fun x => ret (g x)) tr p).
Proof.
  intros Hg tr p H. unfold bind, ret.
  inversion H; subst; simpl; try rewrite app_nil_r.
  - constructor.
  - constructor.
  - apply shape_failed; auto. rewrite Hg; assumption.
  - apply shape_done; auto.
  - apply shape_fault_after; auto.
Qed.

(** An exchange through [writeRead], then code that makes none. *)
Lemma writeRead_then {A} (st : A -> asynStatus) outBuf size (k : asynStatus * string -> Run A) :
  (forall s buf, is_success s = false -> exists a, st a = s /\ k (s, buf) = ret a) ->
  (forall buf, Quiet (k (asynSuccess, buf))) ->
  forall tr p, Shape st p (bind (writeRead outBuf size data_eom) k tr p).
Proof.
  intros Hfail Hok tr p. unfold bind.
  destruct (writeRead_cases outBuf size data_eom tr p)
    as [(buf & po & -> & _ & _ & Hpo) | (s & po & Hs & _ & -> & Hpo)].
  - specialize (Hok buf tr (upd_stats incr_writeReads po)).
    destruct (k (asynSuccess, buf) tr (upd_stats incr_writeReads po)) as [b p2 io2 | f io2].
    + destruct Hok as (-> & Hsp & Hst). apply shape_done; [reflexivity | |].
      * rewrite Hsp. destruct Hpo as [-> | [r ->]]; reflexivity.
      * rewrite Hst. destruct Hpo as [-> | [r ->]]; repeat split.
    + subst io2. apply shape_fault_after. reflexivity.
  - destruct (Hfail s EmptyString Hs) as (a & Ha & ->). unfold ret. simpl.
    apply shape_failed; try (destruct Hpo as [-> | [r ->]]; reflexivity).
    + unfold failed. simpl. rewrite Hs. reflexivity.
    + exact Ha.
Qed.

Ltac quiet :=
  repeat first
    [ apply Quiet_ret | apply Quiet_undefined | apply Quiet_get_port
    | apply Quiet_deref | apply Quiet_cast_int | apply Quiet_modify_data
    | apply Quiet_bind; [| intros ?]
    | match goal with
      | |- Quiet (match ?x with _ => _ end) => destruct x
      | |- Quiet (if ?b then _ else _) => destruct b
      | |- Quiet (token_at _ _) => unfold token_at
      end ].

Ltac silent :=
  repeat first
    [ apply Silent_ret | apply Silent_undefined | apply Silent_get_port
    | apply Silent_deref | apply Silent_index
    | apply Silent_bind; [| intros ?]
    | match goal with
      | |- Silent (match ?x with _ => _ end) => destruct x
      | |- Silent (if ?b then _ else _) => destruct b
      end ].

Ltac exchange :=
  apply writeRead_then;
  [ let s := fresh "s" in let buf := fresh "buf" in let Hs := fresh "Hs" in
    intros s buf Hs; exists (s, nothing); simpl; rewrite Hs; split; reflexivity
  | intros ?; simpl ].

(** ** The handlers *)

Lemma readDummy_shape which Iface tr p : Shape fst p (readDummy which Iface tr p).
Proof. constructor. Qed.

Lemma writeDummy_shape which data Iface tr p :
  Shape (fun s => s) p (writeDummy which data Iface tr p).
Proof. constructor. Qed.

Lemma readSimpleData_shape table which Iface tr p :
  Shape fst p (readSimpleData table which Iface tr p).
Proof.
  unfold readSimpleData. revert tr p. apply Shape_bind_silent; [apply Silent_index|].
  intros entry tr p.
  destruct (negb (simple_type entry =? type_code Iface)); [constructor|].
  revert tr p. exchange. destruct Iface; quiet.
Qed.

Lemma writeSimpleData_shape table which data Iface tr p :
  Shape (fun s => s) p (writeSimpleData table which data Iface tr p).
Proof.
  unfold writeSimpleData. revert tr p. apply Shape_bind_silent; [apply Silent_index|].
  intros entry. apply Shape_bind_silent.
  - silent.
  - intros [outBuf|] tr p; [apply writeOnly_shape | constructor].
Qed.

Lemma readCache_Silent which Iface : Silent (readCache which Iface).
Proof. unfold readCache. silent. Qed.

Lemma readCache_shape which Iface tr p : Shape fst p (readCache which Iface tr p).
Proof. apply Silent_Shape, readCache_Silent. Qed.

Lemma readSensorReading_shape which Iface tr p :
  Shape fst p (readSensorReading which Iface tr p).
Proof.
  unfold readSensorReading. revert tr p. exchange.
  destruct (split_loop 3 0 (Some buf) None []) as [pass token].
  quiet.
Qed.

Lemma readRange_shape which Iface tr p : Shape fst p (readRange which Iface tr p).
Proof.
  unfold readRange.
  destruct Iface; try constructor;
    (destruct (range_verb which); [|constructor]); revert tr p; exchange; quiet.
Qed.

Lemma writeRange_shape which data Iface tr p :
  Shape (fun s => s) p (writeRange which data Iface tr p).
Proof.
  unfold writeRange. destruct Iface; try constructor.
  destruct data; try constructor.
  destruct ((i <? 0) || (i >? 7)); [constructor|].
  destruct (range_verb which); [apply writeOnly_shape | constructor].
Qed.

Lemma K6485_readRate_shape r which Iface tr p :
  Shape fst p (K6485.readRate r which Iface tr p).
Proof.
  unfold K6485.readRate. destruct Iface; try constructor. revert tr p. exchange. quiet.
Qed.

Lemma K6485_writeRate_shape which data Iface tr p :
  Shape (fun s => s) p (K6485.writeRate which data Iface tr p).
Proof.
  unfold K6485.writeRate. destruct Iface; try constructor.
  destruct data; try constructor.
  destruct ((i <? 0) || (i >? 2)); [constructor|].
  revert tr p. apply Shape_bind_silent; [silent|]. intros val tr p. apply writeOnly_shape.
Qed.

Lemma K648x_readRate_shape which Iface tr p :
  Shape fst p (K648x.readRate which Iface tr p).
Proof.
  unfold K648x.readRate. destruct Iface; try constructor. revert tr p. exchange. quiet.
Qed.

Lemma K648x_writeRate_shape which data Iface tr p :
  Shape (fun s => s) p (K648x.writeRate which data Iface tr p).
Proof.
  unfold K648x.writeRate. destruct Iface; try constructor.
  destruct data; try constructor.
  destruct ((i <? 0) || (i >? 2)); [constructor|]. apply writeOnly_shape.
Qed.

Lemma readCommon_shape v which Iface tr p :
  Shape fst p (K648x.readCommon v which Iface tr p).
Proof.
  unfold K648x.readCommon. destruct Iface; try constructor.
  destruct (which =? K648x.DIGITAL_FILTER_CONTROL_CMD); [|constructor].
  revert tr p. exchange. quiet.
Qed.

Lemma writeCommon_shape which data Iface tr p :
  Shape (fun s => s) p (K648x.writeCommon which data Iface tr p).
Proof.
  unfold K648x.writeCommon. destruct Iface; try constructor.
  destruct data; try constructor.
  destruct (which =? K648x.DIGITAL_FILTER_CONTROL_CMD); [|constructor].
  destruct (i =? 0); [apply writeOnly_shape|].
  destruct (i =? 1); [apply writeOnly_shape | constructor].
Qed.

(** ** The interface methods *)

Section DispatchShape.

Variable commandTable : list Command.
Variable genCommandTable : list GenCommand.
Variable simpleCommandTable : list SimpleCommand.
Hypothesis gen_shaped : Forall GenShaped genCommandTable.

Let gen_read g (H : In g genCommandTable) := proj1 (proj1 (Forall_forall _ _) gen_shaped g H).
Let gen_write g (H : In g genCommandTable) := proj2 (proj1 (Forall_forall _ _) gen_shaped g H).

Ltac dispatch :=
  apply Shape_bind_silent; [apply Silent_get_port|]; intros pport;
  apply Shape_bind_index; intros entry _ tr p;
  destruct (init pport =? 0); [constructor|];
  destruct (type entry =? CMD_GEN);
  [ revert tr p; apply Shape_bind_index; intros g Hg tr p | ].

Lemma readFloat64_shape reason tr p :
  Shape fst p (Driver.readFloat64 commandTable genCommandTable simpleCommandTable reason tr p).
Proof.
  unfold Driver.readFloat64. revert tr p. dispatch.
  - apply gen_read, Hg.
  - destruct (type entry =? CMD_SIMPLE); [apply readSimpleData_shape|].
    destruct (type entry =? CMD_CACHE); [apply readCache_shape | constructor].
Qed.

Lemma readInt32_shape reason tr p :
  Shape fst p (Driver.readInt32 commandTable genCommandTable simpleCommandTable reason tr p).
Proof.
  unfold Driver.readInt32. revert tr p. dispatch.
  - apply gen_read, Hg.
  - destruct (type entry =? CMD_SIMPLE); [apply readSimpleData_shape|].
    destruct (type entry =? CMD_CACHE); [apply readCache_shape | constructor].
Qed.

Lemma readOctet_shape reason tr p :
  Shape fst p (Driver.readOctet commandTable genCommandTable simpleCommandTable reason tr p).
Proof.
  unfold Driver.readOctet. revert tr p. dispatch.
  - apply gen_read, Hg.
  - destruct (type entry =? CMD_SIMPLE); [apply readSimpleData_shape|].
    destruct (type entry =? CMD_CACHE); [apply readCache_shape | constructor].
Qed.

Lemma writeFloat64_shape reason value tr p :
  Shape (fun s => s) p
    (Driver.writeFloat64 commandTable genCommandTable simpleCommandTable reason value tr p).
Proof.
  unfold Driver.writeFloat64. revert tr p. dispatch.
  - apply gen_write, Hg.
  - destruct (type entry =? CMD_SIMPLE); [apply writeSimpleData_shape | constructor].
Qed.

Lemma writeInt32_shape reason value tr p :
  Shape (fun s => s) p
    (Driver.writeInt32 commandTable genCommandTable simpleCommandTable reason value tr p).
Proof.
  unfold Driver.writeInt32. revert tr p. dispatch.
  - apply gen_write, Hg.
  - destruct (type entry =? CMD_SIMPLE); [apply writeSimpleData_shape | constructor].
Qed.

Lemma writeOctet_shape reason data tr p :
  Shape fst p
    (Driver.writeOctet commandTable genCommandTable simpleCommandTable reason data tr p).
Proof.
  unfold Driver.writeOctet. revert tr p. dispatch.
  - apply (Shape_bind_ret (fun s => s) fst); [reflexivity | apply gen_write, Hg].
  - destruct (type entry =? CMD_SIMPLE); [|constructor].
    apply (Shape_bind_ret (fun s => s) fst); [reflexivity | apply writeSimpleData_shape].
Qed.

Lemma perform_shape a tr p :
  Shape (fun s => s) p (perform commandTable genCommandTable simpleCommandTable a tr p).
Proof.
  destruct a; simpl.
  - apply (Shape_bind_ret fst (fun s => s)); [reflexivity | apply readFloat64_shape].
  - apply writeFloat64_shape.
  - apply (Shape_bind_ret fst (fun s => s)); [reflexivity | apply readInt32_shape].
  - apply writeInt32_shape.
  - apply (Shape_bind_ret fst (fun s => s)); [reflexivity | apply readOctet_shape].
  - apply (Shape_bind_ret fst (fun s => s)); [reflexivity | apply writeOctet_shape].
Qed.

End DispatchShape.

Lemma K6485_gen_shaped r : Forall GenShaped (K6485.genCommandTable r).
Proof.
  unfold K6485.genCommandTable.
  repeat (apply Forall_cons; [split; simpl; intros |]); try apply Forall_nil;
    auto using readDummy_shape, writeDummy_shape, readSensorReading_shape,
      readRange_shape, writeRange_shape, K6485_readRate_shape, K6485_writeRate_shape.
Qed.

Lemma K648x_gen_shaped v : Forall GenShaped (K648x.genCommandTable v).
Proof.
  unfold K648x.genCommandTable.
  repeat (apply Forall_cons; [split; simpl; intros |]); try apply Forall_nil;
    auto using readDummy_shape, writeDummy_shape, readSensorReading_shape,
      readRange_shape, writeRange_shape, K648x_readRate_shape, K648x_writeRate_shape,
      readCommon_shape, writeCommon_shape.
Qed.

Lemma perform_6485_shape r a tr p : Shape (fun s => s) p (perform_6485 r a tr p).
Proof. apply perform_shape, K6485_gen_shaped. Qed.

Lemma perform_648x_shape v a tr p : Shape (fun s => s) p (perform_648x v a tr p).
Proof. apply perform_shape, K648x_gen_shaped. Qed.

Lemma bind_ret_l {A B} (a : A) (k : A -> Run B) tr p : bind (ret a) k tr p = k a tr p.
Proof. unfold bind, ret. destruct (k a tr p); reflexivity. Qed.

Lemma commands_writeOnly outBuf tr p : commands (writeOnly outBuf tr p) = [cstr outBuf].
Proof. rewrite writeOnly_eq. reflexivity. Qed.

Lemma bind_silent_eq {A B} (m : Run A) (k : A -> Run B) tr p a :
  m tr p = Returns a p [] -> bind m k tr p = k a tr p.
Proof. intros H. unfold bind. rewrite H. destruct (k a tr p); reflexivity. Qed.

Lemma index_row table reason r tr p :
  row table reason = Some r -> index table reason tr p = Returns r p [].
Proof.
  unfold row, index. destruct (reason <? 0); [discriminate|]. intros ->. reflexivity.
Qed.

(** ** The claims

    C1.  A sensor reply that does not split into three numeric fields is not
    rejected.  The test that should leave the splitting loop compares the
    array [token] itself with NULL, so the loop always makes its three passes
    and the error return after it is never taken.  With the reply "abc,def"
    the third token is NULL and is handed to [atof]: undefined behaviour, on
    every port and for every interface.  With "abc,def,ghi" the call succeeds
    and overwrites the snapshot with zeros. *)
Theorem C1_malformed_reply_is_not_rejected :
  (forall which Iface p,
     readSensorReading which Iface (answering "abc,def") p
     = Undefined NullPointer [WroteRead "READ?" asynSuccess])
  /\ (forall which p,
        readSensorReading which Float64 (answering "abc,def,ghi") p
        = Returns (asynSuccess, stored (VFloat64 0%float))
            (upd_data (set_status_raw 0)
               (upd_data (set_timestamp 0)
                  (upd_data (set_reading 0%float) (upd_stats incr_writeReads (data_eom 0 p)))))
            [WroteRead "READ?" asynSuccess]).
Proof.
  split.
  - intros which Iface p. destruct Iface; vm_compute; reflexivity.
  - intros which p. vm_compute. reflexivity.
Qed.

(** C2, counterexample.  The reply "MODEL6485,SN001,A1/B2/C3" has two commas;
    the set up looks for three, finds no third one and dereferences NULL, in
    both drivers.  It leaves no port whose identification is the five fields. *)
Lemma C2_three_field_reply_is_not_split :
  K6485.drvAsynKeithley6485 "EP0" "S0" 0 host_ok (answering "MODEL6485,SN001,A1/B2/C3")
    = Undefined NullPointer [Wrote "*CLS" asynSuccess; WroteRead "*IDN?" asynSuccess]
  /\ K648x.drvAsynKeithley648x "6485" "EP0" "S0" 0 host_ok (answering "MODEL6485,SN001,A1/B2/C3")
    = Undefined NullPointer [Wrote "*CLS" asynSuccess; WroteRead "*IDN?" asynSuccess]
  /\ ~ (exists p,
          final_port (K6485.drvAsynKeithley6485 "EP0" "S0" 0 host_ok
                        (answering "MODEL6485,SN001,A1/B2/C3")) = Some p
          /\ identification p = five_fields).
Proof.
  split; [vm_compute; reflexivity|]. split; [vm_compute; reflexivity|].
  intros (p & H & _). vm_compute in H. discriminate.
Qed.

(** C2, as the code has it.  The set up cuts the reply at its second and
    third comma and at the two slashes after them: the four-part reply
    "KEITHLEY,MODEL6485,SN001,A1/B2/C3" gives the model "KEITHLEY,MODEL6485"
    (manufacturer and model, up to the second comma), the serial number
    "SN001" and the revisions "A1", "B2" and "C3", in both drivers. *)
Theorem C2_identification_of_four_part_reply :
  (exists p,
     K6485.drvAsynKeithley6485 "EP0" "S0" 0 host_ok
       (answering "KEITHLEY,MODEL6485,SN001,A1/B2/C3")
     = Returns asynSuccess p [Wrote "*CLS" asynSuccess; WroteRead "*IDN?" asynSuccess]
     /\ identification p = four_part_fields)
  /\ (exists p,
     K648x.drvAsynKeithley648x "6485" "EP0" "S0" 0 host_ok
       (answering "KEITHLEY,MODEL6485,SN001,A1/B2/C3")
     = Returns asynSuccess p [Wrote "*CLS" asynSuccess; WroteRead "*IDN?" asynSuccess]
     /\ identification p = four_part_fields).
Proof.
  split; eexists; (split; [vm_compute; reflexivity | vm_compute; reflexivity]).
Qed.

Lemma range_verb_cases which verb :
  range_verb which = Some verb ->
  (which = RANGE_CMD /\ verb = ":RANGE")
  \/ (which = RANGE_AUTO_ULIMIT_CMD /\ verb = ":RANGE:AUTO:ULIM")
  \/ (which = RANGE_AUTO_LLIMIT_CMD /\ verb = ":RANGE:AUTO:LLIM").
Proof.
  unfold range_verb.
  destruct (which =? RANGE_CMD) eqn:E1; [apply Z.eqb_eq in E1; intros [= <-]; auto|].
  destruct (which =? RANGE_AUTO_ULIMIT_CMD) eqn:E2; [apply Z.eqb_eq in E2; intros [= <-]; auto|].
  destruct (which =? RANGE_AUTO_LLIMIT_CMD) eqn:E3; [apply Z.eqb_eq in E3; intros [= <-]; auto|].
  discriminate.
Qed.


(** C3, counterexample.  For the value 0 [writeRange] sends ":RANGE 2.0e-9".
    [readRange] looks for an upper-case 'E': given the fragment "2.0e-9" it
    finds none and returns asynError; given the whole command it stops at the
    'E' of "RANGE" and stores 11. *)
Lemma C3_written_fragment_is_not_decoded :
  commands (writeRange RANGE_CMD (VInt32 0) Int32 (answering "") (ready_port 0 some_data some_stats))
    = [":RANGE 2.0e-9"]
  /\ returned (readRange RANGE_CMD Int32 (answering "2.0e-9") (ready_port 0 some_data some_stats))
    = Some (asynError, nothing)
  /\ returned (readRange RANGE_CMD Int32 (answering ":RANGE 2.0e-9") (ready_port 0 some_data some_stats))
    = Some (asynSuccess, stored (VInt32 11)).
Proof. repeat split; vm_compute; reflexivity. Qed.

(** C3, as the code has it.  For every [v] in 0..7 and each of the three
    range commands, [writeRange] sends the verb followed by [2.0e{v-9}], with
    a lower-case exponent marker.  [readRange] finds its exponent after an
    upper-case 'E': it decodes [2.0E{v-9}] to [v] again, and returns asynError
    for the fragment as it was written. *)
Theorem C3_range_round_trip_through_upper_case (v : Z) (Hv : 0 <= v <= 7)
    (which : Z) (verb : string) (Hverb : range_verb which = Some verb)
    (tr : Transport) (p : Port) :
  commands (writeRange which (VInt32 v) Int32 tr p) = [verb ++ " 2.0e" ++ printf_d (v - 9)]
  /\ readRange which Int32 (answering ("2.0E" ++ printf_d (v - 9))) p
     = Returns (asynSuccess, stored (VInt32 v)) (upd_stats incr_writeReads (data_eom 0 p))
         [WroteRead (verb ++ "?") asynSuccess]
  /\ readRange which Int32 (answering ("2.0e" ++ printf_d (v - 9))) p
     = Returns (asynError, nothing) (upd_stats incr_writeReads (data_eom 0 p))
         [WroteRead (verb ++ "?") asynSuccess].
Proof.
  assert (Hc : v = 0 \/ v = 1 \/ v = 2 \/ v = 3 \/ v = 4 \/ v = 5 \/ v = 6 \/ v = 7) by lia.
  split.
  - unfold writeRange. rewrite Hverb.
    assert ((v <? 0) || (v >? 7) = false) as ->
      by (rewrite Z.gtb_ltb; apply orb_false_iff; split; apply Z.ltb_ge; lia).
    rewrite commands_writeOnly. replace (-9 + v) with (v - 9) by lia.
    apply range_verb_cases in Hverb.
    destruct Hverb as [[-> ->] | [[-> ->] | [-> ->]]];
      repeat (destruct Hc as [-> | Hc]; [reflexivity|]); subst v; reflexivity.
  - apply range_verb_cases in Hverb.
    destruct Hverb as [[-> ->] | [[-> ->] | [-> ->]]];
      repeat (destruct Hc as [-> | Hc]; [split; vm_compute; reflexivity|]);
      subst v; split; vm_compute; reflexivity.
Qed.

Lemma C3_range_round_trip_witness :
  commands (writeRange RANGE_CMD (VInt32 3) Int32 (answering "") (ready_port 0 some_data some_stats))
    = [":RANGE 2.0e-6"]
  /\ returned (readRange RANGE_CMD Int32 (answering "2.0E-6") (ready_port 0 some_data some_stats))
     = Some (asynSuccess, stored (VInt32 3)).
Proof.
  destruct (C3_range_round_trip_through_upper_case 3 ltac:(lia) RANGE_CMD ":RANGE" eq_refl
              (answering "") (ready_port 0 some_data some_stats)) as (H1 & H2 & _).
  split; [exact H1 | exact (f_equal returned H2)].
Defined.

(** C4.  Both drivers send the constants 6, 1 and 0.1 for the rates 0, 1
    and 2.  The 648x driver reads each constant back as the rate that wrote
    it.  The 6485 driver compares its uninitialised local [rate], not the
    value read, with 0.1: whatever that local holds, 1.0 and 0.1 are read back
    as the same rate, so one of the two round trips fails; with 0 in it the
    rate 1 is read back as 2. *)
Theorem C4_rate_round_trip_fails_on_6485 :
  (* what is written, on both drivers *)
  (forall tr p,
     commands (K6485.writeRate RATE_CMD (VInt32 0) Int32 tr p) = [":NPLC " ++ printf_g 6.0%float]
     /\ commands (K6485.writeRate RATE_CMD (VInt32 1) Int32 tr p) = [":NPLC " ++ printf_g 1.0%float]
     /\ commands (K6485.writeRate RATE_CMD (VInt32 2) Int32 tr p) = [":NPLC " ++ printf_g 0.1%float]
     /\ commands (K648x.writeRate RATE_CMD (VInt32 0) Int32 tr p) = [":NPLC " ++ printf_g 6.0%float]
     /\ commands (K648x.writeRate RATE_CMD (VInt32 1) Int32 tr p) = [":NPLC " ++ printf_g 1.0%float]
     /\ commands (K648x.writeRate RATE_CMD (VInt32 2) Int32 tr p) = [":NPLC " ++ printf_g 0.1%float])
  (* the 648x driver reads each constant back as the value written *)
  /\ (forall p,
     returned (K648x.readRate RATE_CMD Int32 (answering (printf_g 6.0%float)) p)
       = Some (asynSuccess, stored (VInt32 0))
     /\ returned (K648x.readRate RATE_CMD Int32 (answering (printf_g 1.0%float)) p)
       = Some (asynSuccess, stored (VInt32 1))
     /\ returned (K648x.readRate RATE_CMD Int32 (answering (printf_g 0.1%float)) p)
       = Some (asynSuccess, stored (VInt32 2)))
  (* the 6485 driver reads 1.0 and 0.1 back as the same value *)
  /\ (forall rate_uninit p,
     returned (K6485.readRate rate_uninit RATE_CMD Int32 (answering (printf_g 6.0%float)) p)
       = Some (asynSuccess, stored (VInt32 0))
     /\ returned (K6485.readRate rate_uninit RATE_CMD Int32 (answering (printf_g 1.0%float)) p)
        = returned (K6485.readRate rate_uninit RATE_CMD Int32 (answering (printf_g 0.1%float)) p))
  /\ (forall p,
     returned (K6485.readRate 0 RATE_CMD Int32 (answering (printf_g 1.0%float)) p)
       = Some (asynSuccess, stored (VInt32 2))).
Proof.
  split; [|split; [|split]].
  - intros tr p.
    repeat split;
      match goal with
      | |- commands (?f _ (VInt32 ?v) _ _ _) = _ =>
          unfold f; cbv beta iota;
          change ((v <? 0) || (v >? 2)) with false; cbv beta iota;
          try (change (v =? 0) with false); try (change (v =? 0) with true);
          try (change (v =? 1) with false); try (change (v =? 1) with true);
          try (change (v =? 2) with true); cbv beta iota;
          rewrite ?bind_ret_l, commands_writeOnly; vm_compute; reflexivity
      end.
  - intros p. repeat split; vm_compute; reflexivity.
  - intros r p. split; [vm_compute; reflexivity|].
    unfold K6485.readRate, bind.
    destruct (writeRead_cases ":NPLC?" BUFFER_SIZE data_eom (answering (printf_g 1.0%float)) p)
      as [(b1 & po1 & -> & _ & -> & _) | (s & po & Hs & Hst & _ & _)];
      [| exfalso; vm_compute in Hst; subst s; discriminate].
    destruct (writeRead_cases ":NPLC?" BUFFER_SIZE data_eom (answering (printf_g 0.1%float)) p)
      as [(b2 & po2 & -> & _ & -> & _) | (s & po & Hs & Hst & _ & _)];
      [| exfalso; vm_compute in Hst; subst s; discriminate].
    cbv beta iota. simpl is_success. cbv beta iota.
    match goal with |- context [atof ?s] =>
      let x := eval vm_compute in (atof s) in change (atof s) with x end.
    match goal with |- context [atof ?s] =>
      let x := eval vm_compute in (atof s) in change (atof s) with x end.
    change (PrimFloat.ltb 1 1) with false.
    change (PrimFloat.ltb 1 0.1%float) with false.
    cbv beta iota. destruct (PrimFloat.ltb 0.1 (int_to_double r)); reflexivity.
  - intros p. vm_compute. reflexivity.
Qed.

(** C5, counterexample.  With the raw status 96 (limit test off, both limit
    result bits set) the integer read of STATUS_LIMITS stores 3, not the pass
    code 0, in both drivers. *)
Lemma C5_disabled_limit_test_reads_3 :
  limit_test (status_raw some_data) = 0
  /\ returned (K6485.readInt32 0 21 (answering "") (ready_port 0 some_data some_stats))
     = Some (asynSuccess, stored (VInt32 3))
  /\ returned (K648x.readInt32 0 28 (answering "") (ready_port 1 some_data some_stats))
     = Some (asynSuccess, stored (VInt32 3))
  /\ returned (readCache STATUS_LIMITS_CMD Int32 (answering "") (ready_port 0 some_data some_stats))
     <> Some (asynSuccess, stored (VInt32 0)).
Proof.
  repeat split; try (vm_compute; reflexivity). vm_compute. discriminate.
Qed.

(** C5, as the code has it.  Whenever the limit test bit of the stored
    status is 0, an integer read of the limit result stores 3, a value
    outside the codes 0, 1, 2 of the two result bits, whatever those bits
    hold; it makes no exchange and changes nothing.  On a ready port the same
    holds through [readInt32] of either driver. *)
Theorem C5_limit_result_when_test_disabled (tr : Transport) (p : Port)
    (Hoff : limit_test (status_raw (data p)) = 0) :
  readCache STATUS_LIMITS_CMD Int32 tr p = Returns (asynSuccess, stored (VInt32 3)) p []
  /\ (init p <> 0 ->
      (forall r, K6485.readInt32 r 21 tr p = Returns (asynSuccess, stored (VInt32 3)) p [])
      /\ (forall v, K648x.readInt32 v 28 tr p = Returns (asynSuccess, stored (VInt32 3)) p [])).
Proof.
  assert (H : readCache STATUS_LIMITS_CMD Int32 tr p
              = Returns (asynSuccess, stored (VInt32 3)) p []).
  { unfold readCache, bind, get_port, ret. simpl. rewrite Hoff. reflexivity. }
  split; [exact H|].
  intros Hinit. apply Z.eqb_neq in Hinit.
  split; intros x.
  - unfold K6485.readInt32, Driver.readInt32.
    unfold bind at 1. unfold get_port at 1. unfold bind at 1. simpl index. unfold ret at 1.
    rewrite Hinit. simpl. change (readCache 6 Int32 tr p) with (readCache STATUS_LIMITS_CMD Int32 tr p).
    rewrite H. reflexivity.
  - unfold K648x.readInt32, Driver.readInt32.
    unfold bind at 1. unfold get_port at 1. unfold bind at 1. simpl index. unfold ret at 1.
    rewrite Hinit. simpl. change (readCache 6 Int32 tr p) with (readCache STATUS_LIMITS_CMD Int32 tr p).
    rewrite H. reflexivity.
Qed.

Lemma C5_limit_result_witness :
  readCache STATUS_LIMITS_CMD Int32 (answering "") (ready_port 0 some_data some_stats)
  = Returns (asynSuccess, stored (VInt32 3)) (ready_port 0 some_data some_stats) [].
Proof.
  exact (proj1 (C5_limit_result_when_test_disabled (answering "")
                  (ready_port 0 some_data some_stats) eq_refl)).
Defined.

(** C6.  A text read of a cached parameter that is not one of the five
    identification strings leaves [char_cache] NULL and passes it to
    [strlen]: undefined behaviour instead of a silent success.  This holds
    for each of the ten integer cached commands, and through [readOctet] of
    either driver for TIMESTAMP on a ready port. *)
Theorem C6_text_read_of_integer_cache_is_undefined :
  Forall (fun which => forall tr p, readCache which Octet tr p = Undefined NullPointer [])
    [TIMESTAMP_CMD; STATUS_RAW_CMD; STATUS_OVERFLOW_CMD; STATUS_FILTER_CMD;
     STATUS_MATH_CMD; STATUS_NULL_CMD; STATUS_LIMITS_CMD; STATUS_OVERVOLTAGE_CMD;
     STATUS_ZERO_CHECK_CMD; STATUS_ZERO_CORRECT_CMD]
  /\ (forall r tr dt d s,
        K6485.readOctet r 15 tr (ready_port dt d s) = Undefined NullPointer [])
  /\ (forall v tr dt d s,
        K648x.readOctet v 22 tr (ready_port dt d s) = Undefined NullPointer []).
Proof.
  split; [|split].
  - repeat (apply Forall_cons; [intros tr p; reflexivity|]). apply Forall_nil.
  - intros. reflexivity.
  - intros. reflexivity.
Qed.

(** C7.  The set up never tests what [strchr] returns.  For an
    identification reply that lacks any of the three commas or two slashes
    the next step dereferences NULL: the set up neither returns an error nor
    completes, in both drivers. *)
Theorem C7_missing_delimiter_is_undefined :
  Forall (fun reply =>
            K6485.drvAsynKeithley6485 "EP0" "S0" 0 host_ok (answering reply)
              = Undefined NullPointer [Wrote "*CLS" asynSuccess; WroteRead "*IDN?" asynSuccess]
            /\ K648x.drvAsynKeithley648x "6487" "EP0" "S0" 0 host_ok (answering reply)
              = Undefined NullPointer [Wrote "*CLS" asynSuccess; WroteRead "*IDN?" asynSuccess])
    [ "";
      "MODEL6485";
      "KEITHLEY,MODEL6485";
      "MODEL6485,SN001,A1/B2/C3";
      "KEITHLEY,MODEL6485,SN001";
      "KEITHLEY,MODEL6485,SN001,A1";
      "KEITHLEY,MODEL6485,SN001,A1/B2" ].
Proof.
  repeat (apply Forall_cons; [split; vm_compute; reflexivity|]). apply Forall_nil.
Qed.

Lemma append_cancel_l (a b c : string) : a ++ b = a ++ c -> b = c.
Proof. induction a as [|x a IH]; simpl; [auto | intros [= H]; auto]. Qed.

(** [create] in terms of the first row a name matches. *)
Lemma K648x_create_from_find pport drvInfo table i :
  match find (fun r => epicsStrCaseCmp drvInfo (tag r) =? 0) table with
  | None =>
      K648x.create_from pport drvInfo table i
      = {| create_status := asynError; create_reason := 0;
           create_errlog :=
             Some (K648x.driver ++ "::create port " ++ myport pport
                   ++ " failed to find tag " ++ cstr drvInfo) |}
  | Some r =>
      if negb (dev r =? K648x.DEV_ALL) && negb (dev r =? devtype pport) then
        K648x.create_from pport drvInfo table i
        = {| create_status := asynError; create_reason := 0;
             create_errlog :=
               Some (K648x.driver ++ "::create port " ++ myport pport ++ " failed as tag "
                     ++ cstr drvInfo ++ " is for different device") |}
      else
        create_status (K648x.create_from pport drvInfo table i) = asynSuccess
        /\ create_errlog (K648x.create_from pport drvInfo table i) = None
  end.
Proof.
  revert i. induction table as [|r0 table IH]; intros i; simpl.
  - reflexivity.
  - destruct (epicsStrCaseCmp drvInfo (tag r0) =? 0).
    + destruct (negb (dev r0 =? K648x.DEV_ALL) && negb (dev r0 =? devtype pport)); simpl; auto.
    + apply IH.
Qed.

(** C8, counterexample.  On a 6485 port of the 648x driver, VOLT_RANGE (a
    row for the 6487 only) and a name that is in no row leave their caller
    with the same status and the same reason. *)
Lemma C8_wrong_variant_is_reported_as_not_found :
  lookup "VOLT_RANGE" = Some (K648x.command "VOLT_RANGE" K648x.DEV_6487 CMD_GEN K648x.VOLT_RANGE_CMD)
  /\ lookup "NO_SUCH_TAG" = None
  /\ (create_status (K648x.create (ready_port K648x.DEV_6485 some_data some_stats) "VOLT_RANGE"),
      create_reason (K648x.create (ready_port K648x.DEV_6485 some_data some_stats) "VOLT_RANGE"))
     = (create_status (K648x.create (ready_port K648x.DEV_6485 some_data some_stats) "NO_SUCH_TAG"),
        create_reason (K648x.create (ready_port K648x.DEV_6485 some_data some_stats) "NO_SUCH_TAG")).
Proof. repeat split; vm_compute; reflexivity. Qed.

(** C8, as the code has it.  When a name matches a row whose device
    excludes the port's, [create] returns asynError with reason 0, exactly
    what it returns for a name that matches no row; only the line it logs
    tells the two apart. *)
Theorem C8_resolution_failures_differ_only_in_the_log
    (pport : Port) (excluded unknown : string) (r : Command)
    (Hfound : lookup excluded = Some r)
    (Hdev : dev r <> K648x.DEV_ALL) (Hother : dev r <> devtype pport)
    (Hunknown : lookup unknown = None) :
  create_status (K648x.create pport excluded) = asynError
  /\ create_reason (K648x.create pport excluded) = 0
  /\ create_status (K648x.create pport unknown) = asynError
  /\ create_reason (K648x.create pport unknown) = 0
  /\ create_errlog (K648x.create pport excluded) <> create_errlog (K648x.create pport unknown).
Proof.
  unfold lookup in *. unfold K648x.create.
  pose proof (K648x_create_from_find pport excluded K648x.commandTable 0) as H1.
  pose proof (K648x_create_from_find pport unknown K648x.commandTable 0) as H2.
  rewrite Hfound in H1. rewrite Hunknown in H2.
  apply Z.eqb_neq in Hdev, Hother. rewrite Hdev, Hother in H1. cbn [negb andb] in H1.
  rewrite H1, H2. cbn [create_status create_reason create_errlog]. repeat split.
  intros [= H].
  apply (append_cancel_l (myport pport)) in H. discriminate.
Qed.

Lemma C8_resolution_failures_witness :
  create_status (K648x.create (ready_port K648x.DEV_6485 some_data some_stats) "volt_range")
    = asynError
  /\ create_status (K648x.create (ready_port K648x.DEV_6485 some_data some_stats) "NO_SUCH_TAG")
    = asynError.
Proof.
  destruct (C8_resolution_failures_differ_only_in_the_log
              (ready_port K648x.DEV_6485 some_data some_stats) "volt_range" "NO_SUCH_TAG"
              (K648x.command "VOLT_RANGE" K648x.DEV_6487 CMD_GEN K648x.VOLT_RANGE_CMD)
              eq_refl ltac:(discriminate) ltac:(discriminate) eq_refl)
    as (H1 & _ & H3 & _).
  split; assumption.
Defined.

(** C9.  In every access, on either driver, in which an exchange with the
    device failed, that exchange is the only one of the access, the access
    returns its failure status, [ioErrors] has gone up by exactly one (the
    counter being below INT_MAX) and the reading, timestamp and raw status
    are as before. *)
Theorem C9_failed_exchange_is_counted_once
    (v : Variant) (a : Access) (tr : Transport) (p : Port) (e : Event)
    (Hin : In e (exchanges (perform_on v a tr p)))
    (Hfailed : failed e = true)
    (Hroom : ioErrors (stats p) < INT_MAX) :
  exists st p',
    perform_on v a tr p = Returns st p' [e]
    /\ st = event_status e /\ st <> asynSuccess
    /\ ioErrors (stats p') = ioErrors (stats p) + 1
    /\ last_reading p' = last_reading p.
Proof.
  assert (Hs : Shape (fun s => s) p (perform_on v a tr p))
    by (destruct v; [apply perform_6485_shape | apply perform_648x_shape]).
  inversion Hs as [a0 H0 | f H0 | a0 p' e0 Hf Hst Hsp Hlr Hio Hwr Hwo H0
                  | a0 p' e0 Hf Hsp Hc H0 | f e0 Hf H0];
    rewrite <- H0 in Hin; simpl in Hin; try contradiction;
    destruct Hin as [<- | []]; try congruence.
  exists a0, p'. repeat split; auto.
  - rewrite Hst. unfold failed in Hfailed. intros Heq. rewrite Heq in Hfailed. discriminate.
  - rewrite Hio. unfold incr.
    destruct (ioErrors (stats p) =? INT_MAX) eqn:E; [apply Z.eqb_eq in E; lia | reflexivity].
Qed.

Lemma C9_failed_exchange_witness :
  exists st p',
    perform_on (V6485 0) (ReadFloat64 1) (failing asynTimeout) (ready_port 0 some_data some_stats)
      = Returns st p' [WroteRead "READ?" asynTimeout]
    /\ st = asynTimeout /\ st <> asynSuccess
    /\ ioErrors (stats p') = 2 + 1
    /\ last_reading p' = last_reading (ready_port 0 some_data some_stats).
Proof.
  exact (C9_failed_exchange_is_counted_once (V6485 0) (ReadFloat64 1) (failing asynTimeout)
           (ready_port 0 some_data some_stats) (WroteRead "READ?" asynTimeout)
           (or_introl eq_refl) eq_refl eq_refl).
Defined.

(** C10, counterexample.  The set up registers the port and its interfaces
    before it sends *CLS.  When that first exchange times out it returns
    asynError and leaves the port with init 0; on that port a write to the
    cached parameter TIMESTAMP returns asynError, not asynSuccess, in both
    drivers. *)
Lemma C10_write_before_set_up_completes_is_refused :
  (exists p,
     K6485.drvAsynKeithley6485 "EP0" "S0" 0 host_ok (failing asynTimeout)
     = Returns asynError p [Wrote "*CLS" asynTimeout]
     /\ init p = 0
     /\ row K6485.commandTable 15 = Some (K6485.command "TIMESTAMP" CMD_CACHE TIMESTAMP_CMD)
     /\ perform_on (V6485 0) (WriteInt32 15 42) (answering "") p = Returns asynError p [])
  /\ (exists p,
        K648x.drvAsynKeithley648x "6487" "EP0" "S0" 0 host_ok (failing asynTimeout)
        = Returns asynError p [Wrote "*CLS" asynTimeout]
        /\ init p = 0
        /\ row K648x.commandTable 22
           = Some (K648x.command "TIMESTAMP" K648x.DEV_ALL CMD_CACHE TIMESTAMP_CMD)
        /\ perform_on (V648x 0) (WriteInt32 22 42) (answering "") p = Returns asynError p []).
Proof.
  split; eexists; (split; [vm_compute; reflexivity|]); repeat split.
Qed.

(** C10, as the code has it.  A write of any kind to a cached parameter makes
    no exchange and leaves the whole port structure as it was, on either
    driver and whatever the state of the port.  It returns asynSuccess when
    the set up has completed (init is not 0), and asynError when it has not:
    every write method tests init before it looks at the kind of the
    command. *)
Theorem C10_write_to_cached_parameter_is_dropped
    (v : Variant) (reason : Z) (r : Command) (tr : Transport) (p : Port)
    (Hrow : row (commandTable_of v) reason = Some r)
    (Hcache : type r = CMD_CACHE) :
  let status := if init p =? 0 then asynError else asynSuccess in
  (forall value, perform_on v (WriteInt32 reason value) tr p = Returns status p [])
  /\ (forall value, perform_on v (WriteFloat64 reason value) tr p = Returns status p [])
  /\ (forall data, perform_on v (WriteOctet reason data) tr p = Returns status p []).
Proof.
  intros status. subst status.
  pose proof (index_row _ _ _ tr p Hrow) as Hidx.
  assert (Hi : forall value,
             Driver.writeInt32 (commandTable_of v)
               (match v with
                | V6485 x => K6485.genCommandTable x
                | V648x x => K648x.genCommandTable x
                end)
               (match v with
                | V6485 _ => K6485.simpleCommandTable
                | V648x _ => K648x.simpleCommandTable
                end) reason value tr p
             = Returns (if init p =? 0 then asynError else asynSuccess) p []).
  { intros value. unfold Driver.writeInt32.
    rewrite (bind_silent_eq get_port _ tr p p eq_refl).
    rewrite (bind_silent_eq _ _ tr p r Hidx).
    destruct (init p =? 0); [reflexivity|]. rewrite Hcache. reflexivity. }
  assert (Hf : forall value,
             Driver.writeFloat64 (commandTable_of v)
               (match v with
                | V6485 x => K6485.genCommandTable x
                | V648x x => K648x.genCommandTable x
                end)
               (match v with
                | V6485 _ => K6485.simpleCommandTable
                | V648x _ => K648x.simpleCommandTable
                end) reason value tr p
             = Returns (if init p =? 0 then asynError else asynSuccess) p []).
  { intros value. unfold Driver.writeFloat64.
    rewrite (bind_silent_eq get_port _ tr p p eq_refl).
    rewrite (bind_silent_eq _ _ tr p r Hidx).
    destruct (init p =? 0); [reflexivity|]. rewrite Hcache. reflexivity. }
  assert (Ho : forall data,
             Driver.writeOctet (commandTable_of v)
               (match v with
                | V6485 x => K6485.genCommandTable x
                | V648x x => K648x.genCommandTable x
                end)
               (match v with
                | V6485 _ => K6485.simpleCommandTable
                | V648x _ => K648x.simpleCommandTable
                end) reason data tr p
             = Returns (if init p =? 0 then asynError else asynSuccess, None) p []).
  { intros data. unfold Driver.writeOctet.
    rewrite (bind_silent_eq get_port _ tr p p eq_refl).
    rewrite (bind_silent_eq _ _ tr p r Hidx).
    destruct (init p =? 0); [reflexivity|]. rewrite Hcache. reflexivity. }
  destruct v; (split; [|split]); intros x; simpl;
    first [ apply Hi | apply Hf
          | unfold perform_6485, perform_648x, perform;
            rewrite (bind_silent_eq _ _ tr p _ (Ho x)); reflexivity ].
Qed.

Lemma C10_write_to_cached_parameter_witness :
  (perform_on (V6485 0) (WriteInt32 15 42) (answering "") (ready_port 0 some_data some_stats)
   = Returns asynSuccess (ready_port 0 some_data some_stats) [])
  /\ (perform_on (V648x 0) (WriteOctet 22 "now") (answering "") (calloc_Port "EP0" "S0" 0)
      = Returns asynError (calloc_Port "EP0" "S0" 0) []).
Proof.
  split.
  - exact (proj1 (C10_write_to_cached_parameter_is_dropped (V6485 0) 15
                    (K6485.command "TIMESTAMP" CMD_CACHE TIMESTAMP_CMD) (answering "")
                    (ready_port 0 some_data some_stats) eq_refl eq_refl) 42).
  - exact (proj2 (proj2 (C10_write_to_cached_parameter_is_dropped (V648x 0) 22
                           (K648x.command "TIMESTAMP" K648x.DEV_ALL CMD_CACHE TIMESTAMP_CMD)
                           (answering "") (calloc_Port "EP0" "S0" 0) eq_refl eq_refl)) "now").
Defined.

(** * Further properties

    ** One access, at most one exchange *)

Lemma perform_on_shape v a tr p : Shape (fun s => s) p (perform_on v a tr p).
Proof. destruct v; [apply perform_6485_shape | apply perform_648x_shape]. Qed.

(** X1.  Whatever the interface, the reason and the state of the port, one
    access makes at most one exchange with the device. *)
Theorem access_makes_at_most_one_exchange (v : Variant) (a : Access) (tr : Transport) (p : Port) :
  (List.length (exchanges (perform_on v a tr p)) <= 1)%nat.
Proof.
  destruct (perform_on_shape v a tr p); simpl; lia.
Qed.

(** X2.  An access that returns leaves everything the set up wrote as it
    was (names, address, device type, init flag, model buffer and the four
    pointers into it); one that made no exchange leaves the whole structure
    as it was. *)
Theorem access_leaves_setup_part
    (v : Variant) (a : Access) (tr : Transport) (p p' : Port) (st : asynStatus)
    (io : list Event) (Hrun : perform_on v a tr p = Returns st p' io) :
  setup_part p' = setup_part p /\ (io = [] -> p' = p).
Proof.
  pose proof (perform_on_shape v a tr p) as Hs. rewrite Hrun in Hs.
  inversion Hs; subst; split; auto; discriminate.
Qed.

Lemma access_leaves_setup_part_witness :
  exists st p' io,
    perform_on (V648x 0) (ReadFloat64 1) (answering "1.234E-6,12345,96")
      (ready_port 2 some_data some_stats) = Returns st p' io
    /\ setup_part p' = setup_part (ready_port 2 some_data some_stats)
    /\ (io = [] -> p' = ready_port 2 some_data some_stats).
Proof.
  do 3 eexists. split; [vm_compute; reflexivity|].
  eapply (access_leaves_setup_part (V648x 0) (ReadFloat64 1)
            (answering "1.234E-6,12345,96") (ready_port 2 some_data some_stats)).
  vm_compute. reflexivity.
Defined.

(** X3.  An exchange that succeeded is the only exchange of its access; it
    is counted once, in writeOnlys for a write and in writeReads for a
    query, and ioErrors stays as it was.  (The counters are below INT_MAX:
    at INT_MAX the increment overflows.) *)
Theorem successful_exchange_is_counted_once
    (v : Variant) (a : Access) (tr : Transport) (p p' : Port) (st : asynStatus) (e : Event)
    (io : list Event) (Hrun : perform_on v a tr p = Returns st p' io)
    (Hin : In e io) (Hok : failed e = false)
    (Hwo : writeOnlys (stats p) < INT_MAX) (Hwr : writeReads (stats p) < INT_MAX) :
  io = [e]
  /\ ioErrors (stats p') = ioErrors (stats p)
  /\ match e with
     | Wrote _ _ =>
         writeOnlys (stats p') = writeOnlys (stats p) + 1
         /\ writeReads (stats p') = writeReads (stats p)
     | WroteRead _ _ =>
         writeReads (stats p') = writeReads (stats p) + 1
         /\ writeOnlys (stats p') = writeOnlys (stats p)
     end.
Proof.
  assert (Hincr : forall i, i < INT_MAX -> incr i = i + 1).
  { intros i Hi. unfold incr. apply Z.lt_neq, Z.eqb_neq in Hi. rewrite Hi. reflexivity. }
  pose proof (perform_on_shape v a tr p) as Hs. rewrite Hrun in Hs.
  inversion Hs as [a0 H0 | f H0 | a0 p0 e0 Hf Hst Hsp Hlr Hio Hwr' Hwo' H0
                  | a0 p0 e0 Hf Hsp Hc H0 | f e0 Hf H0]; subst;
    simpl in Hin; try contradiction; destruct Hin as [<- | []]; try congruence.
  destruct Hc as [Hc1 Hc2]. split; [reflexivity|]. split; [exact Hc1|].
  destruct e0; destruct Hc2 as [Hc2 Hc3]; rewrite Hc2, Hc3, Hincr by assumption; auto.
Qed.

Lemma successful_exchange_witness :
  exists p',
    final_port (perform_on (V6485 0) (WriteInt32 7 1) (answering "")
                  (ready_port 0 some_data some_stats)) = Some p'
    /\ ioErrors (stats p') = 2 /\ writeOnlys (stats p') = 5 /\ writeReads (stats p') = 10.
Proof.
  eexists. split; [vm_compute; reflexivity|].
  destruct (successful_exchange_is_counted_once (V6485 0) (WriteInt32 7 1) (answering "")
              (ready_port 0 some_data some_stats) _ _ (Wrote "SYST:ZCH 1" asynSuccess) _
              eq_refl (or_introl eq_refl) eq_refl eq_refl eq_refl) as (_ & H1 & H2 & H3).
  repeat split; assumption.
Defined.

Section Unready.

Variable commandTable : list Command.
Variable genCommandTable : list GenCommand.
Variable simpleCommandTable : list SimpleCommand.
Variables (reason : Z) (r : Command) (tr : Transport) (p : Port).
Hypothesis Hrow : row commandTable reason = Some r.
Hypothesis Hinit : init p = 0.

Ltac refuse :=
  rewrite (bind_silent_eq get_port _ tr p p eq_refl);
  rewrite (bind_silent_eq _ _ tr p r (index_row _ _ _ tr p Hrow));
  rewrite Hinit; reflexivity.

Lemma readFloat64_unready :
  Driver.readFloat64 commandTable genCommandTable simpleCommandTable reason tr p
  = Returns (asynError, nothing) p [].
Proof. unfold Driver.readFloat64. refuse. Qed.

Lemma readInt32_unready :
  Driver.readInt32 commandTable genCommandTable simpleCommandTable reason tr p
  = Returns (asynError, nothing) p [].
Proof. unfold Driver.readInt32. refuse. Qed.

Lemma readOctet_unready :
  Driver.readOctet commandTable genCommandTable simpleCommandTable reason tr p
  = Returns (asynError, nothing) p [].
Proof. unfold Driver.readOctet. refuse. Qed.

Lemma writeFloat64_unready value :
  Driver.writeFloat64 commandTable genCommandTable simpleCommandTable reason value tr p
  = Returns asynError p [].
Proof. unfold Driver.writeFloat64. refuse. Qed.

Lemma writeInt32_unready value :
  Driver.writeInt32 commandTable genCommandTable simpleCommandTable reason value tr p
  = Returns asynError p [].
Proof. unfold Driver.writeInt32. refuse. Qed.

Lemma writeOctet_unready data :
  Driver.writeOctet commandTable genCommandTable simpleCommandTable reason data tr p
  = Returns (asynError, None) p [].
Proof. unfold Driver.writeOctet. refuse. Qed.

Lemma perform_unready a :
  reason_of a = reason ->
  perform commandTable genCommandTable simpleCommandTable a tr p = Returns asynError p [].
Proof.
  destruct a; simpl; intros ->.
  - rewrite (bind_silent_eq _ _ tr p _ readFloat64_unready). reflexivity.
  - apply writeFloat64_unready.
  - rewrite (bind_silent_eq _ _ tr p _ readInt32_unready). reflexivity.
  - apply writeInt32_unready.
  - rewrite (bind_silent_eq _ _ tr p _ readOctet_unready). reflexivity.
  - rewrite (bind_silent_eq _ _ tr p _ (writeOctet_unready _)). reflexivity.
Qed.

End Unready.

(** X4.  On a port whose set up has not completed (init is 0) every access
    with a reason inside the command table returns asynError, makes no
    exchange and changes nothing. *)
Theorem access_to_unready_port_is_refused
    (v : Variant) (a : Access) (r : Command) (tr : Transport) (p : Port)
    (Hrow : row (commandTable_of v) (reason_of a) = Some r)
    (Hinit : init p = 0) :
  perform_on v a tr p = Returns asynError p [].
Proof.
  destruct v; simpl in *; eapply perform_unready; eauto.
Qed.

Lemma access_to_unready_port_witness :
  perform_on (V6485 0) (ReadFloat64 1) (answering "1,2,3") (calloc_Port "EP0" "S0" 0)
  = Returns asynError (calloc_Port "EP0" "S0" 0) [].
Proof.
  exact (access_to_unready_port_is_refused (V6485 0) (ReadFloat64 1)
           (K6485.command "READ" CMD_GEN READ_CMD) (answering "1,2,3")
           (calloc_Port "EP0" "S0" 0) eq_refl eq_refl).
Defined.

(** ** Name resolution *)

(** ** [create] *)

Lemma toupper_idem c : toupper (toupper c) = toupper c.
Proof. destruct c as [[] [] [] [] [] [] [] []]; reflexivity. Qed.

Lemma epicsStrCaseCmp_from_upper s1 s2 :
  epicsStrCaseCmp_from (upper s1) s2 = epicsStrCaseCmp_from s1 s2.
Proof.
  revert s2. induction s1 as [|c1 r1 IH]; intros [|c2 r2]; simpl; try reflexivity.
  rewrite toupper_idem, IH. reflexivity.
Qed.

Lemma same_letters_cmp a b t :
  same_letters a b -> epicsStrCaseCmp a t = epicsStrCaseCmp b t.
Proof.
  unfold same_letters, epicsStrCaseCmp. intros H.
  rewrite <- (epicsStrCaseCmp_from_upper (cstr a)), <- (epicsStrCaseCmp_from_upper (cstr b)), H.
  reflexivity.
Qed.

Lemma K6485_create_from_congr p a b table i :
  (forall t, epicsStrCaseCmp a t = epicsStrCaseCmp b t) ->
  verdict (K6485.create_from p a table i) = verdict (K6485.create_from p b table i).
Proof.
  intros H. revert i. induction table as [|r table IH]; intros i; simpl; [reflexivity|].
  rewrite H. destruct (epicsStrCaseCmp b (tag r) =? 0); [reflexivity | apply IH].
Qed.

Lemma K648x_create_from_congr p a b table i :
  (forall t, epicsStrCaseCmp a t = epicsStrCaseCmp b t) ->
  verdict (K648x.create_from p a table i) = verdict (K648x.create_from p b table i).
Proof.
  intros H. revert i. induction table as [|r table IH]; intros i; simpl; [reflexivity|].
  rewrite H. destruct (epicsStrCaseCmp b (tag r) =? 0); [|apply IH].
  destruct (negb (dev r =? K648x.DEV_ALL) && negb (dev r =? devtype p)); reflexivity.
Qed.

Lemma K6485_create_from_hit p name table i :
  create_status (K6485.create_from p name table i) = asynSuccess ->
  exists k r, nth_error table k = Some r
    /\ create_reason (K6485.create_from p name table i) = i + Z.of_nat k
    /\ epicsStrCaseCmp name (tag r) = 0.
Proof.
  revert i. induction table as [|r0 table IH]; intros i; simpl; [discriminate|].
  destruct (epicsStrCaseCmp name (tag r0) =? 0) eqn:E.
  - intros _. exists 0%nat, r0. simpl. apply Z.eqb_eq in E. repeat split; auto; lia.
  - intros H. destruct (IH _ H) as (k & r & Hk & Hr & Hc).
    exists (S k), r. simpl. repeat split; auto. lia.
Qed.

Lemma K648x_create_from_hit p name table i :
  create_status (K648x.create_from p name table i) = asynSuccess ->
  exists k r, nth_error table k = Some r
    /\ create_reason (K648x.create_from p name table i) = i + Z.of_nat k
    /\ epicsStrCaseCmp name (tag r) = 0
    /\ (dev r = K648x.DEV_ALL \/ dev r = devtype p).
Proof.
  revert i. induction table as [|r0 table IH]; intros i; simpl; [discriminate|].
  destruct (epicsStrCaseCmp name (tag r0) =? 0) eqn:E.
  - destruct (dev r0 =? K648x.DEV_ALL) eqn:E1; simpl.
    + intros _. exists 0%nat, r0. simpl. apply Z.eqb_eq in E, E1. repeat split; auto; lia.
    + destruct (dev r0 =? devtype p) eqn:E2; simpl; [|discriminate].
      intros _. exists 0%nat, r0. simpl. apply Z.eqb_eq in E, E2. repeat split; auto; lia.
  - intros H. destruct (IH _ H) as (k & r & Hk & Hr & Hc & Hd).
    exists (S k), r. simpl. repeat split; auto. lia.
Qed.

Lemma row_nth table k : row table (Z.of_nat k) = nth_error table k.
Proof.
  unfold row. destruct (Z.of_nat k <? 0) eqn:E; [apply Z.ltb_lt in E; lia|].
  rewrite Nat2Z.id. reflexivity.
Qed.

Lemma create_row (v : Variant) (p : Port) (name : string)
    (Hok : create_status (create_on v p name) = asynSuccess) :
  exists r,
    row (commandTable_of v) (create_reason (create_on v p name)) = Some r
    /\ epicsStrCaseCmp name (tag r) = 0
    /\ (dev r = K648x.DEV_ALL \/ dev r = devtype p).
Proof.
  destruct v; simpl in *.
  - destruct (K6485_create_from_hit p name _ 0 Hok) as (k & r & Hk & Hr & Hc).
    exists r. unfold K6485.create. rewrite Hr. simpl. rewrite row_nth. repeat split; auto.
    left. unfold K6485.commandTable in Hk.
    repeat (destruct k as [|k]; [injection Hk as <-; reflexivity|]).
    destruct k; discriminate.
  - destruct (K648x_create_from_hit p name _ 0 Hok) as (k & r & Hk & Hr & Hc & Hd).
    exists r. unfold K648x.create. rewrite Hr. simpl. rewrite row_nth. repeat split; auto.
Qed.

(** X5.  When [create] succeeds, the reason it leaves is the index of a row
    of the command table whose tag is the name looked up, letter case
    ignored, and which is for every device or for the device of the port. *)
Theorem create_reason_is_the_matching_row (v : Variant) (p : Port) (name : string)
    (Hok : create_status (create_on v p name) = asynSuccess) :
  exists r,
    row (commandTable_of v) (create_reason (create_on v p name)) = Some r
    /\ epicsStrCaseCmp name (tag r) = 0
    /\ (dev r = K648x.DEV_ALL \/ dev r = devtype p).
Proof. exact (create_row v p name Hok). Qed.

Lemma create_reason_witness :
  exists r,
    row K648x.commandTable
      (create_reason (K648x.create (ready_port K648x.DEV_6487 some_data some_stats) "volt_Range"))
      = Some r
    /\ epicsStrCaseCmp "volt_Range" (tag r) = 0
    /\ (dev r = K648x.DEV_ALL \/ dev r = devtype (ready_port K648x.DEV_6487 some_data some_stats)).
Proof.
  exact (create_reason_is_the_matching_row (V648x 0)
           (ready_port K648x.DEV_6487 some_data some_stats) "volt_Range" eq_refl).
Defined.

(** X6.  A name that differs from the tag of a row in letter case only
    resolves to the index of that row, when the row is for every device or
    for the device of the port. *)
Theorem registered_name_resolves_in_any_letter_case
    (v : Variant) (p : Port) (k : nat) (r : Command) (name : string)
    (Hrow : nth_error (commandTable_of v) k = Some r)
    (Hname : same_letters name (tag r))
    (Hdev : dev r = K648x.DEV_ALL \/ dev r = devtype p) :
  create_status (create_on v p name) = asynSuccess
  /\ create_reason (create_on v p name) = Z.of_nat k.
Proof.
  assert (Hcmp := fun t => same_letters_cmp _ _ t Hname).
  destruct v; simpl in *.
  - pose proof (K6485_create_from_congr p name (tag r) K6485.commandTable 0 Hcmp) as H.
    assert (H1 : create_status (K6485.create p name) = create_status (K6485.create p (tag r)))
      by exact (f_equal fst H).
    assert (H2 : create_reason (K6485.create p name) = create_reason (K6485.create p (tag r)))
      by exact (f_equal snd H).
    rewrite H1, H2. unfold K6485.create.
    clear - Hrow. unfold K6485.commandTable in Hrow.
    repeat (destruct k as [|k]; [injection Hrow as <-; split; reflexivity|]).
    destruct k; discriminate.
  - pose proof (K648x_create_from_congr p name (tag r) K648x.commandTable 0 Hcmp) as H.
    assert (H1 : create_status (K648x.create p name) = create_status (K648x.create p (tag r)))
      by exact (f_equal fst H).
    assert (H2 : create_reason (K648x.create p name) = create_reason (K648x.create p (tag r)))
      by exact (f_equal snd H).
    rewrite H1, H2. unfold K648x.create.
    clear - Hrow Hdev. unfold K648x.commandTable in Hrow.
    do 7 (destruct k as [|k]; [injection Hrow as <-; split; reflexivity|]).
    destruct k as [|k]. injection Hrow as <-.  destruct Hdev as [Hdev | Hdev]; simpl in Hdev; [discriminate|]. unfold K648x.create_from; simpl. rewrite <- Hdev. split; reflexivity.
    repeat (destruct k as [|k]; [injection Hrow as <-; split; reflexivity|]).
    destruct k; discriminate.
Qed.

Lemma registered_name_witness :
  create_status (K6485.create (ready_port 0 some_data some_stats) "Status_Limits") = asynSuccess
  /\ create_reason (K6485.create (ready_port 0 some_data some_stats) "Status_Limits") = 21.
Proof.
  exact (registered_name_resolves_in_any_letter_case (V6485 0)
           (ready_port 0 some_data some_stats) 21
           (K6485.command "STATUS_LIMITS" CMD_CACHE STATUS_LIMITS_CMD) "Status_Limits"
           eq_refl eq_refl (or_introl eq_refl)).
Defined.

(** ** Faults an access cannot run into *)

(** ** Faults an access cannot run into *)

Section NeverFault.

Variable f : Fault.
Hypothesis table_fault : f = BadIndex \/ f = BadPointer.

Lemma Never_ret {A} (a : A) : Never f (ret a).
Proof. intros tr p io. discriminate. Qed.

Lemma Never_get_port : Never f get_port.
Proof. intros tr p io. discriminate. Qed.

Lemma Never_modify g : Never f (modify g).
Proof. intros tr p io. discriminate. Qed.

Lemma Never_other {A} g : g <> BadIndex -> g <> BadPointer -> Never f (@undefined A g).
Proof.
  intros H1 H2 tr p io [= H _]. destruct table_fault; congruence.
Qed.

Lemma Never_bind {A B} (m : Run A) (k : A -> Run B) :
  Never f m -> (forall a, Never f (k a)) -> Never f (bind m k).
Proof.
  intros Hm Hk tr p io. unfold bind.
  destruct (m tr p) as [a p1 io1 | g io1] eqn:E.
  - destruct (k a tr p1) as [b p2 io2 | g io2] eqn:E2; [discriminate|].
    intros [= -> _]. exact (Hk a tr p1 io2 E2).
  - intros [= -> _]. exact (Hm tr p io1 E).
Qed.

Lemma Never_deref {A} (o : option A) : Never f (deref o).
Proof. destruct o; [apply Never_ret | apply Never_other; discriminate]. Qed.

Lemma Never_cast_int x : Never f (cast_int x).
Proof.
  unfold cast_int. destruct (double_to_int x); [apply Never_ret | apply Never_other; discriminate].
Qed.

Lemma Never_writeOnly outBuf : Never f (writeOnly outBuf).
Proof. intros tr p io. rewrite writeOnly_eq. discriminate. Qed.

Lemma Never_writeRead outBuf size eomf : Never f (writeRead outBuf size eomf).
Proof.
  intros tr p io.
  destruct (writeRead_cases outBuf size eomf tr p)
    as [(buf & po & -> & _) | (s & po & _ & _ & -> & _)]; discriminate.
Qed.

Lemma Never_bind_index {A B} (table : list A) i (k : A -> Run B) :
  0 <= i < Z.of_nat (List.length table) ->
  (forall a, In a table -> Never f (k a)) ->
  Never f (bind (index table i) k).
Proof.
  intros Hi Hk tr p io. unfold bind, index.
  destruct (i <? 0) eqn:E; [apply Z.ltb_lt in E; lia|].
  destruct (nth_error table (Z.to_nat i)) as [a|] eqn:En.
  - apply nth_error_In in En. specialize (Hk a En tr p). unfold ret.
    destruct (k a tr p) as [b p2 io2 | g io2]; [discriminate|].
    intros [= -> _]. exact (Hk io2 eq_refl).
  - apply nth_error_None in En. lia.
Qed.

Ltac never :=
  repeat first
    [ apply Never_ret | apply Never_get_port | apply Never_modify
    | apply Never_deref | apply Never_cast_int
    | apply Never_writeOnly | apply Never_writeRead
    | apply Never_other; discriminate
    | apply Never_bind; [| intros ?]
    | match goal with
      | |- Never _ (match ?x with _ => _ end) => destruct x
      | |- Never _ (if ?b then _ else _) => destruct b
      | |- Never _ (token_at _ _) => unfold token_at
      end ].

Lemma readDummy_never which Iface : Never f (readDummy which Iface).
Proof. apply Never_ret. Qed.

Lemma writeDummy_never which data Iface : Never f (writeDummy which data Iface).
Proof. apply Never_ret. Qed.

Lemma readCache_never which Iface : Never f (readCache which Iface).
Proof. unfold readCache. never. Qed.

Lemma readSensorReading_never which Iface : Never f (readSensorReading which Iface).
Proof.
  unfold readSensorReading. apply Never_bind; [apply Never_writeRead|].
  intros [status inpBuf]. destruct (negb (is_success status)); [apply Never_ret|].
  destruct (split_loop 3 0 (Some inpBuf) None []) as [pass token]. never.
Qed.

Lemma readRange_never which Iface : Never f (readRange which Iface).
Proof. unfold readRange. never. Qed.

Lemma writeRange_never which data Iface :
  fits data Iface -> Never f (writeRange which data Iface).
Proof.
  unfold writeRange. destruct Iface, data; simpl; intros H; try contradiction; never.
Qed.

Lemma K6485_readRate_never r which Iface : Never f (K6485.readRate r which Iface).
Proof. unfold K6485.readRate. never. Qed.

Lemma K648x_readRate_never which Iface : Never f (K648x.readRate which Iface).
Proof. unfold K648x.readRate. never. Qed.

Lemma K6485_writeRate_never which data Iface :
  fits data Iface -> Never f (K6485.writeRate which data Iface).
Proof.
  unfold K6485.writeRate. destruct Iface, data; simpl; intros H; try contradiction; never.
Qed.

Lemma K648x_writeRate_never which data Iface :
  fits data Iface -> Never f (K648x.writeRate which data Iface).
Proof.
  unfold K648x.writeRate. destruct Iface, data; simpl; intros H; try contradiction; never.
Qed.

Lemma readCommon_never v which Iface : Never f (K648x.readCommon v which Iface).
Proof. unfold K648x.readCommon. never. Qed.

Lemma writeCommon_never which data Iface :
  fits data Iface -> Never f (K648x.writeCommon which data Iface).
Proof.
  unfold K648x.writeCommon. destruct Iface, data; simpl; intros H; try contradiction; never.
Qed.

Lemma readSimpleData_never table which Iface :
  0 <= which < Z.of_nat (List.length table) ->
  Never f (readSimpleData table which Iface).
Proof.
  intros Hw. unfold readSimpleData. apply Never_bind_index; [exact Hw|]. intros e _. never.
Qed.

Lemma writeSimpleData_never table which data Iface :
  0 <= which < Z.of_nat (List.length table) ->
  Forall no_text table ->
  fits data Iface ->
  Never f (writeSimpleData table which data Iface).
Proof.
  intros Hw Hnt Hfit. unfold writeSimpleData. apply Never_bind_index; [exact Hw|].
  intros e He. pose proof (proj1 (Forall_forall _ _) Hnt e He) as Hne. unfold no_text in Hne.
  apply Never_bind; [|intros [outBuf|]; never].
  destruct (simple_type e =? SIMPLE_TRIGGER); [apply Never_ret|].
  destruct (simple_type e =? type_code Iface) eqn:E; simpl; [|apply Never_ret].
  apply Z.eqb_eq in E. rewrite E in *.
  destruct Iface, data; simpl in Hfit |- *; try contradiction; never.
  all: exfalso; apply Hne; reflexivity.
Qed.


Section DispatchNever.

Variable commandTable : list Command.
Variable genCommandTable : list GenCommand.
Variable simpleCommandTable : list SimpleCommand.
Variables (reason : Z) (r : Command).
Hypothesis gen_never : Forall (GenNever f) genCommandTable.
Hypothesis simple_no_text : Forall no_text simpleCommandTable.
Hypothesis Hrow : row commandTable reason = Some r.
Hypothesis Hgen : type r = CMD_GEN -> 0 <= id r < Z.of_nat (List.length genCommandTable).
Hypothesis Hsimple :
  type r = CMD_SIMPLE -> 0 <= id r < Z.of_nat (List.length simpleCommandTable).

Lemma Never_enter {B} (K : Port -> Command -> Run B) :
  (forall p, Never f (K p r)) ->
  Never f (bind get_port (fun pport => bind (index commandTable reason) (K pport))).
Proof.
  intros H tr p io.
  rewrite (bind_silent_eq get_port _ tr p p eq_refl).
  rewrite (bind_silent_eq _ _ tr p r (index_row _ _ _ tr p Hrow)).
  apply H.
Qed.

Ltac by_family :=
  cbv zeta; apply Never_enter; intros pport;
  destruct (init pport =? 0); [apply Never_ret|];
  destruct (type r =? CMD_GEN) eqn:Eg;
  [ apply Z.eqb_eq in Eg; apply Never_bind_index; [exact (Hgen Eg)|];
    let g := fresh "g" in let Hg := fresh "Hg" in
    intros g Hg; pose proof (proj1 (Forall_forall _ _) gen_never g Hg) as [? ?]
  | destruct (type r =? CMD_SIMPLE) eqn:Es; [apply Z.eqb_eq in Es; specialize (Hsimple Es)|] ].

Lemma readFloat64_never :
  Never f (Driver.readFloat64 commandTable genCommandTable simpleCommandTable reason).
Proof.
  unfold Driver.readFloat64. by_family; auto using readSimpleData_never.
  destruct (type r =? CMD_CACHE); [apply readCache_never | apply Never_ret].
Qed.

Lemma readInt32_never :
  Never f (Driver.readInt32 commandTable genCommandTable simpleCommandTable reason).
Proof.
  unfold Driver.readInt32. by_family; auto using readSimpleData_never.
  destruct (type r =? CMD_CACHE); [apply readCache_never | apply Never_ret].
Qed.

Lemma readOctet_never :
  Never f (Driver.readOctet commandTable genCommandTable simpleCommandTable reason).
Proof.
  unfold Driver.readOctet. by_family; auto using readSimpleData_never.
  destruct (type r =? CMD_CACHE); [apply readCache_never | apply Never_ret].
Qed.

Lemma writeFloat64_never value :
  Never f (Driver.writeFloat64 commandTable genCommandTable simpleCommandTable reason value).
Proof.
  unfold Driver.writeFloat64. by_family.
  - match goal with H : forall which data Iface, fits data Iface -> _ |- _ => apply H; exact I end.
  - apply writeSimpleData_never; auto; exact I.
  - apply Never_ret.
Qed.

Lemma writeInt32_never value :
  Never f (Driver.writeInt32 commandTable genCommandTable simpleCommandTable reason value).
Proof.
  unfold Driver.writeInt32. by_family.
  - match goal with H : forall which data Iface, fits data Iface -> _ |- _ => apply H; exact I end.
  - apply writeSimpleData_never; auto; exact I.
  - apply Never_ret.
Qed.

Lemma writeOctet_never data :
  Never f (Driver.writeOctet commandTable genCommandTable simpleCommandTable reason data).
Proof.
  unfold Driver.writeOctet. by_family.
  - apply Never_bind; [|intros ?; apply Never_ret].
    match goal with H : forall which data Iface, fits data Iface -> _ |- _ => apply H; exact I end.
  - apply Never_bind; [|intros ?; apply Never_ret].
    apply writeSimpleData_never; auto; exact I.
  - apply Never_ret.
Qed.

Lemma perform_never a :
  reason_of a = reason ->
  Never f (perform commandTable genCommandTable simpleCommandTable a).
Proof.
  destruct a; simpl; intros ->;
    try (apply Never_bind; [|intros ?; apply Never_ret]);
    auto using readFloat64_never, readInt32_never, readOctet_never,
      writeFloat64_never, writeInt32_never, writeOctet_never.
Qed.

End DispatchNever.

Lemma K6485_gen_never r : Forall (GenNever f) (K6485.genCommandTable r).
Proof.
  unfold K6485.genCommandTable.
  repeat (apply Forall_cons; [split; simpl; intros |]); try apply Forall_nil;
    auto using readDummy_never, writeDummy_never, readSensorReading_never, readRange_never, writeRange_never,
      K6485_readRate_never, K6485_writeRate_never.
Qed.

Lemma K648x_gen_never v : Forall (GenNever f) (K648x.genCommandTable v).
Proof.
  unfold K648x.genCommandTable.
  repeat (apply Forall_cons; [split; simpl; intros |]); try apply Forall_nil;
    auto using readDummy_never, writeDummy_never, readSensorReading_never, readRange_never, writeRange_never,
      K648x_readRate_never, K648x_writeRate_never, readCommon_never, writeCommon_never.
Qed.

End NeverFault.

Lemma K6485_simple_no_text : Forall no_text K6485.simpleCommandTable.
Proof. repeat (apply Forall_cons; [discriminate|]). apply Forall_nil. Qed.

Lemma K648x_simple_no_text : Forall no_text K648x.simpleCommandTable.
Proof. repeat (apply Forall_cons; [discriminate|]). apply Forall_nil. Qed.

(** Every row of the command tables names a row of its family's table. *)
Lemma K6485_rows_in_range r :
  In r K6485.commandTable ->
  (type r = CMD_GEN -> 0 <= id r < Z.of_nat (List.length (K6485.genCommandTable 0)))
  /\ (type r = CMD_SIMPLE -> 0 <= id r < Z.of_nat (List.length K6485.simpleCommandTable)).
Proof.
  unfold K6485.commandTable. simpl.
  intros H.
  repeat (destruct H as [<- | H];
          [split; intros E; vm_compute in E; try discriminate E;
           vm_compute; split; first [reflexivity | intros X; discriminate X]|]).
  contradiction.
Qed.

Lemma K648x_rows_in_range r :
  In r K648x.commandTable ->
  (type r = CMD_GEN -> 0 <= id r < Z.of_nat (List.length (K648x.genCommandTable 0)))
  /\ (type r = CMD_SIMPLE -> 0 <= id r < Z.of_nat (List.length K648x.simpleCommandTable)).
Proof.
  unfold K648x.commandTable. simpl.
  intros H.
  repeat (destruct H as [<- | H];
          [split; intros E; vm_compute in E; try discriminate E;
           vm_compute; split; first [reflexivity | intros X; discriminate X]|]).
  contradiction.
Qed.

Lemma row_In table reason r : row table reason = Some r -> In r table.
Proof.
  unfold row. destruct (reason <? 0); [discriminate|]. apply nth_error_In.
Qed.

(** X7.  An access with the reason that a successful [create] left never
    reads a table outside its bounds and never reads the data it is handed
    as a value of another type. *)
Theorem created_reason_stays_inside_the_tables
    (v : Variant) (p : Port) (name : string) (a : Access)
    (Hok : create_status (create_on v p name) = asynSuccess)
    (Hreason : reason_of a = create_reason (create_on v p name)) :
  Never BadIndex (perform_on v a) /\ Never BadPointer (perform_on v a).
Proof.
  destruct (create_row v p name Hok) as (r & Hrow & _).
  rewrite <- Hreason in Hrow. pose proof (row_In _ _ _ Hrow) as Hin.
  destruct v; simpl in Hrow, Hin |- *.
  - destruct (K6485_rows_in_range r Hin) as [Hg Hs].
    split; eapply perform_never; eauto using K6485_gen_never, K6485_simple_no_text.
  - destruct (K648x_rows_in_range r Hin) as [Hg Hs].
    split; eapply perform_never; eauto using K648x_gen_never, K648x_simple_no_text.
Qed.

Lemma created_reason_witness :
  Never BadIndex (perform_on (V648x 0) (WriteOctet 12 "now"))
  /\ Never BadPointer (perform_on (V648x 0) (WriteOctet 12 "now")).
Proof.
  exact (created_reason_stays_inside_the_tables (V648x 0)
           (ready_port K648x.DEV_6485 some_data some_stats) "zero_correct_acquire"
           (WriteOctet 12 "now") eq_refl eq_refl).
Defined.

(** ** The set up *)

(** The splitting of the identification reply writes the model buffer and
    the four pointers, or dereferences NULL; it has no other way out. *)
Lemma split_identification_cases inpBuf tr p :
  (exists p', split_identification inpBuf tr p = Returns tt p' []
     /\ stats p' = stats p /\ data p' = data p /\ init p' = init p
     /\ devtype p' = devtype p)
  \/ split_identification inpBuf tr p = Undefined NullPointer [].
Proof.
  unfold split_identification, cut, bind, modify, get_port, deref, ret, undefined.
  simpl.
  repeat match goal with
         | |- context [strchr ?a ?b ?c] => destruct (strchr a b c); simpl
         end;
    solve [ right; reflexivity | left; eexists; repeat split; reflexivity ].
Qed.

Lemma is_success_false s : is_success s = false -> s <> asynSuccess.
Proof. intros H ->. discriminate. Qed.

Lemma setup_outcome host tr p :
  match setup host tr p with
  | Returns st p' log =>
      (st = asynSuccess /\ init p' = 1 /\ devtype p' = devtype p
       /\ last_reading p' = (PrimFloat.zero, 0, 0)
       /\ log = [Wrote "*CLS" asynSuccess; WroteRead "*IDN?" asynSuccess])
      \/ (st = asynError /\ setup_part p' = setup_part p
          /\ last_reading p' = last_reading p
          /\ (log = []
              \/ (exists s, s <> asynSuccess /\ log = [Wrote "*CLS" s])
              \/ (exists s, s <> asynSuccess
                    /\ log = [Wrote "*CLS" asynSuccess; WroteRead "*IDN?" s])))
  | Undefined f log =>
      f = NullPointer /\ log = [Wrote "*CLS" asynSuccess; WroteRead "*IDN?" asynSuccess]
  end.
Proof.
  unfold setup.
  destruct (negb (is_success (connect_status host)));
    [right; repeat split; auto|].
  destruct (negb (is_success (registerPort_status host)));
    [right; repeat split; auto|].
  destruct (negb (is_success (initialize_status host)));
    [right; repeat split; auto|].
  unfold setup_exchanges. unfold bind at 1. rewrite writeOnly_eq.
  destruct (is_success (write_status tr "*CLS")) eqn:Ecls.
  2:{ simpl. right. repeat split; auto. right. left.
      eexists. split; [apply is_success_false; eassumption | reflexivity]. }
  assert (Hcls : write_status tr "*CLS" = asynSuccess)
    by (destruct (write_status tr "*CLS"); try discriminate; reflexivity).
  rewrite Hcls. cbn [negb is_success].
  unfold bind at 1.
  destruct (writeRead_cases "*IDN?" BUFFER_SIZE local_eom tr (upd_stats incr_writeOnlys p))
    as [(buf & po & -> & _ & _ & Hpo) | (s & po & Hs & _ & -> & Hpo)].
  - assert (po = upd_stats incr_writeOnlys p) as ->
      by (destruct Hpo as [-> | [r ->]]; reflexivity).
    cbn [negb is_success]. unfold bind at 1.
    destruct (split_identification_cases buf tr
                (upd_stats incr_writeReads (upd_stats incr_writeOnlys p)))
      as [(p' & -> & Hst & Hd & Hi & Hdev) | ->].
    + simpl. left. repeat split. exact Hdev.
    + simpl. split; reflexivity.
  - assert (po = upd_stats incr_writeOnlys p) as ->
      by (destruct Hpo as [-> | [r ->]]; reflexivity).
    rewrite Hs. simpl. right. repeat split; auto. right. right.
    eexists. split; [apply is_success_false; eassumption | reflexivity].
Qed.

(** X8.  The set up of either driver ends in one of three ways: success,
    with init set, the snapshot cleared and the two exchanges *CLS and *IDN?
    made; asynError at the first step that fails, with the structure as
    allocated as far as the set up writes it; or a NULL dereference in the
    splitting of the identification reply. *)
Theorem setup_ends_ready_or_untouched :
  (forall my io addr host tr,
     match K6485.drvAsynKeithley6485 my io addr host tr with
     | Returns st p' log =>
         (st = asynSuccess /\ init p' = 1 /\ last_reading p' = (PrimFloat.zero, 0, 0)
          /\ log = [Wrote "*CLS" asynSuccess; WroteRead "*IDN?" asynSuccess])
         \/ (st = asynError /\ setup_part p' = setup_part (calloc_Port my io addr)
             /\ (log = []
                 \/ (exists s, s <> asynSuccess /\ log = [Wrote "*CLS" s])
                 \/ (exists s, s <> asynSuccess
                       /\ log = [Wrote "*CLS" asynSuccess; WroteRead "*IDN?" s])))
     | Undefined f log =>
         f = NullPointer /\ log = [Wrote "*CLS" asynSuccess; WroteRead "*IDN?" asynSuccess]
     end)
  /\ (forall type my io addr host tr,
     match K648x.drvAsynKeithley648x type my io addr host tr with
     | Returns st p' log =>
         (st = asynSuccess /\ init p' = 1 /\ last_reading p' = (PrimFloat.zero, 0, 0)
          /\ (devtype p' = K648x.DEV_6485 \/ devtype p' = K648x.DEV_6487)
          /\ log = [Wrote "*CLS" asynSuccess; WroteRead "*IDN?" asynSuccess])
         \/ (st = asynError /\ init p' = 0 /\ identification p' = identification (calloc_Port my io addr)
             /\ (log = []
                 \/ (exists s, s <> asynSuccess /\ log = [Wrote "*CLS" s])
                 \/ (exists s, s <> asynSuccess
                       /\ log = [Wrote "*CLS" asynSuccess; WroteRead "*IDN?" s])))
     | Undefined f log =>
         f = NullPointer /\ log = [Wrote "*CLS" asynSuccess; WroteRead "*IDN?" asynSuccess]
     end).
Proof.
  split.
  - intros my io addr host tr. unfold K6485.drvAsynKeithley6485.
    pose proof (setup_outcome host tr (calloc_Port my io addr)) as H.
    destruct (setup host tr (calloc_Port my io addr)) as [st p' log | f log]; [|exact H].
    destruct H as [(H1 & H2 & _ & H3 & H4) | (H1 & H2 & _ & H3)]; [left | right]; auto.
  - intros type my io addr host tr. unfold K648x.drvAsynKeithley648x.
    set (p0 := if strcmp_eq "6487" type then _ else _).
    destruct (devtype p0 =? K648x.DEV_ALL) eqn:E.
    + right. subst p0. repeat split; auto.
      * destruct (strcmp_eq "6487" type), (strcmp_eq "6485" type); reflexivity.
      * destruct (strcmp_eq "6487" type), (strcmp_eq "6485" type); reflexivity.
    + pose proof (setup_outcome host tr p0) as H.
      destruct (setup host tr p0) as [st p' log | f log]; [|exact H].
      destruct H as [(H1 & H2 & Hd & H3 & H4) | (H1 & H2 & _ & H3)]; [left | right].
      * repeat split; auto. rewrite Hd. subst p0.
        destruct (strcmp_eq "6487" type), (strcmp_eq "6485" type); simpl in *;
          auto; discriminate.
      * assert (Hi : init p' = init p0) by (injection H2; auto).
        assert (Hid : identification p' = identification p0)
          by (unfold identification; injection H2; intros; congruence).
        rewrite Hi, Hid. subst p0.
        repeat split; auto;
          destruct (strcmp_eq "6487" type), (strcmp_eq "6485" type); reflexivity.
Qed.

(** ** Buffers *)

Lemma advance_app pre s : advance (pre ++ s) (String.length pre) = s.
Proof. induction pre; simpl; [destruct s; reflexivity | assumption]. Qed.

Lemma free_of_head c d s :
  free_of c (String d s) = true -> is_NUL d = false /\ Ascii.eqb d c = false /\ free_of c s = true.
Proof.
  simpl. intros H. apply andb_prop in H as [H H3]. apply andb_prop in H as [H1 H2].
  apply negb_true_iff in H1, H2. auto.
Qed.

Lemma strchr_from_app c a b pos :
  is_NUL c = false -> free_of c a = true ->
  strchr_from (a ++ String c b) c pos = Some (pos + String.length a)%nat.
Proof.
  intros Hc. revert pos. induction a as [|d a IH]; intros pos Ha; simpl.
  - rewrite Hc, Ascii.eqb_refl. f_equal. lia.
  - apply free_of_head in Ha as (H1 & H2 & H3). rewrite H1, H2, IH by exact H3.
    f_equal. lia.
Qed.

Lemma strchr_app c pre a b :
  is_NUL c = false -> free_of c a = true ->
  strchr (pre ++ a ++ String c b) (String.length pre) c
  = Some (String.length pre + String.length a)%nat.
Proof.
  intros Hc Ha. unfold strchr. rewrite advance_app. apply strchr_from_app; assumption.
Qed.

Lemma poke_app pre c b d :
  poke (pre ++ String c b) (String.length pre) d = pre ++ String d b.
Proof. induction pre; simpl; [reflexivity | rewrite IHpre; reflexivity]. Qed.

Lemma cstr_free c a : free_of c a = true -> cstr a = a.
Proof.
  induction a as [|d a IH]; simpl; [reflexivity|]. intros H.
  apply free_of_head in H as (H1 & _ & H3). rewrite H1, IH by exact H3. reflexivity.
Qed.

Lemma cstr_stop c a b : free_of c a = true -> cstr (a ++ String NUL b) = a.
Proof.
  induction a as [|d a IH]; simpl; [reflexivity|]. intros H.
  apply free_of_head in H as (H1 & _ & H3). rewrite H1, IH by exact H3. reflexivity.
Qed.

Lemma cstr_at_stop c pre a b :
  free_of c a = true -> cstr_at (pre ++ a ++ String NUL b) (String.length pre) = a.
Proof. intros H. unfold cstr_at. rewrite advance_app. eapply cstr_stop; eauto. Qed.

Lemma cstr_at_end c pre a :
  free_of c a = true -> cstr_at (pre ++ a) (String.length pre) = a.
Proof. intros H. unfold cstr_at. rewrite advance_app. eapply cstr_free; eauto. Qed.

Lemma free_of_app c a b : free_of c a = true -> free_of c b = true -> free_of c (a ++ b) = true.
Proof.
  induction a as [|d a IH]; simpl; auto. intros H Hb.
  apply andb_prop in H as [H H3]. rewrite H, IH; auto.
Qed.

Lemma free_of_NUL c a : free_of c a = true -> free_of NUL a = true.
Proof.
  induction a as [|d a IH]; simpl; auto. intros H.
  apply andb_prop in H as [H H3]. apply andb_prop in H as [H1 H2].
  rewrite H1, IH by exact H3. unfold is_NUL in H1. rewrite H1. reflexivity.
Qed.

Lemma append_assoc (a b c : string) : (a ++ b) ++ c = a ++ (b ++ c).
Proof. induction a; simpl; congruence. Qed.

Lemma length_append (a b : string) :
  String.length (a ++ b) = (String.length a + String.length b)%nat.
Proof. induction a; simpl; congruence. Qed.

Lemma append_nil_r (a : string) : a ++ "" = a.
Proof. induction a; simpl; congruence. Qed.

(** ** The identification reply *)

Section Reply.

Variables mf mo sn r1 r2 r3 : string.
Hypothesis Hmf : free_of "," mf = true.
Hypothesis Hmo : free_of "," mo = true.
Hypothesis Hsn : free_of "," sn = true.
Hypothesis Hr1 : free_of "/" r1 = true.
Hypothesis Hr2 : free_of "/" r2 = true.
Hypothesis Hr3 : free_of NUL r3 = true.

Local Notation "'B0'" := (mf ++ "," ++ mo ++ "," ++ sn ++ "," ++ r1 ++ "/" ++ r2 ++ "/" ++ r3).
Local Notation "'B1'" := (mf ++ "," ++ mo ++ String NUL (sn ++ "," ++ r1 ++ "/" ++ r2 ++ "/" ++ r3)).
Local Notation "'B2'" := (mf ++ "," ++ mo ++ String NUL (sn ++ String NUL (r1 ++ "/" ++ r2 ++ "/" ++ r3))).
Local Notation "'B3'" := (mf ++ "," ++ mo ++ String NUL (sn ++ String NUL (r1 ++ String NUL (r2 ++ "/" ++ r3)))).
Local Notation "'B4'" := (mf ++ "," ++ mo ++ String NUL (sn ++ String NUL (r1 ++ String NUL (r2 ++ String NUL r3)))).

Local Notation "'n1'" := (String.length mf).
Local Notation "'n2'" := ((n1 + 1 + String.length mo)%nat).
Local Notation "'n3'" := ((n2 + 1 + String.length sn)%nat).
Local Notation "'n4'" := ((n3 + 1 + String.length r1)%nat).
Local Notation "'n5'" := ((n4 + 1 + String.length r2)%nat).

Ltac view B pre rest :=
  let H := fresh "Hview" in
  assert (H : B = pre ++ rest)
    by (repeat (first [rewrite append_assoc | progress (cbn [append])]); reflexivity);
  rewrite H; clear H.

Ltac measure pre n :=
  let H := fresh "Hlen" in
  assert (H : n = String.length pre)
    by (repeat (first [rewrite length_append | progress (simpl String.length)]); lia);
  rewrite H; clear H.

Lemma find1 : strchr B0 0 "," = Some n1.
Proof. exact (strchr_app "," "" mf _ eq_refl Hmf). Qed.

Lemma find2 : strchr B0 (n1 + 1) "," = Some n2.
Proof.
  view (mf ++ "," ++ mo ++ "," ++ sn ++ "," ++ r1 ++ "/" ++ r2 ++ "/" ++ r3)
       (mf ++ ",") (mo ++ String "," (sn ++ "," ++ r1 ++ "/" ++ r2 ++ "/" ++ r3)).
  measure (mf ++ ",") (n1 + 1)%nat.
  apply strchr_app; [reflexivity | exact Hmo].
Qed.

Lemma poke2 : poke B0 n2 NUL = B1.
Proof.
  view (mf ++ "," ++ mo ++ "," ++ sn ++ "," ++ r1 ++ "/" ++ r2 ++ "/" ++ r3)
       (mf ++ "," ++ mo) (String "," (sn ++ "," ++ r1 ++ "/" ++ r2 ++ "/" ++ r3)).
  measure (mf ++ "," ++ mo) n2.
  rewrite poke_app. repeat rewrite append_assoc. reflexivity.
Qed.

Lemma find3 : strchr B1 (S n2) "," = Some n3.
Proof.
  view (mf ++ "," ++ mo ++ String NUL (sn ++ "," ++ r1 ++ "/" ++ r2 ++ "/" ++ r3))
       (mf ++ "," ++ mo ++ String NUL "")
       (sn ++ String "," (r1 ++ "/" ++ r2 ++ "/" ++ r3)).
  measure (mf ++ "," ++ mo ++ String NUL "") (S n2).
  rewrite strchr_app by (reflexivity || exact Hsn).
  f_equal. repeat (first [rewrite length_append | progress (simpl String.length)]). lia.
Qed.

Lemma poke3 : poke B1 n3 NUL = B2.
Proof.
  view (mf ++ "," ++ mo ++ String NUL (sn ++ "," ++ r1 ++ "/" ++ r2 ++ "/" ++ r3))
       (mf ++ "," ++ mo ++ String NUL sn) (String "," (r1 ++ "/" ++ r2 ++ "/" ++ r3)).
  measure (mf ++ "," ++ mo ++ String NUL sn) n3.
  rewrite poke_app. repeat rewrite append_assoc. reflexivity.
Qed.

Lemma find4 : strchr B2 (S n3) "/" = Some n4.
Proof.
  view (mf ++ "," ++ mo ++ String NUL (sn ++ String NUL (r1 ++ "/" ++ r2 ++ "/" ++ r3)))
       (mf ++ "," ++ mo ++ String NUL (sn ++ String NUL ""))
       (r1 ++ String "/" (r2 ++ "/" ++ r3)).
  measure (mf ++ "," ++ mo ++ String NUL (sn ++ String NUL "")) (S n3).
  rewrite strchr_app by (reflexivity || exact Hr1).
  f_equal. repeat (first [rewrite length_append | progress (simpl String.length)]). lia.
Qed.

Lemma poke4 : poke B2 n4 NUL = B3.
Proof.
  view (mf ++ "," ++ mo ++ String NUL (sn ++ String NUL (r1 ++ "/" ++ r2 ++ "/" ++ r3)))
       (mf ++ "," ++ mo ++ String NUL (sn ++ String NUL r1)) (String "/" (r2 ++ "/" ++ r3)).
  measure (mf ++ "," ++ mo ++ String NUL (sn ++ String NUL r1)) n4.
  rewrite poke_app. repeat rewrite append_assoc. cbn [append].
  repeat rewrite append_assoc. reflexivity.
Qed.

Lemma find5 : strchr B3 (S n4) "/" = Some n5.
Proof.
  view (mf ++ "," ++ mo ++ String NUL (sn ++ String NUL (r1 ++ String NUL (r2 ++ "/" ++ r3))))
       (mf ++ "," ++ mo ++ String NUL (sn ++ String NUL (r1 ++ String NUL "")))
       (r2 ++ String "/" r3).
  measure (mf ++ "," ++ mo ++ String NUL (sn ++ String NUL (r1 ++ String NUL ""))) (S n4).
  rewrite strchr_app by (reflexivity || exact Hr2).
  f_equal. repeat (first [rewrite length_append | progress (simpl String.length)]). lia.
Qed.

Lemma poke5 : poke B3 n5 NUL = B4.
Proof.
  view (mf ++ "," ++ mo ++ String NUL (sn ++ String NUL (r1 ++ String NUL (r2 ++ "/" ++ r3))))
       (mf ++ "," ++ mo ++ String NUL (sn ++ String NUL (r1 ++ String NUL r2)))
       (String "/" r3).
  measure (mf ++ "," ++ mo ++ String NUL (sn ++ String NUL (r1 ++ String NUL r2))) n5.
  rewrite poke_app. repeat (rewrite append_assoc; cbn [append]). reflexivity.
Qed.

Lemma whole : cstr B0 = B0.
Proof.
  apply (cstr_free NUL).
  repeat (apply free_of_app; [eauto using free_of_NUL | ]);
  try reflexivity; eauto using free_of_NUL.
Qed.

Lemma split_identification_run tr p :
  exists p',
    split_identification B0 tr p = Returns tt p' []
    /\ model p' = B4 /\ serial p' = Some (S n2) /\ dig_rev p' = Some (S n3)
    /\ disp_rev p' = Some (S n4) /\ brd_rev p' = Some (S n5)
    /\ init p' = init p /\ stats p' = stats p /\ data p' = data p
    /\ myport p' = myport p /\ devtype p' = devtype p.
Proof.
  unfold split_identification, cut, deref, bind, modify, get_port, ret.
  cbn [model serial dig_rev disp_rev brd_rev set_model set_serial set_dig_rev
       set_disp_rev set_brd_rev app].
  rewrite whole, find1.
  cbn [model serial dig_rev disp_rev brd_rev set_model set_serial set_dig_rev
       set_disp_rev set_brd_rev app].
  rewrite find2.
  cbn [model serial dig_rev disp_rev brd_rev set_model set_serial set_dig_rev
       set_disp_rev set_brd_rev app].
  rewrite poke2, find3.
  cbn [model serial dig_rev disp_rev brd_rev set_model set_serial set_dig_rev
       set_disp_rev set_brd_rev app].
  rewrite poke3, find4.
  cbn [model serial dig_rev disp_rev brd_rev set_model set_serial set_dig_rev
       set_disp_rev set_brd_rev app].
  rewrite poke4, find5.
  cbn [model serial dig_rev disp_rev brd_rev set_model set_serial set_dig_rev
       set_disp_rev set_brd_rev app].
  rewrite poke5.
  eexists. split; [reflexivity|]. cbn. repeat split; reflexivity.
Qed.

Lemma read_model : cstr_at B4 0 = mf ++ "," ++ mo.
Proof.
  view (mf ++ "," ++ mo ++ String NUL (sn ++ String NUL (r1 ++ String NUL (r2 ++ String NUL r3))))
       (mf ++ "," ++ mo) (String NUL (sn ++ String NUL (r1 ++ String NUL (r2 ++ String NUL r3)))).
  unfold cstr_at.
  match goal with |- context [advance ?b 0] => replace (advance b 0) with b by (destruct b; reflexivity) end.
  apply (cstr_stop NUL).
  repeat (apply free_of_app; [eauto using free_of_NUL | ]);
  try reflexivity; eauto using free_of_NUL.
Qed.

Lemma read_serial : cstr_at B4 (S n2) = sn.
Proof.
  view (mf ++ "," ++ mo ++ String NUL (sn ++ String NUL (r1 ++ String NUL (r2 ++ String NUL r3))))
       (mf ++ "," ++ mo ++ String NUL "")
       (sn ++ String NUL (r1 ++ String NUL (r2 ++ String NUL r3))).
  measure (mf ++ "," ++ mo ++ String NUL "") (S n2).
  apply (cstr_at_stop NUL). eauto using free_of_NUL.
Qed.

Lemma read_dig_rev : cstr_at B4 (S n3) = r1.
Proof.
  view (mf ++ "," ++ mo ++ String NUL (sn ++ String NUL (r1 ++ String NUL (r2 ++ String NUL r3))))
       (mf ++ "," ++ mo ++ String NUL (sn ++ String NUL ""))
       (r1 ++ String NUL (r2 ++ String NUL r3)).
  measure (mf ++ "," ++ mo ++ String NUL (sn ++ String NUL "")) (S n3).
  apply (cstr_at_stop NUL). eauto using free_of_NUL.
Qed.

Lemma read_disp_rev : cstr_at B4 (S n4) = r2.
Proof.
  view (mf ++ "," ++ mo ++ String NUL (sn ++ String NUL (r1 ++ String NUL (r2 ++ String NUL r3))))
       (mf ++ "," ++ mo ++ String NUL (sn ++ String NUL (r1 ++ String NUL "")))
       (r2 ++ String NUL r3).
  measure (mf ++ "," ++ mo ++ String NUL (sn ++ String NUL (r1 ++ String NUL ""))) (S n4).
  apply (cstr_at_stop NUL). eauto using free_of_NUL.
Qed.

Lemma read_brd_rev : cstr_at B4 (S n5) = r3.
Proof.
  view (mf ++ "," ++ mo ++ String NUL (sn ++ String NUL (r1 ++ String NUL (r2 ++ String NUL r3))))
       (mf ++ "," ++ mo ++ String NUL (sn ++ String NUL (r1 ++ String NUL (r2 ++ String NUL ""))))
       r3.
  measure (mf ++ "," ++ mo ++ String NUL (sn ++ String NUL (r1 ++ String NUL (r2 ++ String NUL "")))) (S n5).
  apply (cstr_at_end NUL). exact Hr3.
Qed.

Lemma split_identification_fields tr p :
  exists p',
    split_identification
      (mf ++ "," ++ mo ++ "," ++ sn ++ "," ++ r1 ++ "/" ++ r2 ++ "/" ++ r3) tr p
    = Returns tt p' []
    /\ identification p'
       = {| id_model := mf ++ "," ++ mo; id_serial := Some sn;
            id_dig_rev := Some r1; id_disp_rev := Some r2; id_brd_rev := Some r3 |}
    /\ init p' = init p /\ stats p' = stats p /\ data p' = data p
    /\ myport p' = myport p /\ devtype p' = devtype p.
Proof.
  destruct (split_identification_run tr p)
    as (p' & Hrun & Hm & Hs & Hd & Hp & Hb & Hrest).
  exists p'. split; [exact Hrun|]. split; [|exact Hrest].
  unfold identification. rewrite Hm, Hs, Hd, Hp, Hb. cbn [option_map].
  rewrite read_model, read_serial, read_dig_rev, read_disp_rev, read_brd_rev.
  reflexivity.
Qed.

End Reply.

Lemma substring_all (s : string) (n : nat) :
  (String.length s <= n)%nat -> substring 0 n s = s.
Proof.
  revert n. induction s as [|c s IH]; intros [|n] H; simpl in *;
    try reflexivity; try lia.
  rewrite IH by lia. reflexivity.
Qed.

(** X9.  An identification reply of the form
    manufacturer,model,serial,digital/display/board that fits the buffer is
    split by the set up into the model (with the manufacturer in front),
    the serial number and the three revisions; init is set and the snapshot
    cleared. *)
Theorem setup_splits_a_well_formed_identification
    (mf mo sn r1 r2 r3 : string) (tr : Transport) (p : Port) :
  free_of "," mf = true -> free_of "," mo = true -> free_of "," sn = true ->
  free_of "/" r1 = true -> free_of "/" r2 = true -> free_of NUL r3 = true ->
  let reply := mf ++ "," ++ mo ++ "," ++ sn ++ "," ++ r1 ++ "/" ++ r2 ++ "/" ++ r3 in
  (Z.of_nat (String.length reply) < BUFFER_SIZE) ->
  write_status tr "*CLS" = asynSuccess ->
  writeRead_status tr "*IDN?" = asynSuccess ->
  snd (fst (syncio_writeRead tr "*IDN?")) = reply ->
  exists p',
    setup host_ok tr p
    = Returns asynSuccess p' [Wrote "*CLS" asynSuccess; WroteRead "*IDN?" asynSuccess]
    /\ identification p'
       = {| id_model := mf ++ "," ++ mo; id_serial := Some sn;
            id_dig_rev := Some r1; id_disp_rev := Some r2; id_brd_rev := Some r3 |}
    /\ init p' = 1 /\ last_reading p' = (PrimFloat.zero, 0, 0).
Proof.
  intros Hmf Hmo Hsn Hr1 Hr2 Hr3 reply Hlen Hcls Hidn Hbytes.
  unfold setup. cbn [host_ok connect_status registerPort_status initialize_status
                     is_success negb].
  unfold setup_exchanges. unfold bind at 1. rewrite writeOnly_eq, Hcls.
  cbn [negb is_success]. unfold bind at 1.
  destruct (writeRead_cases "*IDN?" BUFFER_SIZE local_eom tr (upd_stats incr_writeOnlys p))
    as [(buf & po & -> & _ & Hbuf & Hpo) | (s & po & Hs & Hst & _ & _)].
  2:{ rewrite Hidn in Hst. subst s. discriminate. }
  assert (po = upd_stats incr_writeOnlys p) as ->
    by (destruct Hpo as [-> | [r ->]]; reflexivity).
  change (cstr "*IDN?") with "*IDN?" in Hbuf. rewrite Hbytes in Hbuf.
  rewrite substring_all in Hbuf by (unfold BUFFER_SIZE in *; lia).
  assert (Hreply : cstr reply = reply).
  { apply (cstr_free NUL). subst reply.
    repeat (apply free_of_app; [eauto using free_of_NUL | ]);
      try reflexivity; eauto using free_of_NUL. }
  rewrite Hreply in Hbuf. subst buf.
  cbn [negb is_success]. unfold bind at 1.
  destruct (split_identification_fields mf mo sn r1 r2 r3 Hmf Hmo Hsn Hr1 Hr2 Hr3 tr
              (upd_stats incr_writeReads (upd_stats incr_writeOnlys p)))
    as (p' & Hrun & Hid & Hinit & Hstats & Hdata & _).
  fold reply in Hrun. rewrite Hrun.
  eexists. split; [reflexivity|]. split; [|split; reflexivity].
  unfold identification in *. exact Hid.
Qed.

Lemma setup_splits_a_well_formed_identification_witness :
  exists p',
    setup host_ok (answering "KEITHLEY INSTRUMENTS INC.,MODEL 6487,1234567,A06/B01/C") (calloc_Port "EP0" "S0" 0)
    = Returns asynSuccess p' [Wrote "*CLS" asynSuccess; WroteRead "*IDN?" asynSuccess]
    /\ identification p'
       = {| id_model := "KEITHLEY INSTRUMENTS INC.,MODEL 6487"; id_serial := Some "1234567";
            id_dig_rev := Some "A06"; id_disp_rev := Some "B01"; id_brd_rev := Some "C" |}
    /\ init p' = 1 /\ last_reading p' = (PrimFloat.zero, 0, 0).
Proof.
  apply (setup_splits_a_well_formed_identification
           "KEITHLEY INSTRUMENTS INC." "MODEL 6487" "1234567" "A06" "B01" "C");
    vm_compute; reflexivity.
Defined.

(** ** The sensor reply *)

Lemma split_loop_pass str :
  fst (split_loop 3 0 str None []) = 3.
Proof.
  unfold split_loop. cbn [Z.ltb Z.compare Z.add Pos.compare Pos.compare_cont Pos.add Pos.succ].
  unfold token_is_NULL.
  repeat match goal with
         | |- context [epicsStrtok_r ?a ?b ?c] => destruct (epicsStrtok_r a b c)
         end.
  reflexivity.
Qed.

Lemma is_delim_comma c : is_delim "," c = Ascii.eqb c ",".
Proof. unfold is_delim. simpl. apply orb_false_r. Qed.

Lemma field_inv c s :
  field c s = true ->
  free_of c s = true /\ exists d s', s = String d s' /\ Ascii.eqb d c = false.
Proof.
  unfold field. destruct s as [|d s']; [discriminate|]. simpl.
  intros H. split; [exact H|]. exists d, s'. split; [reflexivity|].
  apply andb_prop in H as [H _]. apply andb_prop in H as [_ H].
  apply negb_true_iff in H. exact H.
Qed.

Lemma skip_delims_field s : field "," s = true -> skip_delims "," s = s.
Proof.
  intros H. apply field_inv in H as (_ & d & s' & -> & Hd).
  simpl. rewrite is_delim_comma, Hd. reflexivity.
Qed.

Lemma scan_token_cut t rest :
  free_of "," t = true -> scan_token "," (t ++ String "," rest) = (t, Some rest).
Proof.
  induction t as [|d t IH]; intros H.
  - reflexivity.
  - apply free_of_head in H as (_ & H2 & H3). simpl.
    rewrite is_delim_comma, H2, IH by exact H3. reflexivity.
Qed.

Lemma scan_token_last t :
  free_of "," t = true -> scan_token "," t = (t, None).
Proof.
  induction t as [|d t IH]; intros H.
  - reflexivity.
  - apply free_of_head in H as (_ & H2 & H3). simpl.
    rewrite is_delim_comma, H2, IH by exact H3. reflexivity.
Qed.

Lemma strtok_cut t rest s lasts :
  field "," t = true -> free_of NUL rest = true ->
  (match s with Some _ => s | None => lasts end) = Some (t ++ String "," rest) ->
  epicsStrtok_r s "," lasts = (Some t, Some rest).
Proof.
  intros Ht Hrest Hs. unfold epicsStrtok_r. rewrite Hs.
  destruct (field_inv _ _ Ht) as (Hfree & d & t' & -> & Hd).
  assert (Hc : cstr (String d t' ++ String "," rest) = String d t' ++ String "," rest).
  { apply (cstr_free NUL). apply free_of_app; [eauto using free_of_NUL|].
    simpl. exact Hrest. }
  rewrite Hc.
  change (String d t' ++ String "," rest) with (String d (t' ++ String "," rest)) at 1.
  cbn [skip_delims]. rewrite is_delim_comma, Hd.
  change (String d (t' ++ String "," rest)) with (String d t' ++ String "," rest).
  rewrite scan_token_cut by exact Hfree. reflexivity.
Qed.

Lemma strtok_last t s lasts :
  field "," t = true ->
  (match s with Some _ => s | None => lasts end) = Some t ->
  epicsStrtok_r s "," lasts = (Some t, None).
Proof.
  intros Ht Hs. unfold epicsStrtok_r. rewrite Hs.
  destruct (field_inv _ _ Ht) as (Hfree & d & t' & -> & Hd).
  rewrite (cstr_free "," _ Hfree).
  cbn [skip_delims]. rewrite is_delim_comma, Hd.
  rewrite scan_token_last by exact Hfree. reflexivity.
Qed.

Lemma split_loop_fields t0 t1 t2 :
  field "," t0 = true -> field "," t1 = true -> field "," t2 = true ->
  split_loop 3 0 (Some (t0 ++ "," ++ t1 ++ "," ++ t2)) None []
  = (3, [Some t0; Some t1; Some t2]).
Proof.
  intros H0 H1 H2.
  destruct (field_inv _ _ H1) as (F1 & _). destruct (field_inv _ _ H2) as (F2 & _).
  unfold split_loop, token_is_NULL.
  change (0 <? 3) with true. cbv iota.
  rewrite (strtok_cut t0 (t1 ++ "," ++ t2)); [| exact H0 | | reflexivity].
  2:{ apply free_of_app; [eauto using free_of_NUL|]. simpl.
      eauto using free_of_NUL. }
  change (0 + 1 <? 3) with true. cbv iota.
  rewrite (strtok_cut t1 t2); [| exact H1 | eauto using free_of_NUL | reflexivity].
  change (0 + 1 + 1 <? 3) with true. cbv iota.
  rewrite (strtok_last t2); [| exact H2 | reflexivity].
  reflexivity.
Qed.

Lemma field_free c s : field c s = true -> free_of c s = true.
Proof. intros H. apply field_inv in H. tauto. Qed.

(** X10.  After a successful exchange the reading of the sensor has no error
    exit: it returns asynSuccess, or runs into a missing token or into a
    number that does not fit an int. *)
Theorem sensor_reading_has_no_error_exit
    (which : Z) (Iface : IfaceType) (tr : Transport) (p : Port) :
  writeRead_status tr "READ?" = asynSuccess ->
  match readSensorReading which Iface tr p with
  | Returns (st, _) _ io => st = asynSuccess /\ io = [WroteRead "READ?" asynSuccess]
  | Undefined f io =>
      (f = NullPointer \/ f = BadConversion) /\ io = [WroteRead "READ?" asynSuccess]
  end.
Proof.
  intros Hst. unfold readSensorReading. unfold bind at 1.
  destruct (writeRead_cases "READ?" BUFFER_SIZE data_eom tr p)
    as [(buf & po & -> & _ & _ & _) | (s & po & Hs & Hs' & _ & _)].
  2:{ rewrite Hst in Hs'. subst s. discriminate. }
  cbn [negb is_success].
  pose proof (split_loop_pass (Some buf)) as Hpass.
  destruct (split_loop 3 0 (Some buf) None []) as [pass token].
  cbn [fst] in Hpass. subst pass. cbn [Z.eqb Pos.eqb negb].
  unfold token_at, deref, cast_int, bind, modify, get_port, ret, undefined.
  destruct (nth 0 token None); cbn; [|auto].
  destruct (nth 1 token None); cbn; [|auto].
  destruct (double_to_int (atof s0)); cbn; [|auto].
  destruct (nth 2 token None); cbn; [|auto].
  destruct (double_to_int (atof s1)); cbn; [|auto].
  destruct Iface; cbn; auto.
Qed.

Lemma sensor_reading_has_no_error_exit_witness :
  match readSensorReading READ_CMD Float64 (answering "abc,def,ghi")
          (ready_port 0 some_data some_stats) with
  | Returns (st, _) _ io => st = asynSuccess /\ io = [WroteRead "READ?" asynSuccess]
  | Undefined f io =>
      (f = NullPointer \/ f = BadConversion) /\ io = [WroteRead "READ?" asynSuccess]
  end.
Proof.
  apply (sensor_reading_has_no_error_exit READ_CMD Float64 (answering "abc,def,ghi")
           (ready_port 0 some_data some_stats)).
  vm_compute. reflexivity.
Defined.

Lemma readSensorReading_fields
    (t0 t1 t2 : string) (ts raw : Z) (which : Z) (Iface : IfaceType)
    (tr : Transport) (p : Port) :
  field "," t0 = true -> field "," t1 = true -> field "," t2 = true ->
  let reply := t0 ++ "," ++ t1 ++ "," ++ t2 in
  Z.of_nat (String.length reply) < BUFFER_SIZE ->
  writeRead_status tr "READ?" = asynSuccess ->
  snd (fst (syncio_writeRead tr "READ?")) = reply ->
  double_to_int (atof t1) = Some ts ->
  double_to_int (atof t2) = Some raw ->
  exists out p',
    readSensorReading which Iface tr p
    = Returns (asynSuccess, out) p' [WroteRead "READ?" asynSuccess]
    /\ last_reading p' = (atof t0, ts, raw)
    /\ setup_part p' = setup_part p
    /\ stats p' = incr_writeReads (stats p)
    /\ out_data out = match Iface with
                      | Float64 => Some (VFloat64 (atof t0))
                      | Octet => Some (VOctet t0)
                      | Int32 => None
                      end
    /\ out_length out = match Iface with
                        | Octet => Some (Z.of_nat (String.length t0))
                        | _ => None
                        end.
Proof.
  intros H0 H1 H2 reply Hlen Hst Hbytes Hts Hraw.
  unfold readSensorReading. unfold bind at 1.
  destruct (writeRead_cases "READ?" BUFFER_SIZE data_eom tr p)
    as [(buf & po & -> & _ & Hbuf & Hpo) | (s & po & Hs & Hs' & _ & _)].
  2:{ rewrite Hst in Hs'. subst s. discriminate. }
  change (cstr "READ?") with "READ?" in Hbuf. rewrite Hbytes in Hbuf.
  rewrite substring_all in Hbuf by (unfold BUFFER_SIZE in *; lia).
  assert (Hreply : cstr reply = reply).
  { apply (cstr_free NUL). subst reply.
    repeat (apply free_of_app; [eauto using free_of_NUL, field_free | ]);
      try reflexivity; eauto using free_of_NUL, field_free. }
  rewrite Hreply in Hbuf. subst buf reply.
  cbn [negb is_success].
  rewrite (split_loop_fields t0 t1 t2 H0 H1 H2).
  cbn [Z.eqb Pos.eqb negb].
  unfold token_at, deref, cast_int, bind, modify, get_port, ret, undefined.
  cbn [nth]. rewrite Hts, Hraw.
  assert (Hc0 : printf_s t0 = t0)
    by (apply (cstr_free ","); apply field_free; exact H0).
  destruct Hpo as [-> | [r ->]]; destruct Iface; cbn;
    rewrite ?Hc0; do 2 eexists; repeat split; reflexivity.
Qed.

(** X11.  A reply of three fields, the second and third of which are numbers that
    fit an int, is stored as the snapshot, and nothing that the set up
    wrote changes.  A number read hands back the first field as a double;
    a text read hands the first field back whole, and is covered here when
    the field with its terminator fits an EPICS string (the copy has no
    bound, so a longer field overruns such a buffer). *)
Theorem sensor_reading_stores_the_three_fields
    (t0 t1 t2 : string) (ts raw : Z) (which : Z) (Iface : IfaceType)
    (tr : Transport) (p : Port) :
  field "," t0 = true -> field "," t1 = true -> field "," t2 = true ->
  let reply := t0 ++ "," ++ t1 ++ "," ++ t2 in
  Z.of_nat (String.length reply) < BUFFER_SIZE ->
  writeRead_status tr "READ?" = asynSuccess ->
  snd (fst (syncio_writeRead tr "READ?")) = reply ->
  double_to_int (atof t1) = Some ts ->
  double_to_int (atof t2) = Some raw ->
  (Iface = Octet -> (String.length t0 < MAX_STRING_SIZE)%nat) ->
  exists out p',
    readSensorReading which Iface tr p
    = Returns (asynSuccess, out) p' [WroteRead "READ?" asynSuccess]
    /\ last_reading p' = (atof t0, ts, raw)
    /\ setup_part p' = setup_part p
    /\ out_data out = match Iface with
                      | Float64 => Some (VFloat64 (atof t0))
                      | Octet => Some (VOctet t0)
                      | Int32 => None
                      end
    /\ (Iface = Octet ->
        out_length out = Some (Z.of_nat (String.length t0))
        /\ Z.of_nat (String.length t0) + 1 <= Z.of_nat MAX_STRING_SIZE).
Proof.
  intros H0 H1 H2 reply Hlen Hst Hbytes Hts Hraw Hfits.
  destruct (readSensorReading_fields t0 t1 t2 ts raw which Iface tr p
              H0 H1 H2 Hlen Hst Hbytes Hts Hraw)
    as (out & p' & Hrun & Hlast & Hsetup & _ & Hout & Hlength).
  exists out, p'.
  split; [exact Hrun|]. split; [exact Hlast|]. split; [exact Hsetup|].
  split; [exact Hout|].
  intros HO. specialize (Hfits HO). subst Iface. split; [exact Hlength | lia].
Qed.

Lemma sensor_reading_stores_the_three_fields_witness :
  exists out p',
    readSensorReading READ_CMD Octet (answering "+1.234567E-09A,+1.000000E+01,+9.600000E+01")
      (ready_port 0 some_data some_stats)
    = Returns (asynSuccess, out) p' [WroteRead "READ?" asynSuccess]
    /\ last_reading p' = (atof "+1.234567E-09A", 10, 96)
    /\ setup_part p' = setup_part (ready_port 0 some_data some_stats)
    /\ out_data out = Some (VOctet "+1.234567E-09A")
    /\ (Octet = Octet ->
        out_length out = Some (Z.of_nat (String.length "+1.234567E-09A"))
        /\ Z.of_nat (String.length "+1.234567E-09A") + 1 <= Z.of_nat MAX_STRING_SIZE).
Proof.
  apply (sensor_reading_stores_the_three_fields
           "+1.234567E-09A" "+1.000000E+01" "+9.600000E+01" 10 96 READ_CMD Octet);
    try (vm_compute; reflexivity).
  intros _. unfold MAX_STRING_SIZE. simpl. lia.
Defined.

(** ** Decimal numerals *)

Lemma digit_step (c : ascii) (k : Z) (rest : string) (a : Z) (n : nat) :
  digit_val c = Some k -> digits (String c rest) a n = digits rest (10 * a + k) (S n).
Proof. intros H. cbn [digits]. rewrite H. reflexivity. Qed.

Ltac digit c k :=
  rewrite (digit_step c k) by reflexivity.

Lemma digits_of_uint_acc (u : Decimal.uint) (acc : positive) (n : nat) :
  digits (NilEmpty.string_of_uint u) (Zpos acc) n
  = (Zpos (Pos.of_uint_acc u acc), (n + Decimal.nb_digits u)%nat, EmptyString).
Proof.
  revert acc n.
  induction u as [|u IH|u IH|u IH|u IH|u IH|u IH|u IH|u IH|u IH|u IH]; intros acc n;
    cbn [NilEmpty.string_of_uint Decimal.nb_digits Pos.of_uint_acc].
  - cbn [digits]. do 2 f_equal. lia.
  - digit "0"%char 0.
    replace (10 * Z.pos acc + 0) with (Z.pos (Pos.mul 10 acc)) by lia.
    rewrite IH. do 2 f_equal. lia.
  - digit "1"%char 1.
    replace (10 * Z.pos acc + 1) with (Z.pos (Pos.add 1 (Pos.mul 10 acc))) by lia.
    rewrite IH. do 2 f_equal. lia.
  - digit "2"%char 2.
    replace (10 * Z.pos acc + 2) with (Z.pos (Pos.add 2 (Pos.mul 10 acc))) by lia.
    rewrite IH. do 2 f_equal. lia.
  - digit "3"%char 3.
    replace (10 * Z.pos acc + 3) with (Z.pos (Pos.add 3 (Pos.mul 10 acc))) by lia.
    rewrite IH. do 2 f_equal. lia.
  - digit "4"%char 4.
    replace (10 * Z.pos acc + 4) with (Z.pos (Pos.add 4 (Pos.mul 10 acc))) by lia.
    rewrite IH. do 2 f_equal. lia.
  - digit "5"%char 5.
    replace (10 * Z.pos acc + 5) with (Z.pos (Pos.add 5 (Pos.mul 10 acc))) by lia.
    rewrite IH. do 2 f_equal. lia.
  - digit "6"%char 6.
    replace (10 * Z.pos acc + 6) with (Z.pos (Pos.add 6 (Pos.mul 10 acc))) by lia.
    rewrite IH. do 2 f_equal. lia.
  - digit "7"%char 7.
    replace (10 * Z.pos acc + 7) with (Z.pos (Pos.add 7 (Pos.mul 10 acc))) by lia.
    rewrite IH. do 2 f_equal. lia.
  - digit "8"%char 8.
    replace (10 * Z.pos acc + 8) with (Z.pos (Pos.add 8 (Pos.mul 10 acc))) by lia.
    rewrite IH. do 2 f_equal. lia.
  - digit "9"%char 9.
    replace (10 * Z.pos acc + 9) with (Z.pos (Pos.add 9 (Pos.mul 10 acc))) by lia.
    rewrite IH. do 2 f_equal. lia.
Qed.

Lemma digits_of_uint (u : Decimal.uint) (n : nat) :
  digits (NilEmpty.string_of_uint u) 0 n
  = (Z.of_N (Pos.of_uint u), (n + Decimal.nb_digits u)%nat, EmptyString).
Proof.
  revert n.
  induction u as [|u IH|u IH|u IH|u IH|u IH|u IH|u IH|u IH|u IH|u IH]; intros n;
    cbn [NilEmpty.string_of_uint Decimal.nb_digits Pos.of_uint].
  - cbn [digits]. do 2 f_equal. lia.
  - digit "0"%char 0. change (10 * 0 + 0) with 0. rewrite IH. do 2 f_equal. lia.
  - digit "1"%char 1. change (10 * 0 + 1) with (Z.pos 1).
    rewrite digits_of_uint_acc. do 2 f_equal. lia.
  - digit "2"%char 2. change (10 * 0 + 2) with (Z.pos 2).
    rewrite digits_of_uint_acc. do 2 f_equal. lia.
  - digit "3"%char 3. change (10 * 0 + 3) with (Z.pos 3).
    rewrite digits_of_uint_acc. do 2 f_equal. lia.
  - digit "4"%char 4. change (10 * 0 + 4) with (Z.pos 4).
    rewrite digits_of_uint_acc. do 2 f_equal. lia.
  - digit "5"%char 5. change (10 * 0 + 5) with (Z.pos 5).
    rewrite digits_of_uint_acc. do 2 f_equal. lia.
  - digit "6"%char 6. change (10 * 0 + 6) with (Z.pos 6).
    rewrite digits_of_uint_acc. do 2 f_equal. lia.
  - digit "7"%char 7. change (10 * 0 + 7) with (Z.pos 7).
    rewrite digits_of_uint_acc. do 2 f_equal. lia.
  - digit "8"%char 8. change (10 * 0 + 8) with (Z.pos 8).
    rewrite digits_of_uint_acc. do 2 f_equal. lia.
  - digit "9"%char 9. change (10 * 0 + 9) with (Z.pos 9).
    rewrite digits_of_uint_acc. do 2 f_equal. lia.
Qed.

Lemma numeral_free (u : Decimal.uint) : free_of " " (NilEmpty.string_of_uint u) = true.
Proof. induction u; cbn [NilEmpty.string_of_uint]; try reflexivity; exact IHu. Qed.

Lemma numeral_head (u : Decimal.uint) :
  skip_space (NilEmpty.string_of_uint u) = NilEmpty.string_of_uint u
  /\ sign (NilEmpty.string_of_uint u) = (false, NilEmpty.string_of_uint u).
Proof. destruct u; split; reflexivity. Qed.

Lemma atoi_of_numeral (p : positive) :
  atoi (NilEmpty.string_of_uint (Pos.to_uint p)) = wrap_int (Z.pos p)
  /\ atoi (String "-" (NilEmpty.string_of_uint (Pos.to_uint p))) = wrap_int (Z.neg p).
Proof.
  unfold atoi. split.
  - rewrite (cstr_free " " _ (numeral_free _)).
    destruct (numeral_head (Pos.to_uint p)) as [-> ->].
    rewrite digits_of_uint, DecimalPos.Unsigned.of_to. reflexivity.
  - assert (H : cstr (String "-" (NilEmpty.string_of_uint (Pos.to_uint p)))
                = String "-" (NilEmpty.string_of_uint (Pos.to_uint p))).
    { apply (cstr_free " "). simpl. apply numeral_free. }
    rewrite H.
    change (skip_space (String "-" (NilEmpty.string_of_uint (Pos.to_uint p))))
      with (String "-" (NilEmpty.string_of_uint (Pos.to_uint p))).
    change (sign (String "-" (NilEmpty.string_of_uint (Pos.to_uint p))))
      with (true, NilEmpty.string_of_uint (Pos.to_uint p)).
    cbv iota. rewrite digits_of_uint, DecimalPos.Unsigned.of_to. reflexivity.
Qed.

Lemma wrap_int_id (v : Z) : INT_MIN <= v <= INT_MAX -> wrap_int v = v.
Proof.
  unfold INT_MIN, INT_MAX, wrap_int. intros H.
  rewrite Z.mod_small by lia. lia.
Qed.

Lemma atoi_printf_d (v : Z) : INT_MIN <= v <= INT_MAX -> atoi (printf_d v) = v.
Proof.
  intros H. unfold printf_d.
  destruct v as [|p|p]; cbn [Z.to_int NilEmpty.string_of_int].
  - reflexivity.
  - rewrite (proj1 (atoi_of_numeral p)). apply wrap_int_id. exact H.
  - rewrite (proj2 (atoi_of_numeral p)). apply wrap_int_id. exact H.
Qed.

Lemma of_uint_acc_ge (u : Decimal.uint) (acc : positive) :
  Z.pos acc * 10 ^ Z.of_nat (Decimal.nb_digits u) <= Z.pos (Pos.of_uint_acc u acc).
Proof.
  revert acc.
  induction u as [|u IH|u IH|u IH|u IH|u IH|u IH|u IH|u IH|u IH|u IH]; intros acc;
    cbn [Decimal.nb_digits Pos.of_uint_acc];
    [ cbn; lia | .. ];
    rewrite Nat2Z.inj_succ, Z.pow_succ_r by lia;
    match goal with
    | |- _ <= Z.pos (Pos.of_uint_acc _ ?a) =>
        specialize (IH a);
        assert (Z.pos acc * 10 <= Z.pos a) by lia;
        pose proof (Z.pow_pos_nonneg 10 (Z.of_nat (Decimal.nb_digits u)) ltac:(lia) ltac:(lia));
        nia
    end.
Qed.

Lemma of_uint_ge (u : Decimal.uint) :
  Decimal.nzhead u = u -> u <> Decimal.Nil ->
  10 ^ (Z.of_nat (Decimal.nb_digits u) - 1) <= Z.of_N (Pos.of_uint u).
Proof.
  intros Hn Hu.
  destruct u as [|u|u|u|u|u|u|u|u|u|u]; [congruence | | ..];
    [ exfalso; exact (DecimalFacts.nzhead_nonzero _ _ Hn) | .. ];
    cbn [Decimal.nb_digits Pos.of_uint Z.of_N];
    rewrite Nat2Z.inj_succ;
    replace (Z.succ (Z.of_nat (Decimal.nb_digits u)) - 1)
      with (Z.of_nat (Decimal.nb_digits u)) by lia;
    match goal with
    | |- _ <= Z.pos (Pos.of_uint_acc _ ?a) =>
        pose proof (of_uint_acc_ge u a);
        pose proof (Z.pow_pos_nonneg 10 (Z.of_nat (Decimal.nb_digits u)) ltac:(lia) ltac:(lia));
        nia
    end.
Qed.

Lemma to_uint_head (p : positive) : Decimal.nzhead (Pos.to_uint p) = Pos.to_uint p.
Proof.
  pose proof (DecimalPos.Unsigned.to_of (Pos.to_uint p)) as H.
  rewrite DecimalPos.Unsigned.of_to in H. cbn [N.to_uint] in H.
  destruct (Decimal.nzhead (Pos.to_uint p)) eqn:E;
    try (rewrite DecimalFacts.unorm_nzhead in H by (rewrite E; discriminate); rewrite E in H;
         symmetry; exact H).
  apply DecimalFacts.unorm_0 in E. rewrite E in H. exfalso. exact (DecimalPos.Unsigned.to_uint_nonzero p H).
Qed.

Lemma numeral_length (u : Decimal.uint) :
  String.length (NilEmpty.string_of_uint u) = Decimal.nb_digits u.
Proof. induction u; cbn [NilEmpty.string_of_uint Decimal.nb_digits String.length]; congruence. Qed.

Lemma numeral_digits (p : positive) :
  Z.pos p <= INT_MAX + 1 -> (Decimal.nb_digits (Pos.to_uint p) <= 10)%nat.
Proof.
  intros H.
  pose proof (of_uint_ge (Pos.to_uint p) (to_uint_head p) (DecimalPos.Unsigned.to_uint_nonnil p)) as Hge.
  rewrite DecimalPos.Unsigned.of_to in Hge. cbn [Z.of_N] in Hge.
  destruct (Nat.le_gt_cases (Decimal.nb_digits (Pos.to_uint p)) 10) as [Hle | Hgt];
    [exact Hle | exfalso].
  assert (10 ^ 10 <= 10 ^ (Z.of_nat (Decimal.nb_digits (Pos.to_uint p)) - 1))
    by (apply Z.pow_le_mono_r; lia).
  unfold INT_MAX in H. change (10 ^ 10) with 10000000000 in *. lia.
Qed.

Lemma printf_d_length (v : Z) :
  INT_MIN <= v <= INT_MAX -> (String.length (printf_d v) <= 11)%nat.
Proof.
  intros H. unfold printf_d.
  destruct v as [|p|p]; cbn [Z.to_int NilEmpty.string_of_int String.length].
  - simpl. lia.
  - rewrite numeral_length.
    pose proof (numeral_digits p ltac:(unfold INT_MAX, INT_MIN in *; lia)). lia.
  - rewrite numeral_length.
    pose proof (numeral_digits p ltac:(unfold INT_MAX, INT_MIN in *; lia)). lia.
Qed.

Lemma printf_d_free (v : Z) : free_of " " (printf_d v) = true.
Proof.
  unfold printf_d. destruct v as [|p|p]; cbn [Z.to_int NilEmpty.string_of_int].
  - reflexivity.
  - apply numeral_free.
  - simpl. apply numeral_free.
Qed.

Lemma index_element {A} (table : list A) (i : Z) (a : A) tr p :
  element table i = Some a -> index table i tr p = Returns a p [].
Proof.
  unfold element, index. destruct (i <? 0); [discriminate|]. intros ->. reflexivity.
Qed.

Lemma simple_integer_round_trip
    (table : list SimpleCommand) (which : Z) (c : string) (v : Z)
    (tr tr' : Transport) (p p' : Port) :
  element table which = Some {| simple_type := SIMPLE_INT32; cmd_str := c |} ->
  free_of NUL c = true ->
  INT_MIN <= v <= INT_MAX ->
  writeRead_status tr' (c ++ "?") = asynSuccess ->
  snd (fst (syncio_writeRead tr' (c ++ "?"))) = printf_d v ->
  commands (writeSimpleData table which (VInt32 v) Int32 tr p) = [c ++ " " ++ printf_d v]
  /\ returned (readSimpleData table which Int32 tr' p')
     = Some (asynSuccess, stored (VInt32 v)).
Proof.
  intros Hrow Hc Hv Hst Hbytes.
  assert (Hcs : cstr c = c) by (apply (cstr_free NUL); exact Hc).
  assert (Hq : cstr (c ++ "?") = c ++ "?").
  { apply (cstr_free NUL). apply free_of_app; [exact Hc | reflexivity]. }
  split.
  - unfold writeSimpleData.
    rewrite (bind_silent_eq _ _ tr p _ (index_element _ _ _ tr p Hrow)).
    cbn [simple_type cmd_str]. change (SIMPLE_INT32 =? SIMPLE_TRIGGER) with false.
    change (negb (SIMPLE_INT32 =? type_code Int32)) with false.
    change (Z.land SIMPLE_INT32 (type_code Int32) =? type_code Float64) with false.
    change (Z.land SIMPLE_INT32 (type_code Int32) =? type_code Int32) with true.
    cbv iota. rewrite bind_ret_l. rewrite commands_writeOnly.
    unfold printf_s. rewrite Hcs. f_equal. apply (cstr_free NUL).
    apply free_of_app; [exact Hc|]. simpl.
    apply (free_of_NUL " "). apply printf_d_free.
  - unfold readSimpleData.
    rewrite (bind_silent_eq _ _ tr' p' _ (index_element _ _ _ tr' p' Hrow)).
    cbn [simple_type cmd_str].
    change (negb (SIMPLE_INT32 =? type_code Int32)) with false. cbv iota.
    unfold printf_s. rewrite Hcs. unfold bind.
    destruct (writeRead_cases (c ++ "?") BUFFER_SIZE data_eom tr' p')
      as [(buf & po & -> & _ & Hbuf & _) | (s & po & Hs & Hs' & _ & _)].
    2:{ rewrite Hst in Hs'. subst s. discriminate. }
    rewrite Hq, Hbytes in Hbuf.
    rewrite substring_all in Hbuf
      by (pose proof (printf_d_length v Hv); unfold BUFFER_SIZE; lia).
    rewrite (cstr_free " " _ (printf_d_free v)) in Hbuf. subst buf.
    cbn [negb is_success ret returned]. rewrite atoi_printf_d by exact Hv. reflexivity.
Qed.

Lemma simple_rows_free (var : Variant) (which : Z) (e : SimpleCommand) :
  element (simpleCommandTable_of var) which = Some e -> free_of NUL (cmd_str e) = true.
Proof.
  unfold element. destruct (which <? 0); [discriminate|]. intros H.
  apply nth_error_In in H.
  destruct var; simpl in H;
    repeat (destruct H as [<- | H]; [reflexivity|]); contradiction.
Qed.

(** X12.  An integer parameter of the simple table of either driver is written as the command
    text, a blank and the decimal numeral of the value, and a reply that
    holds this numeral reads back as the value. *)
Theorem simple_integer_is_read_back
    (var : Variant) (which : Z) (c : string) (v : Z)
    (tr tr' : Transport) (p p' : Port) :
  element (simpleCommandTable_of var) which
  = Some {| simple_type := SIMPLE_INT32; cmd_str := c |} ->
  INT_MIN <= v <= INT_MAX ->
  writeRead_status tr' (c ++ "?") = asynSuccess ->
  snd (fst (syncio_writeRead tr' (c ++ "?"))) = printf_d v ->
  commands (writeSimpleData (simpleCommandTable_of var) which (VInt32 v) Int32 tr p)
  = [c ++ " " ++ printf_d v]
  /\ returned (readSimpleData (simpleCommandTable_of var) which Int32 tr' p')
     = Some (asynSuccess, stored (VInt32 v)).
Proof.
  intros Hrow. apply simple_integer_round_trip; [exact Hrow|].
  exact (simple_rows_free var which _ Hrow).
Qed.

Lemma simple_integer_is_read_back_witness :
  commands (writeSimpleData K648x.simpleCommandTable K648x.MEDIAN_FILTER_RANK_CMD
              (VInt32 (-5)) Int32 (answering "") (ready_port 2 some_data some_stats))
  = ["MED:RANK -5"]
  /\ returned (readSimpleData K648x.simpleCommandTable K648x.MEDIAN_FILTER_RANK_CMD Int32
                 (answering "-5") (ready_port 2 some_data some_stats))
     = Some (asynSuccess, stored (VInt32 (-5))).
Proof.
  apply (simple_integer_is_read_back (V648x 0) K648x.MEDIAN_FILTER_RANK_CMD
           "MED:RANK" (-5) (answering "") (answering "-5"));
    vm_compute; try reflexivity; split; discriminate.
Defined.

(** ** Accesses that reach a handler of the general table *)

Section Routed.

Variable commandTable : list Command.
Variable genCommandTable : list GenCommand.
Variable simpleCommandTable : list SimpleCommand.
Variables (reason : Z) (r : Command) (g : GenCommand) (tr : Transport) (p : Port).
Hypothesis Hrow : row commandTable reason = Some r.
Hypothesis Hready : init p <> 0.
Hypothesis Hgen : type r = CMD_GEN.
Hypothesis Hg : element genCommandTable (id r) = Some g.

Ltac route :=
  rewrite (bind_silent_eq get_port _ tr p p eq_refl);
  rewrite (bind_silent_eq _ _ tr p r (index_row _ _ _ tr p Hrow));
  rewrite (proj2 (Z.eqb_neq _ _) Hready), Hgen;
  change (CMD_GEN =? CMD_GEN) with true; cbv iota;
  rewrite (bind_silent_eq _ _ tr p g (index_element _ _ _ tr p Hg));
  reflexivity.

Lemma writeInt32_routed value :
  Driver.writeInt32 commandTable genCommandTable simpleCommandTable reason value tr p
  = writeFunc g (id r) (VInt32 value) Int32 tr p.
Proof. unfold Driver.writeInt32. route. Qed.

Lemma readInt32_routed :
  Driver.readInt32 commandTable genCommandTable simpleCommandTable reason tr p
  = readFunc g (id r) Int32 tr p.
Proof. unfold Driver.readInt32. route. Qed.

Lemma readFloat64_routed :
  Driver.readFloat64 commandTable genCommandTable simpleCommandTable reason tr p
  = readFunc g (id r) Float64 tr p.
Proof. unfold Driver.readFloat64. route. Qed.

End Routed.

Lemma range_write_routed (var : Variant) (reason : Z) (verb : string) (v : Z) tr p :
  init p <> 0 -> range_verb reason = Some verb ->
  perform_on var (WriteInt32 reason v) tr p = writeRange reason (VInt32 v) Int32 tr p.
Proof.
  intros Hready Hverb.
  destruct (range_verb_cases _ _ Hverb) as [[-> _] | [[-> _] | [-> _]]];
    destruct var; cbn [perform_on perform_6485 perform_648x perform];
    (etransitivity;
     [ eapply writeInt32_routed; [reflexivity | exact Hready | reflexivity | reflexivity]
     | reflexivity ]).
Qed.

Lemma outBuf_whole (verb : string) (n : Z) :
  free_of NUL verb = true ->
  cstr (verb ++ " 2.0e" ++ printf_d n) = verb ++ " 2.0e" ++ printf_d n.
Proof.
  intros H. apply (cstr_free NUL). apply free_of_app; [exact H|].
  apply (free_of_app NUL " 2.0e"); [reflexivity|].
  apply (free_of_NUL " "). apply printf_d_free.
Qed.

(** X13.  A range is written as the verb and 2.0e(v-9) when the value is one of
    the eight ranges, and is refused without an exchange otherwise. *)
Theorem range_write_is_sent_only_in_range
    (var : Variant) (reason : Z) (verb : string) (v : Z) (tr : Transport) (p : Port) :
  init p <> 0 -> range_verb reason = Some verb ->
  (0 <= v <= 7 ->
     commands (perform_on var (WriteInt32 reason v) tr p)
     = [verb ++ " 2.0e" ++ printf_d (v - 9)])
  /\ (v < 0 \/ 7 < v ->
     perform_on var (WriteInt32 reason v) tr p = Returns asynError p []).
Proof.
  intros Hready Hverb.
  rewrite (range_write_routed var reason verb v tr p Hready Hverb).
  unfold writeRange. rewrite Hverb. split; intros Hv.
  - replace ((v <? 0) || (v >? 7)) with false
      by (symmetry; rewrite Z.gtb_ltb; apply orb_false_iff; split; apply Z.ltb_ge; lia).
    rewrite commands_writeOnly. replace (-9 + v) with (v - 9) by lia.
    f_equal. apply outBuf_whole.
    destruct (range_verb_cases _ _ Hverb) as [[_ ->] | [[_ ->] | [_ ->]]]; reflexivity.
  - replace ((v <? 0) || (v >? 7)) with true; [reflexivity|].
    symmetry. rewrite Z.gtb_ltb. apply orb_true_iff.
    destruct Hv; [left | right]; apply Z.ltb_lt; lia.
Qed.

Lemma range_write_is_sent_only_in_range_witness :
  commands (perform_on (V648x 0) (WriteInt32 RANGE_AUTO_ULIMIT_CMD 3) (answering "")
              (ready_port 2 some_data some_stats))
  = [":RANGE:AUTO:ULIM 2.0e-6"]
  /\ perform_on (V648x 0) (WriteInt32 RANGE_AUTO_ULIMIT_CMD 8) (answering "")
       (ready_port 2 some_data some_stats)
     = Returns asynError (ready_port 2 some_data some_stats) [].
Proof.
  split.
  - apply (proj1 (range_write_is_sent_only_in_range (V648x 0) RANGE_AUTO_ULIMIT_CMD
             ":RANGE:AUTO:ULIM" 3 (answering "") (ready_port 2 some_data some_stats)
             ltac:(discriminate) eq_refl)).
    lia.
  - apply (proj2 (range_write_is_sent_only_in_range (V648x 0) RANGE_AUTO_ULIMIT_CMD
             ":RANGE:AUTO:ULIM" 8 (answering "") (ready_port 2 some_data some_stats)
             ltac:(discriminate) eq_refl)).
    lia.
Defined.

Lemma rate_write_routed (var : Variant) (v : Z) tr p :
  init p <> 0 ->
  perform_on var (WriteInt32 RATE_CMD v) tr p
  = match var with
    | V6485 _ => K6485.writeRate RATE_CMD (VInt32 v) Int32 tr p
    | V648x _ => K648x.writeRate RATE_CMD (VInt32 v) Int32 tr p
    end.
Proof.
  intros Hready.
  destruct var; cbn [perform_on perform_6485 perform_648x perform];
    (etransitivity;
     [ eapply writeInt32_routed; [reflexivity | exact Hready | reflexivity | reflexivity]
     | reflexivity ]).
Qed.

Lemma writeRate_commands
    (var : Variant) (v : Z) (tr : Transport) (p : Port) :
  init p <> 0 ->
  (0 <= v <= 2 ->
     commands (perform_on var (WriteInt32 RATE_CMD v) tr p)
     = [":NPLC " ++ (if v =? 0 then "6" else if v =? 1 then "1" else "0.1")])
  /\ (v < 0 \/ 2 < v ->
     perform_on var (WriteInt32 RATE_CMD v) tr p = Returns asynError p []).
Proof.
  intros Hready. rewrite (rate_write_routed var v tr p Hready). split; intros Hv.
  - assert (Hc : v = 0 \/ v = 1 \/ v = 2) by lia.
    destruct Hc as [-> | [-> | ->]]; destruct var;
      unfold K6485.writeRate, K648x.writeRate; cbn [Z.ltb Z.gtb Z.compare orb Z.eqb Pos.compare
        Pos.compare_cont Pos.eqb];
      rewrite ?bind_ret_l, commands_writeOnly; vm_compute; reflexivity.
  - assert (Hg : (v <? 0) || (v >? 2) = true).
    { rewrite Z.gtb_ltb. apply orb_true_iff.
      destruct Hv; [left | right]; apply Z.ltb_lt; lia. }
    destruct var; unfold K6485.writeRate, K648x.writeRate; rewrite Hg; reflexivity.
Qed.

(** X14.  The integration rate 0, 1 or 2 is written as 6, 1 or 0.1 power line
    cycles; any other value is refused without an exchange. *)
Theorem rate_write_is_sent_only_in_range
    (var : Variant) (v : Z) (tr : Transport) (p : Port) :
  init p <> 0 ->
  (0 <= v <= 2 ->
     commands (perform_on var (WriteInt32 RATE_CMD v) tr p)
     = [":NPLC " ++ (if v =? 0 then "6" else if v =? 1 then "1" else "0.1")])
  /\ (v < 0 \/ 2 < v ->
     perform_on var (WriteInt32 RATE_CMD v) tr p = Returns asynError p []).
Proof. apply writeRate_commands. Qed.

Lemma rate_write_is_sent_only_in_range_witness :
  commands (perform_on (V6485 0) (WriteInt32 RATE_CMD 2) (answering "")
              (ready_port 0 some_data some_stats))
  = [":NPLC 0.1"]
  /\ perform_on (V6485 0) (WriteInt32 RATE_CMD 3) (answering "")
       (ready_port 0 some_data some_stats)
     = Returns asynError (ready_port 0 some_data some_stats) [].
Proof.
  split.
  - apply (proj1 (rate_write_is_sent_only_in_range (V6485 0) 2 (answering "")
             (ready_port 0 some_data some_stats) ltac:(discriminate))).
    lia.
  - apply (proj2 (rate_write_is_sent_only_in_range (V6485 0) 3 (answering "")
             (ready_port 0 some_data some_stats) ltac:(discriminate))).
    lia.
Defined.

(** X15.  The digital filter control of the 648x driver: 0 and 1 are written as
    MOV and REP, any other value is refused without an exchange; a reply
    MOV or REP reads back as 0 or 1, and any other reply is an error. *)
Theorem filter_control_is_MOV_or_REP
    (u : Z) (v : Z) (tr tr' : Transport) (p p' : Port) :
  init p <> 0 -> init p' <> 0 ->
  writeRead_status tr' "AVER:TCON?" = asynSuccess ->
  let reason := 6 in
  let reply := cstr (substring 0 (Z.to_nat (BUFFER_SIZE - 1))
                       (snd (fst (syncio_writeRead tr' "AVER:TCON?")))) in
  (v = 0 -> commands (perform_on (V648x u) (WriteInt32 reason v) tr p) = ["AVER:TCON MOV"])
  /\ (v = 1 -> commands (perform_on (V648x u) (WriteInt32 reason v) tr p) = ["AVER:TCON REP"])
  /\ (v <> 0 -> v <> 1 ->
      perform_on (V648x u) (WriteInt32 reason v) tr p = Returns asynError p [])
  /\ returned (K648x.readInt32 u reason tr' p')
     = Some (if String.eqb "MOV" reply then (asynSuccess, stored (VInt32 0))
             else if String.eqb "REP" reply then (asynSuccess, stored (VInt32 1))
             else (asynError, nothing)).
Proof.
  intros Hready Hready' Hst reason reply.
  assert (Hw : perform_on (V648x u) (WriteInt32 reason v) tr p
               = K648x.writeCommon K648x.DIGITAL_FILTER_CONTROL_CMD (VInt32 v) Int32 tr p).
  { cbn [perform_on perform_648x perform].
    etransitivity;
      [ eapply writeInt32_routed; [reflexivity | exact Hready | reflexivity | reflexivity]
      | reflexivity ]. }
  assert (Hr : K648x.readInt32 u reason tr' p'
               = K648x.readCommon u K648x.DIGITAL_FILTER_CONTROL_CMD Int32 tr' p').
  { unfold K648x.readInt32.
    etransitivity;
      [ eapply readInt32_routed; [reflexivity | exact Hready' | reflexivity | reflexivity]
      | reflexivity ]. }
  rewrite Hw, Hr. unfold K648x.writeCommon, K648x.readCommon.
  change (K648x.DIGITAL_FILTER_CONTROL_CMD =? K648x.DIGITAL_FILTER_CONTROL_CMD) with true.
  cbv iota. repeat split.
  - intros ->. cbn [Z.eqb Pos.eqb]. rewrite commands_writeOnly. reflexivity.
  - intros ->. cbn [Z.eqb Pos.eqb]. rewrite commands_writeOnly. reflexivity.
  - intros H0 H1. apply Z.eqb_neq in H0, H1. rewrite H0, H1. reflexivity.
  - unfold bind.
    destruct (writeRead_cases "AVER:TCON?" BUFFER_SIZE data_eom tr' p')
      as [(buf & po & -> & _ & Hbuf & _) | (s & po & Hs & Hs' & _ & _)].
    2:{ rewrite Hst in Hs'. subst s. discriminate. }
    change (cstr "AVER:TCON?") with "AVER:TCON?" in Hbuf. fold reply in Hbuf. subst buf.
    cbn [negb is_success]. unfold strcmp_eq. change (cstr "MOV") with "MOV".
    change (cstr "REP") with "REP".
    assert (Hidem : cstr reply = reply).
    { subst reply. generalize (substring 0 (Z.to_nat (BUFFER_SIZE - 1))
                                 (snd (fst (syncio_writeRead tr' "AVER:TCON?")))).
      intros s. induction s as [|c s IH]; [reflexivity|]. simpl.
      destruct (is_NUL c) eqn:E; [reflexivity|]. simpl. rewrite E, IH. reflexivity. }
    rewrite Hidem.
    destruct (String.eqb "MOV" reply); [reflexivity|].
    destruct (String.eqb "REP" reply); reflexivity.
Qed.

Lemma filter_control_is_MOV_or_REP_witness :
  commands (perform_on (V648x 0) (WriteInt32 6 1) (answering "")
              (ready_port 2 some_data some_stats)) = ["AVER:TCON REP"]
  /\ returned (K648x.readInt32 0 6 (answering "REP") (ready_port 2 some_data some_stats))
     = Some (asynSuccess, stored (VInt32 1)).
Proof.
  destruct (filter_control_is_MOV_or_REP 0 1 (answering "") (answering "REP")
              (ready_port 2 some_data some_stats) (ready_port 2 some_data some_stats)
              ltac:(discriminate) ltac:(discriminate) eq_refl) as (_ & H1 & _ & H3).
  split; [exact (H1 eq_refl) | exact H3].
Defined.

(** X16.  On the 648x driver a rate that was written reads back: when the device
    answers the query with the number of power line cycles that the write
    sent, the read returns the rate written. *)
Theorem rate_is_read_back_on_648x
    (u v : Z) (w : string) (tr tr' : Transport) (p p' : Port) :
  init p <> 0 -> init p' <> 0 ->
  0 <= v <= 2 ->
  commands (perform_on (V648x u) (WriteInt32 RATE_CMD v) tr p) = [":NPLC " ++ w] ->
  writeRead_status tr' ":NPLC?" = asynSuccess ->
  snd (fst (syncio_writeRead tr' ":NPLC?")) = w ->
  returned (K648x.readInt32 u RATE_CMD tr' p') = Some (asynSuccess, stored (VInt32 v)).
Proof.
  intros Hready Hready' Hv Hsent Hst Hbytes.
  rewrite (proj1 (writeRate_commands (V648x u) v tr p Hready) Hv) in Hsent.
  injection Hsent as Hw.
  assert (Hr : K648x.readInt32 u RATE_CMD tr' p' = K648x.readRate RATE_CMD Int32 tr' p').
  { unfold K648x.readInt32.
    etransitivity;
      [ eapply readInt32_routed; [reflexivity | exact Hready' | reflexivity | reflexivity]
      | reflexivity ]. }
  rewrite Hr. unfold K648x.readRate. unfold bind.
  destruct (writeRead_cases ":NPLC?" BUFFER_SIZE data_eom tr' p')
    as [(buf & po & -> & _ & Hbuf & _) | (s & po & Hs & Hs' & _ & _)].
  2:{ rewrite Hst in Hs'. subst s. discriminate. }
  change (cstr ":NPLC?") with ":NPLC?" in Hbuf. rewrite Hbytes, <- Hw in Hbuf.
  cbn [negb is_success ret returned].
  assert (Hc : v = 0 \/ v = 1 \/ v = 2) by lia.
  destruct Hc as [-> | [-> | ->]]; vm_compute in Hbuf; subst buf; vm_compute; reflexivity.
Qed.

Lemma rate_is_read_back_on_648x_witness :
  returned (K648x.readInt32 0 RATE_CMD (answering "0.1") (ready_port 2 some_data some_stats))
  = Some (asynSuccess, stored (VInt32 2)).
Proof.
  apply (rate_is_read_back_on_648x 0 2 "0.1" (answering "") (answering "0.1")
           (ready_port 2 some_data some_stats) (ready_port 2 some_data some_stats));
    try discriminate; try reflexivity.
  lia.
Defined.

(** ** Text reads *)

Lemma cstr_idem (s : string) : cstr (cstr s) = cstr s.
Proof.
  induction s as [|c s IH]; [reflexivity|]. simpl.
  destruct (is_NUL c) eqn:E; [reflexivity|]. simpl. rewrite E, IH. reflexivity.
Qed.

Lemma length_substring_0 (n : nat) (s : string) :
  String.length (substring 0 n s) = Nat.min n (String.length s).
Proof.
  revert n. induction s as [|c s IH]; intros [|n]; simpl; try reflexivity.
  rewrite IH. reflexivity.
Qed.

Lemma readCache_text (which : Z) (full : string) (tr : Transport) (p : Port) :
  (if which =? MODEL_CMD then Some (cstr_at (model p) 0)
   else if which =? SERIAL_CMD then option_map (cstr_at (model p)) (serial p)
   else if which =? DIG_REV_CMD then option_map (cstr_at (model p)) (dig_rev p)
   else if which =? DISP_REV_CMD then option_map (cstr_at (model p)) (disp_rev p)
   else if which =? BRD_REV_CMD then option_map (cstr_at (model p)) (brd_rev p)
   else None) = Some full ->
  cstr full = full ->
  readCache which Octet tr p
  = Returns (asynSuccess,
             {| out_data := Some (VOctet (substring 0 39 full));
                out_length := Some (Z.of_nat (Nat.min 39 (String.length full)));
                out_eom := Some 0 |}) p [].
Proof.
  intros Hsel Hfull. unfold readCache.
  rewrite (bind_silent_eq get_port _ tr p p eq_refl).
  rewrite Hsel. cbn [deref]. rewrite bind_ret_l.
  unfold strlen. rewrite Hfull.
  destruct (Z.of_nat (String.length full) <? 40) eqn:E.
  - apply Z.ltb_lt in E. rewrite substring_all by lia.
    rewrite Nat.min_r by lia. reflexivity.
  - apply Z.ltb_ge in E. rewrite Nat.min_l by lia. reflexivity.
Qed.

(** X17.  A text read of an identification parameter hands back the first 39
    characters of the string that the set up cut out of the reply, with
    their number as the length, and makes no exchange. *)
Theorem identification_read_is_cut_to_39_characters
    (which : Z) (full : string) (tr : Transport) (p : Port) :
  In (which, Some full)
     [ (MODEL_CMD, Some (id_model (identification p)));
       (SERIAL_CMD, id_serial (identification p));
       (DIG_REV_CMD, id_dig_rev (identification p));
       (DISP_REV_CMD, id_disp_rev (identification p));
       (BRD_REV_CMD, id_brd_rev (identification p)) ] ->
  exists text,
    readCache which Octet tr p
    = Returns (asynSuccess,
               {| out_data := Some (VOctet text);
                  out_length := Some (Z.of_nat (String.length text));
                  out_eom := Some 0 |}) p []
    /\ text = substring 0 39 full
    /\ (String.length text <= 39)%nat.
Proof.
  intros Hin. exists (substring 0 39 full).
  rewrite length_substring_0. split; [|split; [reflexivity | lia]].
  unfold identification in Hin.
  cbn [id_model id_serial id_dig_rev id_disp_rev id_brd_rev] in Hin. simpl In in Hin.
  destruct Hin as [H | [H | [H | [H | [H | []]]]]].
  - inversion H; subst. apply readCache_text; [reflexivity | apply cstr_idem].
  - destruct (serial p) eqn:E; inversion H; subst.
    apply readCache_text; [simpl; rewrite E; reflexivity | apply cstr_idem].
  - destruct (dig_rev p) eqn:E; inversion H; subst.
    apply readCache_text; [simpl; rewrite E; reflexivity | apply cstr_idem].
  - destruct (disp_rev p) eqn:E; inversion H; subst.
    apply readCache_text; [simpl; rewrite E; reflexivity | apply cstr_idem].
  - destruct (brd_rev p) eqn:E; inversion H; subst.
    apply readCache_text; [simpl; rewrite E; reflexivity | apply cstr_idem].
Qed.

Lemma identification_read_is_cut_to_39_characters_witness :
  exists text,
    readCache SERIAL_CMD Octet (answering "") (ready_port 2 some_data some_stats)
    = Returns (asynSuccess,
               {| out_data := Some (VOctet text);
                  out_length := Some (Z.of_nat (String.length text));
                  out_eom := Some 0 |}) (ready_port 2 some_data some_stats) []
    /\ text = substring 0 39 "SN001"
    /\ (String.length text <= 39)%nat.
Proof.
  apply (identification_read_is_cut_to_39_characters SERIAL_CMD "SN001" (answering "")
           (ready_port 2 some_data some_stats)).
  right. left. reflexivity.
Defined.

(** ** Accesses that reach the simple table *)

Section SimpleRouted.

Variable commandTable : list Command.
Variable genCommandTable : list GenCommand.
Variable simpleCommandTable : list SimpleCommand.
Variables (r : Command) (e : SimpleCommand) (tr : Transport) (p : Port).
Hypothesis Hready : init p <> 0.
Hypothesis Hsimple : type r = CMD_SIMPLE.
Hypothesis He : element simpleCommandTable (id r) = Some e.

Ltac route Hrow :=
  rewrite (bind_silent_eq get_port _ tr p p eq_refl);
  rewrite (bind_silent_eq _ _ tr p r (index_row _ _ _ tr p Hrow));
  rewrite (proj2 (Z.eqb_neq _ _) Hready), Hsimple;
  change (CMD_SIMPLE =? CMD_GEN) with false;
  change (CMD_SIMPLE =? CMD_SIMPLE) with true; cbv iota.

Lemma perform_simple (a : Access) :
  row commandTable (reason_of a) = Some r ->
  perform commandTable genCommandTable simpleCommandTable a tr p
  = match a with
    | ReadFloat64 _ | ReadInt32 _ | ReadOctet _ =>
        (x <- readSimpleData simpleCommandTable (id r) (kind_of a) ;; ret (fst x)) tr p
    | WriteFloat64 _ v =>
        writeSimpleData simpleCommandTable (id r) (VFloat64 v) Float64 tr p
    | WriteInt32 _ v =>
        writeSimpleData simpleCommandTable (id r) (VInt32 v) Int32 tr p
    | WriteOctet _ s =>
        (x <- (status <- writeSimpleData simpleCommandTable (id r) (VOctetAddr s) Octet ;;
               ret (status, Some (Z.of_nat (strlen s)))) ;; ret (fst x)) tr p
    end.
Proof.
  intros Hrow. destruct a; cbn [perform reason_of kind_of] in *.
  - unfold bind at 1. unfold Driver.readFloat64. route Hrow. reflexivity.
  - unfold Driver.writeFloat64. route Hrow. reflexivity.
  - unfold bind at 1. unfold Driver.readInt32. route Hrow. reflexivity.
  - unfold Driver.writeInt32. route Hrow. reflexivity.
  - unfold bind at 1. unfold Driver.readOctet. route Hrow. reflexivity.
  - unfold bind at 1. unfold Driver.writeOctet. route Hrow. reflexivity.
Qed.

Lemma readSimpleData_other_kind (Iface : IfaceType) :
  simple_type e <> type_code Iface ->
  readSimpleData simpleCommandTable (id r) Iface tr p = Returns (asynSuccess, nothing) p [].
Proof.
  intros H. unfold readSimpleData.
  rewrite (bind_silent_eq _ _ tr p e (index_element _ _ _ tr p He)).
  rewrite (proj2 (Z.eqb_neq _ _) H). reflexivity.
Qed.

Lemma writeSimpleData_other_kind (data : Value) (Iface : IfaceType) :
  simple_type e <> SIMPLE_TRIGGER -> simple_type e <> type_code Iface ->
  writeSimpleData simpleCommandTable (id r) data Iface tr p = Returns asynSuccess p [].
Proof.
  intros Ht H. unfold writeSimpleData.
  rewrite (bind_silent_eq _ _ tr p e (index_element _ _ _ tr p He)).
  rewrite (proj2 (Z.eqb_neq _ _) H), (proj2 (Z.eqb_neq _ _) Ht). reflexivity.
Qed.

Lemma writeSimpleData_trigger (data : Value) (Iface : IfaceType) :
  simple_type e = SIMPLE_TRIGGER ->
  writeSimpleData simpleCommandTable (id r) data Iface tr p = writeOnly (cmd_str e) tr p.
Proof.
  intros Ht. unfold writeSimpleData.
  rewrite (bind_silent_eq _ _ tr p e (index_element _ _ _ tr p He)).
  rewrite Ht. change (SIMPLE_TRIGGER =? SIMPLE_TRIGGER) with true. cbv iota.
  rewrite bind_ret_l. rewrite !writeOnly_eq. unfold printf_s.
  unfold write_status, strlen. rewrite !cstr_idem. reflexivity.
Qed.

End SimpleRouted.

Lemma perform_on_simple (var : Variant) (a : Access) (r : Command) (e : SimpleCommand) tr p :
  init p <> 0 ->
  row (commandTable_of var) (reason_of a) = Some r ->
  type r = CMD_SIMPLE ->
  element (simpleCommandTable_of var) (id r) = Some e ->
  (simple_type e <> type_code (kind_of a) ->
   (is_write a = true -> simple_type e <> SIMPLE_TRIGGER) ->
   perform_on var a tr p = Returns asynSuccess p [])
  /\ (is_write a = true -> simple_type e = SIMPLE_TRIGGER ->
      perform_on var a tr p = writeOnly (cmd_str e) tr p).
Proof.
  intros Hready Hrow Hsimple He.
  assert (Hp : perform_on var a tr p
               = perform (commandTable_of var)
                   (match var with
                    | V6485 x => K6485.genCommandTable x
                    | V648x x => K648x.genCommandTable x
                    end) (simpleCommandTable_of var) a tr p)
    by (destruct var; reflexivity).
  rewrite Hp.
  rewrite (perform_simple _ _ _ r tr p Hready Hsimple a Hrow).
  split.
  - intros Hkind Htrig. destruct a; cbn [kind_of is_write] in *.
    + rewrite (bind_silent_eq _ _ tr p _
                 (readSimpleData_other_kind _ r e tr p He _ Hkind)). reflexivity.
    + apply (writeSimpleData_other_kind _ r e tr p He); auto.
    + rewrite (bind_silent_eq _ _ tr p _
                 (readSimpleData_other_kind _ r e tr p He _ Hkind)). reflexivity.
    + apply (writeSimpleData_other_kind _ r e tr p He); auto.
    + rewrite (bind_silent_eq _ _ tr p _
                 (readSimpleData_other_kind _ r e tr p He _ Hkind)). reflexivity.
    + unfold bind.
      rewrite (writeSimpleData_other_kind _ r e tr p He _ _ (Htrig eq_refl) Hkind).
      reflexivity.
  - intros Hw Htrig. destruct a; cbn [is_write] in Hw; try discriminate.
    + apply (writeSimpleData_trigger _ r e tr p He); exact Htrig.
    + apply (writeSimpleData_trigger _ r e tr p He); exact Htrig.
    + unfold bind. rewrite (writeSimpleData_trigger _ r e tr p He _ _ Htrig).
      rewrite writeOnly_eq. reflexivity.
Qed.

(** X18.  An access to a parameter of the simple table through an interface of
    another kind than the parameter's is dropped: asynSuccess, no
    exchange, nothing changed.  (A trigger has no kind: every read of it is
    dropped, and no write.) *)
Theorem simple_access_of_another_kind_is_dropped
    (var : Variant) (a : Access) (r : Command) (e : SimpleCommand)
    (tr : Transport) (p : Port) :
  init p <> 0 ->
  row (commandTable_of var) (reason_of a) = Some r ->
  type r = CMD_SIMPLE ->
  element (simpleCommandTable_of var) (id r) = Some e ->
  simple_type e <> type_code (kind_of a) ->
  (is_write a = true -> simple_type e <> SIMPLE_TRIGGER) ->
  perform_on var a tr p = Returns asynSuccess p [].
Proof.
  intros Hready Hrow Hsimple He.
  exact (proj1 (perform_on_simple var a r e tr p Hready Hrow Hsimple He)).
Qed.

Lemma simple_access_of_another_kind_is_dropped_witness :
  perform_on (V6485 0) (WriteFloat64 7 1.0%float) (answering "")
    (ready_port 0 some_data some_stats)
  = Returns asynSuccess (ready_port 0 some_data some_stats) [].
Proof.
  apply (simple_access_of_another_kind_is_dropped (V6485 0) (WriteFloat64 7 1.0%float)
           (K6485.command "ZERO_CHECK" CMD_SIMPLE K6485.ZERO_CHECK_CMD)
           {| simple_type := SIMPLE_INT32; cmd_str := "SYST:ZCH" |});
    try reflexivity; discriminate.
Defined.

(** X19.  A write to a trigger parameter sends the bare command, whatever the
    interface and the value written. *)
Theorem trigger_write_sends_the_bare_command
    (var : Variant) (a : Access) (r : Command) (e : SimpleCommand)
    (tr : Transport) (p : Port) :
  init p <> 0 ->
  row (commandTable_of var) (reason_of a) = Some r ->
  type r = CMD_SIMPLE ->
  element (simpleCommandTable_of var) (id r) = Some e ->
  is_write a = true ->
  simple_type e = SIMPLE_TRIGGER ->
  perform_on var a tr p = writeOnly (cmd_str e) tr p.
Proof.
  intros Hready Hrow Hsimple He.
  exact (proj2 (perform_on_simple var a r e tr p Hready Hrow Hsimple He)).
Qed.

Lemma trigger_write_sends_the_bare_command_witness :
  perform_on (V648x 0) (WriteOctet 8 "anything") (answering "")
    (ready_port 2 some_data some_stats)
  = writeOnly "*RST" (answering "") (ready_port 2 some_data some_stats).
Proof.
  apply (trigger_write_sends_the_bare_command (V648x 0) (WriteOctet 8 "anything")
           (K648x.command "RESET" K648x.DEV_ALL CMD_SIMPLE K648x.RESET_CMD)
           {| simple_type := SIMPLE_TRIGGER; cmd_str := "*RST" |});
    try reflexivity; discriminate.
Defined.

(** ** The cached snapshot *)

Lemma bit_div (raw k : Z) : 0 <= k -> bit raw k = (raw / 2 ^ k) mod 2.
Proof. intros H. unfold bit. apply Z.testbit_spec'. exact H. Qed.

Lemma limit_result_div (raw : Z) : limit_result raw = (raw / 32) mod 4.
Proof.
  unfold limit_result. change 3 with (Z.ones 2).
  rewrite Z.land_ones by lia. rewrite Z.shiftr_div_pow2 by lia. reflexivity.
Qed.

(** X20.  The integer reads of the cached status decode the raw word of the last
    snapshot: a flag is the bit of its position, and the limit result is
    the two bits from position 5 when the limit test bit is set, and 3
    when it is not.  No exchange is made. *)
Theorem status_reads_decode_the_raw_word (tr : Transport) (p : Port) :
  let raw := status_raw (data p) in
  (forall which k,
     In (which, k)
        [ (STATUS_OVERFLOW_CMD, 0); (STATUS_FILTER_CMD, 1); (STATUS_MATH_CMD, 2);
          (STATUS_NULL_CMD, 3); (STATUS_OVERVOLTAGE_CMD, 7);
          (STATUS_ZERO_CHECK_CMD, 9); (STATUS_ZERO_CORRECT_CMD, 10) ] ->
     readCache which Int32 tr p
     = Returns (asynSuccess, stored (VInt32 ((raw / 2 ^ k) mod 2))) p [])
  /\ readCache STATUS_LIMITS_CMD Int32 tr p
     = Returns (asynSuccess,
                stored (VInt32 (if (raw / 16) mod 2 =? 0 then 3 else (raw / 32) mod 4))) p []
  /\ readCache STATUS_RAW_CMD Int32 tr p = Returns (asynSuccess, stored (VInt32 raw)) p []
  /\ readCache TIMESTAMP_CMD Int32 tr p
     = Returns (asynSuccess, stored (VInt32 (timestamp (data p)))) p [].
Proof.
  intros raw. split; [|split; [|split]].
  - intros which k Hin. simpl In in Hin.
    destruct Hin as [H | [H | [H | [H | [H | [H | [H | []]]]]]]];
      inversion H; subst which k; unfold readCache;
      rewrite (bind_silent_eq get_port _ tr p p eq_refl);
      cbn [Z.eqb Pos.eqb TIMESTAMP_CMD STATUS_RAW_CMD STATUS_OVERFLOW_CMD STATUS_FILTER_CMD
           STATUS_MATH_CMD STATUS_NULL_CMD STATUS_LIMITS_CMD STATUS_OVERVOLTAGE_CMD
           STATUS_ZERO_CHECK_CMD STATUS_ZERO_CORRECT_CMD];
      unfold overflow, filter_enabled, math_enabled, null_enabled, overvoltage,
        zero_check_enabled, zero_correct_enabled;
      rewrite bit_div by lia; reflexivity.
  - unfold readCache. rewrite (bind_silent_eq get_port _ tr p p eq_refl).
    cbn [Z.eqb Pos.eqb TIMESTAMP_CMD STATUS_RAW_CMD STATUS_OVERFLOW_CMD STATUS_FILTER_CMD
         STATUS_MATH_CMD STATUS_NULL_CMD STATUS_LIMITS_CMD].
    unfold limit_test. rewrite bit_div, limit_result_div by lia. fold raw.
    change (2 ^ 4) with 16.
    destruct ((raw / 16) mod 2 =? 0); reflexivity.
  - reflexivity.
  - reflexivity.
Qed.

(** X21.  What a sensor reading stored is what the cached reads hand back
    afterwards: the second field of the reply as the time stamp, the third
    as the raw status. *)
Theorem cached_reads_follow_the_sensor_reading
    (t0 t1 t2 : string) (ts raw : Z) (which : Z) (Iface : IfaceType)
    (tr tr2 : Transport) (p : Port) :
  field "," t0 = true -> field "," t1 = true -> field "," t2 = true ->
  let reply := t0 ++ "," ++ t1 ++ "," ++ t2 in
  Z.of_nat (String.length reply) < BUFFER_SIZE ->
  writeRead_status tr "READ?" = asynSuccess ->
  snd (fst (syncio_writeRead tr "READ?")) = reply ->
  double_to_int (atof t1) = Some ts ->
  double_to_int (atof t2) = Some raw ->
  exists p',
    final_port (readSensorReading which Iface tr p) = Some p'
    /\ readCache TIMESTAMP_CMD Int32 tr2 p' = Returns (asynSuccess, stored (VInt32 ts)) p' []
    /\ readCache STATUS_RAW_CMD Int32 tr2 p' = Returns (asynSuccess, stored (VInt32 raw)) p' []
    /\ readCache STATUS_OVERFLOW_CMD Int32 tr2 p'
       = Returns (asynSuccess, stored (VInt32 (raw mod 2))) p' [].
Proof.
  intros H0 H1 H2 reply Hlen Hst Hbytes Hts Hraw.
  destruct (readSensorReading_fields t0 t1 t2 ts raw which Iface tr p
              H0 H1 H2 Hlen Hst Hbytes Hts Hraw)
    as (out & p' & Hrun & Hlast & _).
  exists p'. rewrite Hrun. split; [reflexivity|].
  unfold last_reading in Hlast. injection Hlast as _ Hts' Hraw'.
  unfold readCache. rewrite !(bind_silent_eq get_port _ tr2 p' p' eq_refl).
  cbn [Z.eqb Pos.eqb TIMESTAMP_CMD STATUS_RAW_CMD STATUS_OVERFLOW_CMD].
  rewrite Hts', Hraw'. unfold overflow. rewrite bit_div by lia.
  change (2 ^ 0) with 1. rewrite Z.div_1_r. repeat split.
Qed.

Lemma status_reads_decode_the_raw_word_witness :
  readCache STATUS_ZERO_CHECK_CMD Int32 (answering "") (ready_port 0 some_data some_stats)
  = Returns (asynSuccess, stored (VInt32 ((96 / 2 ^ 9) mod 2)))
      (ready_port 0 some_data some_stats) [].
Proof.
  apply (proj1 (status_reads_decode_the_raw_word (answering "")
                  (ready_port 0 some_data some_stats)) STATUS_ZERO_CHECK_CMD 9).
  simpl. tauto.
Defined.

Lemma cached_reads_follow_the_sensor_reading_witness :
  exists p',
    final_port (readSensorReading READ_CMD Int32 (answering "+1.5E-09A,+1.0E+01,+9.7E+01")
                  (ready_port 0 some_data some_stats)) = Some p'
    /\ readCache TIMESTAMP_CMD Int32 (answering "") p'
       = Returns (asynSuccess, stored (VInt32 10)) p' []
    /\ readCache STATUS_RAW_CMD Int32 (answering "") p'
       = Returns (asynSuccess, stored (VInt32 97)) p' []
    /\ readCache STATUS_OVERFLOW_CMD Int32 (answering "") p'
       = Returns (asynSuccess, stored (VInt32 (97 mod 2))) p' [].
Proof.
  apply (cached_reads_follow_the_sensor_reading "+1.5E-09A" "+1.0E+01" "+9.7E+01"
           10 97 READ_CMD Int32);
    vm_compute; reflexivity.
Defined.

(** ** Reading a range *)

Lemma strchr_from_none (c : ascii) (s : string) (pos : nat) :
  free_of c s = true -> strchr_from s c pos = None.
Proof.
  revert pos. induction s as [|d s IH]; intros pos H; [reflexivity|].
  apply free_of_head in H as (H1 & H2 & H3). simpl. rewrite H1, H2. apply IH. exact H3.
Qed.

Lemma range_query_whole (which : Z) (verb : string) :
  range_verb which = Some verb -> cstr (verb ++ "?") = verb ++ "?".
Proof.
  intros H.
  destruct (range_verb_cases _ _ H) as [[_ ->] | [[_ ->] | [_ ->]]]; reflexivity.
Qed.

(** X22.  An integer read of a range takes the decimal numeral behind the
    first 'E' of the reply as the exponent and hands back 9 plus it; a reply
    without an 'E' is an error, after the exchange. *)
Theorem range_read_is_nine_plus_the_exponent
    (which : Z) (verb m : string) (e : Z) (reply : string) (tr : Transport) (p : Port) :
  range_verb which = Some verb ->
  free_of NUL reply = true ->
  Z.of_nat (String.length reply) < BUFFER_SIZE ->
  writeRead_status tr (verb ++ "?") = asynSuccess ->
  snd (fst (syncio_writeRead tr (verb ++ "?"))) = reply ->
  (reply = m ++ "E" ++ printf_d e -> free_of "E" m = true ->
   INT_MIN <= e <= INT_MAX - 9 ->
   returned (readRange which Int32 tr p) = Some (asynSuccess, stored (VInt32 (9 + e))))
  /\ (free_of "E" reply = true ->
      returned (readRange which Int32 tr p) = Some (asynError, nothing)).
Proof.
  intros Hverb Hfree Hlen Hst Hbytes.
  assert (Hrun : exists po,
             readRange which Int32 tr p
             = match strchr reply 0 "E" with
               | None => Returns (asynError, nothing) po [WroteRead (verb ++ "?") asynSuccess]
               | Some k =>
                   Returns (asynSuccess,
                            stored (VInt32 (wrap_int (9 + atoi (advance reply (S k))))))
                     po [WroteRead (verb ++ "?") asynSuccess]
               end).
  { unfold readRange. rewrite Hverb. unfold bind.
    destruct (writeRead_cases (verb ++ "?") BUFFER_SIZE data_eom tr p)
      as [(buf & po & -> & _ & Hbuf & _) | (s & po & Hs & Hs' & _ & _)].
    2:{ rewrite Hst in Hs'. subst s. discriminate. }
    rewrite (range_query_whole _ _ Hverb) in *. rewrite Hbytes in Hbuf.
    rewrite substring_all in Hbuf by (unfold BUFFER_SIZE in *; lia).
    rewrite (cstr_free NUL _ Hfree) in Hbuf. subst buf.
    cbn [negb is_success]. eexists.
    destruct (strchr reply 0 "E"); reflexivity. }
  destruct Hrun as (po & Hrun). rewrite Hrun. split.
  - intros -> Hm He.
    pose proof (strchr_app "E" "" m (printf_d e) eq_refl Hm) as Hfind.
    change (strchr (m ++ "E" ++ printf_d e) 0 "E" = Some (String.length m)) in Hfind.
    rewrite Hfind. cbn [returned].
    change (m ++ "E" ++ printf_d e) with (m ++ String "E" (printf_d e)).
    replace (S (String.length m)) with (String.length (m ++ "E"))
      by (rewrite length_append; simpl; lia).
    replace (m ++ String "E" (printf_d e)) with ((m ++ "E") ++ printf_d e)
      by (rewrite append_assoc; reflexivity).
    rewrite advance_app, atoi_printf_d by (unfold INT_MIN, INT_MAX in *; lia).
    rewrite wrap_int_id by (unfold INT_MIN, INT_MAX in *; lia). reflexivity.
  - intros HE. unfold strchr.
    replace (advance reply 0) with reply by (destruct reply; reflexivity).
    rewrite (strchr_from_none "E" reply 0 HE). reflexivity.
Qed.

Lemma range_read_is_nine_plus_the_exponent_witness :
  returned (readRange RANGE_CMD Int32 (answering "2.100000E-6")
              (ready_port 0 some_data some_stats))
  = Some (asynSuccess, stored (VInt32 (9 + -6))).
Proof.
  apply (proj1 (range_read_is_nine_plus_the_exponent RANGE_CMD ":RANGE" "2.100000" (-6)
                  "2.100000E-6" (answering "2.100000E-6")
                  (ready_port 0 some_data some_stats)
                  eq_refl eq_refl eq_refl eq_refl eq_refl));
    vm_compute; try reflexivity.
  split; discriminate.
Defined.
